(** * Wikipedia page-view comparison (app.py): a shallow embedding

    The module [app.py] extracts two article titles from Wikipedia URLs,
    validates (or defaults) a date range, fetches the daily page views of
    both articles through a memoised HTTP call, merges the two series on
    the sorted union of their dates and hands the table to a chart
    renderer.  Every Python function of the module is embedded below as a
    Rocq function with the same name.

    Conventions.
    - A Python [str] is a Rocq [string]; a character is its code point,
      restricted to 0..255.  Comparison of strings is by code point, as in
      Python.
    - A Python [int] is a [Z].
    - A value decoded from JSON is a [Json.value]; the program subscripts,
      slices and iterates such values without checking their type, so
      these operations are embedded for every type of value.
    - A call that may raise returns [result A = exn + A]: [inl e] when the
      exception [e] propagates, [inr v] when the call returns [v].
    - The memoisation cache of [get_pageviews] and the outbound HTTP
      traffic are threaded through explicitly as a [state]. *)

From Stdlib Require Import ZArith Lia Ascii String DecimalString.
From stdpp Require Import gmap strings list sorting.

Local Open Scope Z_scope.
#[local] Set Warnings "-clear-no-such-hyp".

(** ** Python exceptions *)

Module Py.

(** The exception classes the program can observe.  [ValueError] stands
    for [ValueError] and its subclasses, [HTTPError] for
    [requests.exceptions.HTTPError], [OtherError] for any further
    subclass of [Exception]. *)
Inductive exn_class : Type :=
| ValueError
| HTTPError
| IndexError
| OverflowError
| TypeError
| KeyError
| OtherError.

(** An exception object: its class and [str(e)]. *)
Record exn : Type := Raise { exn_cls : exn_class; exn_str : string }.

Definition result (A : Type) : Type := (exn + A)%type.

(** [isinstance(e, ValueError)], the test of [except ValueError]. *)
Definition is_ValueError (e : exn) : bool :=
  match exn_cls e with
  | ValueError => true
  | _ => false
  end.

(** [isinstance(e, requests.exceptions.HTTPError)]. *)
Definition is_HTTPError (e : exn) : bool :=
  match exn_cls e with
  | HTTPError => true
  | _ => false
  end.

#[global] Instance exn_class_eq_dec : EqDecision exn_class.
Proof. solve_decision. Defined.

#[global] Instance exn_eq_dec : EqDecision exn.
Proof. solve_decision. Defined.

(** Sequencing of calls that may raise: the first exception propagates. *)
#[global] Instance result_ret : MRet result := λ A (x : A), inr x.

#[global] Instance result_bind : MBind result :=
  λ A B (f : A → result B) (r : result A),
  match r with
  | inr x => f x
  | inl e => inl e
  end.

End Py.
Export Py.

(** ** Python string primitives *)

Module PyStr.

(** [s.startswith(p)]. *)
Fixpoint startswith (s p : string) {struct p} : bool :=
  match p with
  | EmptyString => true
  | String a p' =>
      match s with
      | EmptyString => false
      | String b s' => if Ascii.eqb a b then startswith s' p' else false
      end
  end.

(** [s[:n]]. *)
Fixpoint take (n : nat) (s : string) : string :=
  match n, s with
  | S k, String a s' => String a (take k s')
  | _, _ => EmptyString
  end.

(** [s.split(sep)] for a non-empty separator: the pieces between the
    leftmost, non-overlapping occurrences of [sep].  [skip] counts the
    characters of a matched separator that are still to be dropped and
    [cur] is the piece under construction. *)
Fixpoint split_aux (sep : string) (skip : nat) (cur s : string) : list string :=
  match s with
  | EmptyString => [cur]
  | String a s' =>
      match skip with
      | S k => split_aux sep k cur s'
      | O =>
          if startswith s sep
          then cur :: split_aux sep (String.length sep - 1) EmptyString s'
          else split_aux sep O (cur +:+ String a EmptyString) s'
      end
  end.

Definition split (sep s : string) : list string :=
  split_aux sep O EmptyString s.

(** [str(n)] for an integer. *)
Definition of_Z (n : Z) : string := NilZero.string_of_int (Z.to_int n).

(** A two-digit, zero-padded field as produced by [%m] and [%d] of
    [strftime]. *)
Definition pad2 (n : Z) : string :=
  if n <? 10 then String "0"%char (of_Z n) else of_Z n.

(** Truthiness of a string: [not s] holds exactly for the empty string. *)
Definition is_empty (s : string) : bool :=
  match s with
  | EmptyString => true
  | String _ _ => false
  end.

End PyStr.

(** ** URL title extractor *)

Definition wiki_prefix : string := "https://en.wikipedia.org/wiki/".

(** [extract_title(url)]: the prefix test, then element 1 of
    [url.split("wiki/")].  A missing element 1 is Python's [IndexError]. *)
Definition extract_title (url : string) : result string :=
  if negb (PyStr.startswith url wiki_prefix)
  then inl (Raise ValueError "URL must be from en.wikipedia.org")
  else
    match PyStr.split "wiki/" url with
    | _ :: title :: _ => inr title
    | _ => inl (Raise IndexError "list index out of range")
    end.

(** ** The calendar of Python's [datetime] module

    The proleptic Gregorian calendar as [datetime] implements it: the
    helper functions keep the names they have in the standard library.
    A [datetime] value is represented by its date fields; the time of day
    influences neither [strftime('%Y%m%d')] nor the subtraction of whole
    days. *)

Module Calendar.

Record datetime : Type := Datetime { year : Z; month : Z; day : Z }.

Definition MAXORDINAL : Z := 3652059.

Definition is_leap (y : Z) : bool :=
  (y mod 4 =? 0) && (negb (y mod 100 =? 0) || (y mod 400 =? 0)).

Definition DAYS_IN_MONTH : list Z :=
  [-1; 31; 28; 31; 30; 31; 30; 31; 31; 30; 31; 30; 31].

Definition DAYS_BEFORE_MONTH : list Z :=
  [-1; 0; 31; 59; 90; 120; 151; 181; 212; 243; 273; 304; 334].

Definition days_before_year (y : Z) : Z :=
  let y := y - 1 in y * 365 + y / 4 - y / 100 + y / 400.

Definition days_in_month (y m : Z) : Z :=
  if (m =? 2) && is_leap y then 29 else nth (Z.to_nat m) DAYS_IN_MONTH 0.

Definition days_before_month (y m : Z) : Z :=
  nth (Z.to_nat m) DAYS_BEFORE_MONTH 0
  + (if (2 <? m) && is_leap y then 1 else 0).

Definition ymd2ord (y m d : Z) : Z :=
  days_before_year y + days_before_month y m + d.

Definition DI400Y : Z := Eval cbv in days_before_year 401.
Definition DI100Y : Z := Eval cbv in days_before_year 101.
Definition DI4Y : Z := Eval cbv in days_before_year 5.

Definition ord2ymd (n : Z) : datetime :=
  let n := n - 1 in
  let n400 := n / DI400Y in
  let n := n mod DI400Y in
  let y := n400 * 400 + 1 in
  let n100 := n / DI100Y in
  let n := n mod DI100Y in
  let n4 := n / DI4Y in
  let n := n mod DI4Y in
  let n1 := n / 365 in
  let n := n mod 365 in
  let y := y + n100 * 100 + n4 * 4 + n1 in
  if (n1 =? 4) || (n100 =? 4) then Datetime (y - 1) 12 31
  else
    let leapyear := (n1 =? 3) && (negb (n4 =? 24) || (n100 =? 3)) in
    let m := Z.shiftr (n + 50) 5 in
    let preceding :=
      nth (Z.to_nat m) DAYS_BEFORE_MONTH 0
      + (if (2 <? m) && leapyear then 1 else 0) in
    if n <? preceding
    then
      let m := m - 1 in
      let preceding :=
        preceding
        - (nth (Z.to_nat m) DAYS_IN_MONTH 0
           + (if (m =? 2) && leapyear then 1 else 0)) in
      Datetime y m (n - preceding + 1)
    else Datetime y m (n - preceding + 1).

Definition toordinal (d : datetime) : Z :=
  ymd2ord (year d) (month d) (day d).

(** The range check of the [date] constructor. *)
Definition valid_ymd (y m d : Z) : bool :=
  (1 <=? y) && (y <=? 9999) && (1 <=? m) && (m <=? 12)
  && (1 <=? d) && (d <=? days_in_month y m).

(** [d - timedelta(days=n)]: [OverflowError] when the result leaves the
    supported range of ordinals. *)
Definition sub_days (d : datetime) (n : Z) : result datetime :=
  let o := toordinal d - n in
  if (0 <? o) && (o <=? MAXORDINAL)
  then inr (ord2ymd o)
  else inl (Raise OverflowError "date value out of range").

(** [d.strftime('%Y%m%d')]: the year in decimal (four digits from year
    1000 on), then month and day as two digits each. *)
Definition strftime_Ymd (d : datetime) : string :=
  PyStr.of_Z (year d) +:+ PyStr.pad2 (month d) +:+ PyStr.pad2 (day d).

End Calendar.
Export Calendar.

(** ** Date validator

    [datetime.strptime(s, '%Y%m%d')] compiles the format to the regular
    expression
    [(?P<Y>\d\d\d\d)(?P<m>1[0-2]|0[1-9]|[1-9])(?P<d>3[0-1]|[1-2]\d|0[1-9]|[1-9]| [1-9])],
    matches it at the start of the input, rejects input that the match
    leaves unconverted, converts the groups with [int] and builds the date,
    which checks the ranges.  Each group is embedded as the list of its
    successful alternatives, in the order the backtracking matcher tries
    them: the integer value of the group and the input that remains. *)

Module Strptime.

(** [\d] on code points below 256. *)
Definition is_digit (c : ascii) : bool :=
  let n := Z.of_N (N_of_ascii c) in (48 <=? n) && (n <=? 57).

Definition digit (c : ascii) : Z := Z.of_N (N_of_ascii c) - 48.

(** A character class [lo-hi] of digits. *)
Definition in_range (lo hi : Z) (c : ascii) : bool :=
  is_digit c && (lo <=? digit c) && (digit c <=? hi).

(** One character of a class, as a value. *)
Definition one (lo hi : Z) (s : string) : list (Z * string) :=
  match s with
  | String c r => if in_range lo hi c then [(digit c, r)] else []
  | EmptyString => []
  end.

(** A literal character. *)
Definition lit (a : ascii) (s : string) : list (unit * string) :=
  match s with
  | String c r => if Ascii.eqb a c then [(tt, r)] else []
  | EmptyString => []
  end.

(** [(?P<Y>\d\d\d\d)] *)
Definition group_Y (s : string) : list (Z * string) :=
  '(a, s) ← one 0 9 s;
  '(b, s) ← one 0 9 s;
  '(c, s) ← one 0 9 s;
  '(d, s) ← one 0 9 s;
  [(a * 1000 + b * 100 + c * 10 + d, s)].

(** [(?P<m>1[0-2]|0[1-9]|[1-9])] *)
Definition group_m (s : string) : list (Z * string) :=
  ('(_, s) ← lit "1" s; '(b, s) ← one 0 2 s; [(10 + b, s)])
  ++ ('(_, s) ← lit "0" s; '(b, s) ← one 1 9 s; [(b, s)])
  ++ one 1 9 s.

(** [(?P<d>3[0-1]|[1-2]\d|0[1-9]|[1-9]| [1-9])] *)
Definition group_d (s : string) : list (Z * string) :=
  ('(_, s) ← lit "3" s; '(b, s) ← one 0 1 s; [(30 + b, s)])
  ++ ('(a, s) ← one 1 2 s; '(b, s) ← one 0 9 s; [(a * 10 + b, s)])
  ++ ('(_, s) ← lit "0" s; '(b, s) ← one 1 9 s; [(b, s)])
  ++ one 1 9 s
  ++ ('(_, s) ← lit " " s; one 1 9 s).

(** All matches of the whole expression at the start of [s], in
    priority order; [re.match] returns the first. *)
Definition matches (s : string) : list (Z * Z * Z * string) :=
  '(y, s) ← group_Y s;
  '(m, s) ← group_m s;
  '(d, s) ← group_d s;
  [(y, m, d, s)].

(** Why [strptime] raised its [ValueError]. *)
Inductive failure : Type :=
| NoMatch
| UnconvertedData (rest : string)
| OutOfRange.

Definition strptime_Ymd (data_string : string) : failure + datetime :=
  match head (matches data_string) with
  | None => inl NoMatch
  | Some (y, m, d, rest) =>
      if negb (PyStr.is_empty rest) then inl (UnconvertedData rest)
      else if valid_ymd y m d then inr (Datetime y m d)
      else inl OutOfRange
  end.

End Strptime.

(** [validate_date(date_str)]: any [ValueError] of [strptime] is replaced
    by the fixed message, a successful parse returns the input itself. *)
Definition validate_date (date_str : string) : result string :=
  match Strptime.strptime_Ymd date_str with
  | inr _ => inr date_str
  | inl _ => inl (Raise ValueError "Date must be in YYYYMMDD format")
  end.

(** ** JSON values

    What [response.json()] returns: [None], a [bool], an [int], a
    [float], a [str], a [list] or a [dict] with string keys.  A [float]
    is kept by its [repr]: the program never computes with one.  A
    [dict] is the list of the members of the JSON object in the order of
    the text; a name that occurs more than once keeps its last value, as
    in [json.loads].  The messages of the exceptions are those of
    CPython 3.11. *)

Module Json.

#[local] Set Warnings "-register-all".

Inductive value : Type :=
| Null
| Bool (b : bool)
| Int (n : Z)
| Float (repr : string)
| Str (s : string)
| Array (elements : list value)
| Object (members : list (string * value)).

(** [type(v).__name__] *)
Definition type_name (v : value) : string :=
  match v with
  | Null => "NoneType"
  | Bool _ => "bool"
  | Int _ => "int"
  | Float _ => "float"
  | Str _ => "str"
  | Array _ => "list"
  | Object _ => "dict"
  end.

(** The value a [dict] holds for [key], if any. *)
Fixpoint lookup (key : string) (members : list (string * value))
  : option value :=
  match members with
  | [] => None
  | (k, v) :: rest =>
      match lookup key rest with
      | Some v' => Some v'
      | None => if decide (k = key) then Some v else None
      end
  end.

(** The keys of a [dict], each once, in insertion order. *)
Fixpoint keys (members : list (string * value)) : list string :=
  match members with
  | [] => []
  | (k, _) :: rest => k :: filter (λ k', k' ≠ k) (keys rest)
  end.

(** The one-character strings of a [str]. *)
Fixpoint characters (s : string) : list string :=
  match s with
  | EmptyString => []
  | String a s' => String a EmptyString :: characters s'
  end.

(** [v[key]] for a [str] key without quotes or escapes ([repr(key)] is
    then the key between single quotes). *)
Definition subscript (v : value) (key : string) : result value :=
  match v with
  | Object members =>
      match lookup key members with
      | Some x => inr x
      | None => inl (Raise KeyError ("'" +:+ key +:+ "'"))
      end
  | Array _ =>
      inl (Raise TypeError "list indices must be integers or slices, not str")
  | Str _ =>
      inl (Raise TypeError "string indices must be integers, not 'str'")
  | _ =>
      inl (Raise TypeError
             ("'" +:+ type_name v +:+ "' object is not subscriptable"))
  end.

(** What [v[:8]] can return: a [str] or a [list]. *)
Inductive slice : Type :=
| StrSlice (s : string)
| ListSlice (elements : list value).

(** [len(v)] of such a value. *)
Definition len (v : slice) : nat :=
  match v with
  | StrSlice s => String.length s
  | ListSlice l => length l
  end.

(** [v[:8]] *)
Definition slice8 (v : value) : result slice :=
  match v with
  | Str s => inr (StrSlice (PyStr.take 8 s))
  | Array l => inr (ListSlice (take 8 l))
  | Object _ => inl (Raise TypeError "unhashable type: 'slice'")
  | _ =>
      inl (Raise TypeError
             ("'" +:+ type_name v +:+ "' object is not subscriptable"))
  end.

(** The values that [for item in v] visits: the elements of a [list], the
    keys of a [dict], the characters of a [str]. *)
Definition iterate (v : value) : result (list value) :=
  match v with
  | Array l => inr l
  | Object members => inr (Str <$> keys members)
  | Str s => inr (Str <$> characters s)
  | _ =>
      inl (Raise TypeError
             ("'" +:+ type_name v +:+ "' object is not iterable"))
  end.

End Json.

(** ** The remote statistics endpoint

    What one [requests.get] can produce: the call itself fails (connection
    refused, timeout, ...: an exception that is not an [HTTPError],
    recorded by its [str]), or a response arrives with a status code, a
    reason phrase, its final URL and a body.  The body either is not JSON
    ([response.json()] raises, recorded by the [str] of the exception) or
    decodes to a JSON value. *)

Module Http.

Inductive body : Type :=
| NotJson (cause : string)
| Json (v : Json.value).

Inductive outcome : Type :=
| RequestFailed (cause : string)
| Response (status_code : Z) (reason url : string) (content : body).

(** [response.raise_for_status()]: the message of the [HTTPError] it
    raises, if any. *)
Definition raise_for_status (status_code : Z) (reason url : string)
  : option string :=
  if (400 <=? status_code) && (status_code <? 500)
  then Some (PyStr.of_Z status_code +:+ " Client Error: " +:+ reason
             +:+ " for url: " +:+ url)
  else if (500 <=? status_code) && (status_code <? 600)
  then Some (PyStr.of_Z status_code +:+ " Server Error: " +:+ reason
             +:+ " for url: " +:+ url)
  else None.

End Http.

(** ** Tables *)

Module Frame.

(** A column of the table: the dates, or the view counts of one article
    (whatever values the endpoint sent as view counts). *)
Inductive column : Type :=
| Dates (values : list string)
| Counts (values : list Json.value).

Definition column_length (c : column) : nat :=
  match c with
  | Dates l => length l
  | Counts l => length l
  end.

(** A [pandas.DataFrame]: its labelled columns, in order. *)
Definition DataFrame : Type := list (string * column).

(** [d[k] = v] on an insertion-ordered dictionary: an existing key keeps
    its position and takes the new value, a new key goes last. *)
Fixpoint setitem (d : DataFrame) (k : string) (v : column) : DataFrame :=
  match d with
  | [] => [(k, v)]
  | (k', v') :: d' =>
      if decide (k' = k) then (k', v) :: d' else (k', v') :: setitem d' k v
  end.

(** A dictionary display [{k1: v1, k2: v2, ...}]. *)
Definition display (items : list (string * column)) : DataFrame :=
  foldl (λ d kv, setitem d kv.1 kv.2) [] items.

(** [df[label]] *)
Fixpoint getitem (df : DataFrame) (label : string) : option column :=
  match df with
  | [] => None
  | (k, v) :: df' => if decide (k = label) then Some v else getitem df' label
  end.

(** [len(df)]: the number of rows. *)
Definition nrows (df : DataFrame) : nat :=
  match df with
  | [] => O
  | (_, c) :: _ => column_length c
  end.

(** [pd.DataFrame()] *)
Definition empty : DataFrame := [].

End Frame.
Export Frame.

(** ** Process state *)

(** What [get_pageviews] returns: the pairs [(timestamp[:8], views)], and
    the same with every date a [str]. *)
Abbreviation series := (list (Json.slice * Json.value)).
Abbreviation dated := (list (string * Json.value)).
Abbreviation cache_key := (string * string * string)%type.

(** The state of the process that the program reads and writes: the
    memoisation table that [functools.cache] attaches to [get_pageviews]
    and the URLs of the outbound requests issued so far, oldest first. *)
Record state : Type := State {
  cache : gmap cache_key series;
  requests : list string
}.

Definition initial_state : state := State ∅ [].

(** A computation that may read and write the state and may raise. *)
Definition M (A : Type) : Type := state → state * result A.

#[global] Instance M_ret : MRet M := λ A (x : A) st, (st, inr x).

#[global] Instance M_bind : MBind M := λ A B (f : A → M B) (c : M A) st,
  match c st with
  | (st', inr x) => f x st'
  | (st', inl e) => (st', inl e)
  end.

(** A pure call that may raise. *)
Definition lift {A : Type} (r : result A) : M A := λ st, (st, r).

(** ** Merger (the table of [process_inputs]) *)

Definition label (title : string) : string := title +:+ " Views".

(** [sorted(set(dates1) | set(dates2))] *)
Definition sorted_union (dates1 dates2 : list string) : list string :=
  merge_sort String.le
    (elements ((list_to_set dates1 : gset string) ∪ list_to_set dates2)).

(** [dict(views)]: later pairs overwrite earlier ones. *)
Definition dict (views : dated) : gmap string Json.value :=
  foldl (λ d kv, <[kv.1 := kv.2]> d) ∅ views.

(** [d.get(k, 0)] *)
Definition get0 (d : gmap string Json.value) (k : string) : Json.value :=
  default (Json.Int 0) (d !! k).

(** Lines 63 to 65 use the dates of a series as members of a [set] and
    as keys of a [dict], so every date is hashed: a [str] is its own
    key, a [list] is unhashable.  The first list is met by [set(dates1)]
    or [set(dates2)] at line 63, which raises the [TypeError]. *)
Fixpoint hashed (views : series) : result dated :=
  match views with
  | [] => inr []
  | (Json.StrSlice d, c) :: rest =>
      rest' ← hashed rest; mret ((d, c) :: rest')
  | (Json.ListSlice _, _) :: _ =>
      inl (Raise TypeError "unhashable type: 'list'")
  end.

(** A series whose dates are all strings, as [get_pageviews] returns
    it. *)
Definition unhashed (views : dated) : series :=
  (λ p, (Json.StrSlice p.1, p.2)) <$> views.

(** Lines 60 to 71 once every date is known to be a [str]. *)
Definition comparison_frame (title1 title2 : string) (views1 views2 : dated)
  : DataFrame :=
  let dates1 := views1.*1 in
  let dates2 := views2.*1 in
  let all_dates := sorted_union dates1 dates2 in
  let view_dict1 := dict views1 in
  let view_dict2 := dict views2 in
  Frame.display
    [("Date", Dates all_dates);
     (label title1, Counts (get0 view_dict1 <$> all_dates));
     (label title2, Counts (get0 view_dict2 <$> all_dates))].

(** Lines 60 to 71: the table, or the [TypeError] of a date that cannot
    be hashed. *)
Definition build_frame (title1 title2 : string) (views1 views2 : series)
  : result DataFrame :=
  dated1 ← hashed views1;
  dated2 ← hashed views2;
  mret (comparison_frame title1 title2 dated1 dated2).

(** ** Reading the body (lines 23 and 24 of [get_pageviews]) *)

(** [(item['timestamp'][:8], item['views'])] *)
Definition pair_of (item : Json.value) : result (Json.slice * Json.value) :=
  timestamp ← Json.subscript item "timestamp";
  date ← Json.slice8 timestamp;
  views ← Json.subscript item "views";
  mret (date, views).

(** [[(item['timestamp'][:8], item['views']) for item in items]]: the
    first item that raises ends the comprehension. *)
Fixpoint comprehension (items : list Json.value) : result series :=
  match items with
  | [] => inr []
  | item :: rest =>
      p ← pair_of item; ps ← comprehension rest; mret (p :: ps)
  end.

(** [data = json['items']] followed by the comprehension over [data],
    for the decoded body [json]. *)
Definition daily_views (json : Json.value) : result series :=
  data ← Json.subscript json "items";
  items ← Json.iterate data;
  comprehension items.

(** ** Fetcher, presenter and request handler *)

Section App.

(** The remote endpoint: the outcome of a request, given the URLs
    requested before it and its own URL.  The endpoint may answer the
    same URL differently at different times. *)
Variable remote : list string → string → Http.outcome.

(** The charting library: figures, [px.line(df, x=.., y=[..], ..)], which
    may raise, and [fig.update_layout(..)]. *)
Variable Figure : Type.
Variable px_line : DataFrame → string → list string → result Figure.
Variable update_layout : Figure → Figure.

Definition api_url (title start_date end_date : string) : string :=
  "https://wikimedia.org/api/rest_v1/metrics/pageviews/per-article/en.wikipedia.org/all-access/all-agents/"
  +:+ title +:+ "/daily/" +:+ start_date +:+ "/" +:+ end_date.

(** [requests.get(url, headers=headers)]: the request is recorded and
    the endpoint answers. *)
Definition requests_get (url : string) (st : state)
  : state * Http.outcome :=
  (State (cache st) (requests st ++ [url]), remote (requests st) url).

(** The body of [get_pageviews], without the decorator: the exception
    raised inside the [try] block, if any, is wrapped by the matching
    [except] clause. *)
Definition get_pageviews_body (title start_date end_date : string)
  : M series := λ st,
  let url := api_url title start_date end_date in
  let '(st, response) := requests_get url st in
  let attempt : result series :=
    match response with
    | Http.RequestFailed cause => inl (Raise OtherError cause)
    | Http.Response status_code reason rurl content =>
        match Http.raise_for_status status_code reason rurl with
        | Some msg => inl (Raise HTTPError msg)
        | None =>
            match content with
            | Http.NotJson cause => inl (Raise OtherError cause)
            | Http.Json json => daily_views json
            end
        end
    end in
  match attempt with
  | inr views => (st, inr views)
  | inl e =>
      if is_HTTPError e
      then (st, inl (Raise ValueError ("API error: " +:+ exn_str e)))
      else (st, inl (Raise ValueError
                       ("Error fetching pageviews: " +:+ exn_str e)))
  end.

(** [functools.cache]: a hit returns the stored result without calling
    the function; a miss calls it and stores the result only when the
    call returns. *)
Definition functools_cache (f : string → string → string → M series)
  (title start_date end_date : string) : M series := λ st,
  let key := (title, start_date, end_date) in
  match cache st !! key with
  | Some result => (st, inr result)
  | None =>
      match f title start_date end_date st with
      | (st', inr result) =>
          (State (<[key := result]> (cache st')) (requests st'), inr result)
      | (st', inl e) => (st', inl e)
      end
  end.

Definition get_pageviews : string → string → string → M series :=
  functools_cache get_pageviews_body.

(** Lines 40-45 of [process_inputs]: the dates the rest of the function
    works with. *)
Definition default_dates (now : datetime) (start_date end_date : string)
  : result (string * string) :=
  if PyStr.is_empty start_date || PyStr.is_empty end_date
  then
    let end_date_obj := now in
    match sub_days end_date_obj 30 with
    | inl e => inl e
    | inr start_date_obj =>
        inr (strftime_Ymd start_date_obj, strftime_Ymd end_date_obj)
    end
  else inr (start_date, end_date).

(** [process_inputs], with the value of [datetime.now()] as [now]. *)
Definition process_inputs (now : datetime)
  (url1 url2 start_date end_date : string)
  : M (DataFrame * Figure * string) :=
  '(start_date, end_date) ← lift (default_dates now start_date end_date);
  start_date ← lift (validate_date start_date);
  end_date ← lift (validate_date end_date);
  title1 ← lift (extract_title url1);
  title2 ← lift (extract_title url2);
  views1 ← get_pageviews title1 start_date end_date;
  views2 ← get_pageviews title2 start_date end_date;
  df ← lift (build_frame title1 title2 views1 views2);
  fig ← lift (px_line df "Date" [label title1; label title2]);
  let fig := update_layout fig in
  mret (df, fig, "Analysis completed successfully!").

(** [wrapped_process]: the three outputs of the form. *)
Definition wrapped_process (now : datetime)
  (url1 url2 start_date end_date : string) (st : state)
  : state * (DataFrame * option Figure * string) :=
  match process_inputs now url1 url2 start_date end_date st with
  | (st', inr (df, fig, msg)) => (st', (df, Some fig, msg))
  | (st', inl e) =>
      if is_ValueError e
      then (st', (Frame.empty, None, "Error: " +:+ exn_str e))
      else (st', (Frame.empty, None, "Unexpected error: " +:+ exn_str e))
  end.

End App.

(** * Vocabulary of the specification *)

(** [sep] occurs somewhere in [s]. *)
Definition occurs (sep s : string) : Prop :=
  ∃ before after, s = before +:+ sep +:+ after.

(** An eight-digit [YYYYMMDD] encoding of a valid calendar date: eight
    decimal digits whose year, month and day fields pass the range check
    of the [date] constructor (years 1 to 9999). *)
Definition is_YYYYMMDD (s : string) : bool :=
  match s with
  | String y1 (String y2 (String y3 (String y4
      (String m1 (String m2 (String d1 (String d2 EmptyString))))))) =>
      forallb Strptime.is_digit [y1; y2; y3; y4; m1; m2; d1; d2]
      && valid_ymd
           (Strptime.digit y1 * 1000 + Strptime.digit y2 * 100
            + Strptime.digit y3 * 10 + Strptime.digit y4)
           (Strptime.digit m1 * 10 + Strptime.digit m2)
           (Strptime.digit d1 * 10 + Strptime.digit d2)
  | _ => false
  end.

(** The status codes on which [raise_for_status] raises. *)
Definition error_status (status_code : Z) : bool :=
  (400 <=? status_code) && (status_code <? 600).

(** The success statuses of HTTP. *)
Definition success_status (status_code : Z) : bool :=
  (200 <=? status_code) && (status_code <? 300).

(** The expected shape of a body: a JSON object whose member [items] is
    a list of objects, each with a string [timestamp] and an integer
    [views]; [records] are the (timestamp, views) pairs in order. *)
Definition daily_item (item : Json.value) (record : string * Z) : Prop :=
  ∃ members,
    item = Json.Object members
    ∧ Json.lookup "timestamp" members = Some (Json.Str record.1)
    ∧ Json.lookup "views" members = Some (Json.Int record.2).

Definition expected_shape (v : Json.value) (records : list (string * Z))
  : Prop :=
  ∃ members items,
    v = Json.Object members
    ∧ Json.lookup "items" members = Some (Json.Array items)
    ∧ Forall2 daily_item items records.

(** The body [{"items": [{"timestamp": t, "views": n}, ...]}]. *)
Definition items_body (records : list (string * Z)) : Json.value :=
  Json.Object
    [("items",
      Json.Array
        ((λ r, Json.Object [("timestamp", Json.Str r.1);
                            ("views", Json.Int r.2)]) <$> records))].

(** The series of a body of the expected shape. *)
Definition series_of (records : list (string * Z)) : dated :=
  (λ r, (PyStr.take 8 r.1, Json.Int r.2)) <$> records.

(** The bodies the fetcher reads without an exception, described by
    their shape: a JSON object whose member [items] is an empty [dict],
    an empty [str], or a list of objects that each have a member
    [timestamp] holding a [str] or a [list] and a member [views]. *)
Definition readable_item (item : Json.value) : Prop :=
  ∃ members timestamp views,
    item = Json.Object members
    ∧ Json.lookup "timestamp" members = Some timestamp
    ∧ ((∃ s, timestamp = Json.Str s) ∨ (∃ l, timestamp = Json.Array l))
    ∧ Json.lookup "views" members = Some views.

Definition readable (v : Json.value) : Prop :=
  ∃ members data,
    v = Json.Object members
    ∧ Json.lookup "items" members = Some data
    ∧ ((∃ items, data = Json.Array items ∧ Forall readable_item items)
       ∨ data = Json.Object []
       ∨ data = Json.Str EmptyString).

(** The ways in which one outbound request can make the fetch fail: the
    request itself fails, the response has an error status, its body is
    not JSON, or the JSON value is not [readable]. *)
Definition fetch_fails (o : Http.outcome) : Prop :=
  match o with
  | Http.RequestFailed _ => True
  | Http.Response status_code _ _ content =>
      error_status status_code = true
      ∨ match content with
        | Http.NotJson _ => True
        | Http.Json v => ¬ readable v
        end
  end.

(** The two failure causes the specification names: a response arrived
    and its status is not a success status, or its body is not of the
    expected shape. *)
Definition response_fails (o : Http.outcome) : Prop :=
  ∃ status_code reason url content,
    o = Http.Response status_code reason url content
    ∧ (success_status status_code = false
       ∨ ∀ v records, content = Http.Json v → ¬ expected_shape v records).

(** The outputs of the handler when a submission fails: the empty table,
    no chart and a status. *)
Definition fallback {Figure : Type} (status : string)
  : DataFrame * option Figure * string :=
  (Frame.empty, None, status).

(** [reaches remote P st st']: the process gets from [st] to [st'] by a
    sequence of calls of [get_pageviews] whose argument tuples all
    satisfy [P]. *)
Inductive reaches (remote : list string → string → Http.outcome)
  (P : cache_key → Prop) : state → state → Prop :=
| reaches_refl (st : state) : reaches remote P st st
| reaches_call (st st1 st2 : state) (title start_date end_date : string)
    (r : result series) :
    P (title, start_date, end_date) →
    get_pageviews remote title start_date end_date st = (st1, r) →
    reaches remote P st1 st2 →
    reaches remote P st st2.

(** Row [i] of a table, read through the date column and two count
    columns given by their labels. *)
Definition row (df : DataFrame) (label1 label2 : string) (i : nat)
  : option (string * Json.value * Json.value) :=
  match getitem df "Date", getitem df label1, getitem df label2 with
  | Some (Dates ds), Some (Counts c1), Some (Counts c2) =>
      d ← ds !! i; x ← c1 !! i; y ← c2 !! i; Some (d, x, y)
  | _, _, _ => None
  end.

(** [df] is the union-aligned table of the two date→count mappings [m1]
    and [m2]: as many rows as the union of the key sets has dates, every
    row carries a date of the union with the two counts of that date (0
    when the mapping lacks it), every date of the union has a row, and
    the dates increase strictly from row to row. *)
Definition merged_table (df : DataFrame) (label1 label2 : string)
  (m1 m2 : gmap string Json.value) : Prop :=
  nrows df = size (dom m1 ∪ dom m2)
  ∧ (∀ i, (i < nrows df)%nat →
       ∃ d, d ∈ dom m1 ∪ dom m2
            ∧ row df label1 label2 i = Some (d, get0 m1 d, get0 m2 d))
  ∧ (∀ d, d ∈ dom m1 ∪ dom m2 →
       ∃ i, (i < nrows df)%nat
            ∧ row df label1 label2 i = Some (d, get0 m1 d, get0 m2 d))
  ∧ (∀ i j di xi yi dj xj yj,
       (i < j)%nat →
       row df label1 label2 i = Some (di, xi, yi) →
       row df label1 label2 j = Some (dj, xj, yj) →
       String.ltb di dj = true).

(** * Test doubles

    Concrete endpoints and a trivial chart library, on which the
    properties below are exercised. *)

Module Demo.

(** The chart library: a figure is the list of its series labels. *)
Definition Figure : Type := list string.

Definition px_line (df : DataFrame) (x : string) (y : list string)
  : result Figure := inr y.

Definition update_layout (fig : Figure) : Figure := fig.

(** An endpoint that serves two articles for January 1 to 3, 2024 (the
    second with two records for January 3), answers 404 for the article
    [Missing] and is unreachable for every other request. *)
Definition remote (log : list string) (url : string) : Http.outcome :=
  if decide (url = api_url "Python" "20240101" "20240103")
  then Http.Response 200 "OK" url
         (Http.Json (items_body [("2024010100", 10); ("2024010200", 20)]))
  else if decide (url = api_url "Java" "20240101" "20240103")
  then Http.Response 200 "OK" url
         (Http.Json (items_body [("2024010200", 7); ("2024010300", 8);
                                 ("2024010312", 9)]))
  else if decide (url = api_url "Missing" "20240101" "20240103")
  then Http.Response 404 "Not Found" url
         (Http.Json (Json.Object [("title", Json.Str "Not found.")]))
  else Http.RequestFailed "Connection refused".

(** An endpoint that answers every request with an empty list of items. *)
Definition quiet (log : list string) (url : string) : Http.outcome :=
  Http.Response 200 "OK" url (Http.Json (items_body [])).

(** An endpoint that cannot be reached. *)
Definition down (log : list string) (url : string) : Http.outcome :=
  Http.RequestFailed "Connection refused".

(** An endpoint whose answers are not what the program expects: for the
    article [Python] a body whose member [items] is an empty object, for
    [Java] the status 300 with a body of the expected shape, for [Lua]
    an item whose timestamp is a list and whose view count is [null]. *)
Definition irregular (log : list string) (url : string) : Http.outcome :=
  if decide (url = api_url "Python" "20240101" "20240103")
  then Http.Response 200 "OK" url
         (Http.Json (Json.Object [("items", Json.Object [])]))
  else if decide (url = api_url "Java" "20240101" "20240103")
  then Http.Response 300 "Multiple Choices" url
         (Http.Json (items_body [("2024010100", 5)]))
  else if decide (url = api_url "Lua" "20240101" "20240103")
  then Http.Response 200 "OK" url
         (Http.Json
            (Json.Object
               [("items",
                 Json.Array
                   [Json.Object
                      [("timestamp",
                        Json.Array [Json.Int 2024; Json.Int 1; Json.Int 1]);
                       ("views", Json.Null)]])]))
  else Http.RequestFailed "Connection refused".

(** A chart library that rejects every table with a [ValueError], and one
    that fails with another exception. *)
Definition px_line_rejects (df : DataFrame) (x : string) (y : list string)
  : result Figure := inl (Raise ValueError "All arguments must be columns").

Definition px_line_breaks (df : DataFrame) (x : string) (y : list string)
  : result Figure := inl (Raise OtherError "renderer not available").

Definition python_url : string := "https://en.wikipedia.org/wiki/Python".
Definition java_url : string := "https://en.wikipedia.org/wiki/Java".
Definition lua_url : string := "https://en.wikipedia.org/wiki/Lua".
Definition missing_url : string := "https://en.wikipedia.org/wiki/Missing".

Definition today : datetime := Datetime 2024 6 15.

(** A submission on 15 June 2024 against [remote]. *)
Definition process :=
  process_inputs remote Figure px_line update_layout today.

Definition wrapped :=
  wrapped_process remote Figure px_line update_layout today.

End Demo.

(** The table the first test double produces for January 1 to 3, 2024. *)
Definition demo_table : DataFrame :=
  [("Date", Dates ["20240101"; "20240102"; "20240103"]);
   ("Python Views", Counts [Json.Int 10; Json.Int 20; Json.Int 0]);
   ("Java Views", Counts [Json.Int 0; Json.Int 7; Json.Int 9])].

(** * Properties *)

(** ** The embedding on concrete inputs *)

Example split_example_1 :
  PyStr.split "wiki/" "a/wiki/b/wiki/c" = ["a/"; "b/"; "c"].
Proof. reflexivity. Qed.

Example split_example_2 :
  PyStr.split "wiki/" "https://en.wikipedia.org/wiki/" =
  ["https://en.wikipedia.org/"; EmptyString].
Proof. reflexivity. Qed.

Example extract_title_example :
  extract_title "https://en.wikipedia.org/wiki/Python_(programming_language)"
  = inr "Python_(programming_language)".
Proof. reflexivity. Qed.

Example ymd2ord_example : ymd2ord 2024 3 1 = 738946.
Proof. reflexivity. Qed.

Example ord2ymd_example : ord2ymd 738946 = Datetime 2024 3 1.
Proof. reflexivity. Qed.

Example sub_days_example :
  sum_map id strftime_Ymd (sub_days (Datetime 2024 3 1) 30) = inr "20240131".
Proof. reflexivity. Qed.

Example sub_days_overflow :
  sub_days (Datetime 1 1 20) 30 =
  inl (Raise OverflowError "date value out of range").
Proof. reflexivity. Qed.

Example strptime_examples :
  Strptime.strptime_Ymd <$>
    ["20240229"; "20230229"; "2024111"; "202411"; "20241 1"; "20241301";
     "00000101"; "2024-01-01"; "20240101 "; "2024123"; "99991231"]
  = [inr (Datetime 2024 2 29); inl Strptime.OutOfRange;
     inr (Datetime 2024 11 1); inr (Datetime 2024 1 1);
     inr (Datetime 2024 1 1); inl (Strptime.UnconvertedData "1");
     inl Strptime.OutOfRange; inl Strptime.NoMatch;
     inl (Strptime.UnconvertedData " "); inr (Datetime 2024 12 3);
     inr (Datetime 9999 12 31)].
Proof. reflexivity. Qed.

Example comparison_frame_example :
  comparison_frame "A" "B"
    [("20240102", Json.Int 5); ("20240101", Json.Int 3)]
    [("20240103", Json.Int 7); ("20240102", Json.Int 1)]
  = [("Date", Dates ["20240101"; "20240102"; "20240103"]);
     ("A Views", Counts [Json.Int 3; Json.Int 5; Json.Int 0]);
     ("B Views", Counts [Json.Int 0; Json.Int 1; Json.Int 7])].
Proof. vm_compute. reflexivity. Qed.

Example comparison_frame_same_title :
  comparison_frame "A" "A"
    [("20240101", Json.Int 3)] [("20240101", Json.Int 3)]
  = [("Date", Dates ["20240101"]); ("A Views", Counts [Json.Int 3])].
Proof. vm_compute. reflexivity. Qed.

(** ** Strings *)

Lemma app_cons (a : ascii) (s t : string) :
  String a s +:+ t = String a (s +:+ t).
Proof. reflexivity. Qed.

Lemma app_empty_r (s : string) : s +:+ EmptyString = s.
Proof. induction s as [|a s IH]; [done|]. by rewrite app_cons, IH. Qed.

Lemma app_assoc_str (s1 s2 s3 : string) :
  (s1 +:+ s2) +:+ s3 = s1 +:+ (s2 +:+ s3).
Proof. induction s1 as [|a s1 IH]; [done|]. by rewrite !app_cons, IH. Qed.

Lemma startswith_app (p rest : string) : PyStr.startswith (p +:+ rest) p = true.
Proof.
  induction p as [|a p IH]; [done|].
  rewrite app_cons. cbn. by rewrite Ascii.eqb_refl.
Qed.

Lemma startswith_inv (s p : string) :
  PyStr.startswith s p = true → ∃ rest, s = p +:+ rest.
Proof.
  revert s. induction p as [|a p IH]; intros s H.
  - by exists s.
  - destruct s as [|b s]; [done|]. cbn in H.
    destruct (Ascii.eqb a b) eqn:Hab; [|done].
    apply Ascii.eqb_eq in Hab as ->.
    destruct (IH _ H) as [rest ->]. by exists rest.
Qed.

Lemma split_aux_no_occurrence (sep cur s : string) :
  ¬ occurs sep s → PyStr.split_aux sep O cur s = [cur +:+ s].
Proof.
  revert cur. induction s as [|a s IH]; intros cur Hno; cbn.
  - by rewrite app_empty_r.
  - destruct (PyStr.startswith (String a s) sep) eqn:Hp.
    + destruct Hno. apply startswith_inv in Hp as [rest Hrest].
      exists EmptyString, rest. by rewrite Hrest.
    + rewrite IH.
      * by rewrite app_assoc_str.
      * intros (before & after & ->). apply Hno.
        by exists (String a before), after.
Qed.

Lemma split_aux_nonempty (sep : string) (skip : nat) (cur s : string) :
  PyStr.split_aux sep skip cur s ≠ [].
Proof.
  revert skip cur. induction s as [|a s IH]; intros skip cur; cbn; [done|].
  destruct skip; [|apply IH].
  destruct (PyStr.startswith _ _); [done|apply IH].
Qed.

(** ** C4: the title extractor *)

Lemma split_wiki_prefix (rest : string) :
  PyStr.split "wiki/" (wiki_prefix +:+ rest)
  = "https://en.wikipedia.org/" :: PyStr.split "wiki/" rest.
Proof. reflexivity. Qed.

(** A URL without the prefix is rejected with the fixed message. *)
Lemma extract_title_rejects (url : string) :
  PyStr.startswith url wiki_prefix = false →
  extract_title url = inl (Raise ValueError "URL must be from en.wikipedia.org").
Proof. intros H. unfold extract_title. by rewrite H. Qed.

(** A URL with the prefix yields the first piece of what follows the
    prefix, cut at the separator [wiki/]. *)
Lemma extract_title_prefixed (rest : string) :
  ∃ title pieces,
    PyStr.split "wiki/" rest = title :: pieces ∧
    extract_title (wiki_prefix +:+ rest) = inr title.
Proof.
  unfold extract_title.
  rewrite startswith_app, split_wiki_prefix. cbn [negb].
  destruct (PyStr.split "wiki/" rest) as [|title pieces] eqn:Hs.
  - by apply split_aux_nonempty in Hs.
  - by exists title, pieces.
Qed.

(** When the remainder does not contain [wiki/] again, the title is the
    whole remainder. *)
Lemma extract_title_whole (rest : string) :
  ¬ occurs "wiki/" rest → extract_title (wiki_prefix +:+ rest) = inr rest.
Proof.
  intros Hno. destruct (extract_title_prefixed rest) as (t & ps & Hs & ->).
  unfold PyStr.split in Hs. rewrite split_aux_no_occurrence in Hs by done.
  by simplify_eq/=.
Qed.

(** [extract_title] raises nothing but its own [ValueError]. *)
Lemma extract_title_raises (url : string) (e : exn) :
  extract_title url = inl e →
  e = Raise ValueError "URL must be from en.wikipedia.org".
Proof.
  destruct (PyStr.startswith url wiki_prefix) eqn:Hp.
  - apply startswith_inv in Hp as [rest ->].
    destruct (extract_title_prefixed rest) as (t & ps & _ & ->). done.
  - rewrite extract_title_rejects by done. congruence.
Qed.

(** C4 (code defect).  The claim asks for the whole substring after the
    prefix.  For the URL of the article [Interwiki/links] the code returns
    [Inter]: [split] also cuts at the second [wiki/], and element 1 is only
    the text between the first two separators. *)
Theorem extract_title_truncates :
  PyStr.startswith "https://en.wikipedia.org/wiki/Interwiki/links" wiki_prefix
    = true
  ∧ "https://en.wikipedia.org/wiki/Interwiki/links"
    = wiki_prefix +:+ "Interwiki/links"
  ∧ extract_title "https://en.wikipedia.org/wiki/Interwiki/links" = inr "Inter"
  ∧ extract_title "https://en.wikipedia.org/wiki/Interwiki/links"
    ≠ inr "Interwiki/links".
Proof. repeat split; done. Qed.

(** ** C3: the date validator *)

Lemma is_digit_cases (c : ascii) :
  Strptime.is_digit c = true →
  c ∈ ["0"; "1"; "2"; "3"; "4"; "5"; "6"; "7"; "8"; "9"]%char.
Proof.
  destruct c as [[] [] [] [] [] [] [] []]; vm_compute; intros H;
    try discriminate H; set_solver.
Qed.

Lemma one_digit (c : ascii) (r : string) :
  Strptime.is_digit c = true →
  Strptime.one 0 9 (String c r) = [(Strptime.digit c, r)].
Proof.
  intros H. pose proof H as H'.
  apply is_digit_cases in H'. set_unfold.
  destruct_or!; subst; try done.
Qed.

Ltac digit_cases H :=
  apply is_digit_cases in H; set_unfold; destruct_or!; subst; try done.

Lemma group_m_two_digits (m1 m2 : ascii) (r : string) :
  Strptime.is_digit m1 = true → Strptime.is_digit m2 = true →
  let m := Strptime.digit m1 * 10 + Strptime.digit m2 in
  (1 <=? m) && (m <=? 12) = true →
  ∃ others, Strptime.group_m (String m1 (String m2 r)) = (m, r) :: others.
Proof.
  intros H1 H2. digit_cases H1; digit_cases H2;
    vm_compute; intros Hm; try discriminate Hm; eexists; reflexivity.
Qed.

Lemma group_d_two_digits (d1 d2 : ascii) (r : string) :
  Strptime.is_digit d1 = true → Strptime.is_digit d2 = true →
  let d := Strptime.digit d1 * 10 + Strptime.digit d2 in
  (1 <=? d) && (d <=? 31) = true →
  ∃ others, Strptime.group_d (String d1 (String d2 r)) = (d, r) :: others.
Proof.
  intros H1 H2. digit_cases H1; digit_cases H2;
    vm_compute; intros Hd; try discriminate Hd; eexists; reflexivity.
Qed.

Lemma days_in_month_le_31 (y m : Z) : days_in_month y m ≤ 31.
Proof.
  unfold days_in_month. destruct ((m =? 2) && is_leap y); [lia|].
  unfold DAYS_IN_MONTH.
  destruct (Z.to_nat m) as [|[|[|[|[|[|[|[|[|[|[|[|[|n]]]]]]]]]]]]];
    cbn; try lia.
  destruct n; cbn; lia.
Qed.

(** Every eight-digit encoding of a valid date parses, with nothing left
    over. *)
Lemma strptime_YYYYMMDD (s : string) :
  is_YYYYMMDD s = true → ∃ d, Strptime.strptime_Ymd s = inr d.
Proof.
  destruct s as [|y1 [|y2 [|y3 [|y4 [|m1 [|m2 [|d1 [|d2 [|]]]]]]]]];
    try discriminate 1.
  unfold is_YYYYMMDD. cbn [forallb].
  set (yy := (_ + Strptime.digit y4)).
  set (mm := (_ + Strptime.digit m2)).
  set (dd := (_ + Strptime.digit d2)).
  rewrite !andb_true_iff.
  intros [(Hy1 & Hy2 & Hy3 & Hy4 & Hm1 & Hm2 & Hd1 & Hd2 & _) Hv].
  pose proof Hv as Hr. unfold valid_ymd in Hr.
  rewrite !andb_true_iff, !Z.leb_le in Hr.
  pose proof (days_in_month_le_31 yy mm).
  destruct (group_m_two_digits m1 m2 (String d1 (String d2 EmptyString)))
    as [om Hm]; [done..| |].
  { fold mm. rewrite andb_true_iff, !Z.leb_le. lia. }
  destruct (group_d_two_digits d1 d2 EmptyString) as [od Hd]; [done..| |].
  { fold dd. rewrite andb_true_iff, !Z.leb_le. lia. }
  exists (Datetime yy mm dd).
  unfold Strptime.strptime_Ymd, Strptime.matches, Strptime.group_Y.
  rewrite (one_digit y1) by done. cbn [mbind list_bind flat_map app].
  rewrite !one_digit by done. cbn [mbind list_bind flat_map app].
  rewrite !one_digit by done. cbn [mbind list_bind flat_map app].
  rewrite !one_digit by done. cbn [mbind list_bind flat_map app].
  rewrite Hm. cbn [mbind list_bind flat_map app].
  rewrite Hd. cbn [mbind list_bind flat_map app head PyStr.is_empty negb].
  fold yy mm dd. by rewrite Hv.
Qed.

(** The accepting half of the validator's contract: an eight-digit
    encoding of a valid date is returned unchanged. *)
Lemma validate_date_accepts (s : string) :
  is_YYYYMMDD s = true → validate_date s = inr s.
Proof.
  intros H. unfold validate_date.
  by destruct (strptime_YYYYMMDD s H) as [d ->].
Qed.

(** [validate_date] returns its argument or raises its own [ValueError]. *)
Lemma validate_date_cases (s : string) :
  validate_date s = inr s
  ∨ validate_date s = inl (Raise ValueError "Date must be in YYYYMMDD format").
Proof. unfold validate_date. destruct (Strptime.strptime_Ymd s); auto. Qed.

Lemma validate_date_returns (s r : string) : validate_date s = inr r → r = s.
Proof. destruct (validate_date_cases s) as [-> | ->]; congruence. Qed.

Lemma validate_date_raises (s : string) (e : exn) :
  validate_date s = inl e →
  e = Raise ValueError "Date must be in YYYYMMDD format".
Proof. destruct (validate_date_cases s) as [-> | ->]; congruence. Qed.

(** C3 (code defect).  The claim asks that every string that is not an
    eight-digit encoding of a valid date be rejected.  The seven-character
    string [2024111] is accepted and returned: the month group of the
    parser matches [11] and its day group then accepts the single digit
    [1].  Six characters pass as well, and so does a blank before the day
    digit. *)
Theorem validate_date_accepts_short_dates :
  is_YYYYMMDD "2024111" = false
  ∧ Strptime.strptime_Ymd "2024111" = inr (Datetime 2024 11 1)
  ∧ validate_date "2024111" = inr "2024111"
  ∧ validate_date "202411" = inr "202411"
  ∧ validate_date "20241 1" = inr "20241 1".
Proof. repeat split; reflexivity. Qed.

(** ** The memoised fetcher *)

Section Fetcher.

Variable remote : list string → string → Http.outcome.

Implicit Types (st : state) (title start_date end_date : string).

Lemma get_pageviews_hit st title start_date end_date (views : series) :
  cache st !! (title, start_date, end_date) = Some views →
  get_pageviews remote title start_date end_date st = (st, inr views).
Proof. intros H. unfold get_pageviews, functools_cache. by rewrite H. Qed.

(** The body always issues exactly one request. *)
Lemma get_pageviews_body_requests st st1 title start_date end_date
    (r : result series) :
  get_pageviews_body remote title start_date end_date st = (st1, r) →
  cache st1 = cache st
  ∧ requests st1 = requests st ++ [api_url title start_date end_date].
Proof.
  unfold get_pageviews_body, requests_get. intros H.
  repeat case_match; simplify_eq/=; done.
Qed.

(** A call that raises was a miss, stored nothing and issued a request. *)
Lemma get_pageviews_raises st st1 title start_date end_date (e : exn) :
  get_pageviews remote title start_date end_date st = (st1, inl e) →
  cache st !! (title, start_date, end_date) = None
  ∧ cache st1 = cache st
  ∧ requests st1 = requests st ++ [api_url title start_date end_date].
Proof.
  unfold get_pageviews, functools_cache. intros H.
  destruct (cache st !! _) eqn:Hc; [done|].
  destruct (get_pageviews_body _ _ _ _ _) as [st' [e'|v]] eqn:Hb; [|done].
  simplify_eq. by apply get_pageviews_body_requests in Hb.
Qed.

(** A call that returns leaves its result in the cache. *)
Lemma get_pageviews_returns st st1 title start_date end_date
    (views : series) :
  get_pageviews remote title start_date end_date st = (st1, inr views) →
  cache st1 !! (title, start_date, end_date) = Some views.
Proof.
  unfold get_pageviews, functools_cache. intros H.
  destruct (cache st !! _) eqn:Hc; [by simplify_eq|].
  destruct (get_pageviews_body _ _ _ _ _) as [st' [e'|v]] eqn:Hb; [done|].
  simplify_eq/=. by rewrite lookup_insert_eq.
Qed.

(** A miss issues exactly one request. *)
Lemma get_pageviews_miss st st1 title start_date end_date
    (r : result series) :
  cache st !! (title, start_date, end_date) = None →
  get_pageviews remote title start_date end_date st = (st1, r) →
  requests st1 = requests st ++ [api_url title start_date end_date].
Proof.
  unfold get_pageviews, functools_cache. intros -> H.
  destruct (get_pageviews_body _ _ _ _ _) as [st' [e'|v]] eqn:Hb;
    apply get_pageviews_body_requests in Hb as [_ Hb]; by simplify_eq/=.
Qed.

(** No call ever removes or changes a cache entry. *)
Lemma get_pageviews_keeps st st1 title start_date end_date
    (r : result series) (k : cache_key) (views : series) :
  get_pageviews remote title start_date end_date st = (st1, r) →
  cache st !! k = Some views → cache st1 !! k = Some views.
Proof.
  unfold get_pageviews, functools_cache. intros H Hk.
  destruct (cache st !! (_, _, _)) eqn:Hc; [by simplify_eq|].
  destruct (get_pageviews_body _ _ _ _ _) as [st' [e'|v]] eqn:Hb;
    apply get_pageviews_body_requests in Hb as [Hb _]; simplify_eq/=.
  - by rewrite Hb.
  - rewrite lookup_insert_ne, Hb; [done|]. congruence.
Qed.

(** A call adds at most the entry of its own key. *)
Lemma get_pageviews_other st st1 title start_date end_date
    (r : result series) (k : cache_key) :
  get_pageviews remote title start_date end_date st = (st1, r) →
  (title, start_date, end_date) ≠ k →
  cache st1 !! k = cache st !! k.
Proof.
  unfold get_pageviews, functools_cache. intros H Hk.
  destruct (cache st !! (_, _, _)) eqn:Hc; [by simplify_eq|].
  destruct (get_pageviews_body _ _ _ _ _) as [st' [e'|v]] eqn:Hb;
    apply get_pageviews_body_requests in Hb as [Hb _]; simplify_eq/=.
  - by rewrite Hb.
  - by rewrite lookup_insert_ne, Hb.
Qed.

Lemma reaches_keeps (P : cache_key → Prop) st st' (k : cache_key)
    (views : series) :
  reaches remote P st st' →
  cache st !! k = Some views → cache st' !! k = Some views.
Proof.
  induction 1 as [|st st1 st2 t s e r _ Hcall _ IH]; [done|].
  intros Hk. apply IH. by eapply get_pageviews_keeps.
Qed.

Lemma reaches_other st st' (k : cache_key) :
  reaches remote (λ k', k' ≠ k) st st' → cache st' !! k = cache st !! k.
Proof.
  induction 1 as [|st st1 st2 t s e r Hne Hcall _ IH]; [done|].
  rewrite IH. by eapply get_pageviews_other.
Qed.

(** C6.  Once a call of [get_pageviews] has returned a sequence, every
    later call with the same (title, start, end), whatever other calls
    the process has made in between, returns that same sequence and
    leaves the state as it is: the log of outbound requests does not
    grow, so no second request is issued. *)
Theorem get_pageviews_idempotent st st1 st2 title start_date end_date
    (views : series) :
  get_pageviews remote title start_date end_date st = (st1, inr views) →
  reaches remote (λ _, True) st1 st2 →
  get_pageviews remote title start_date end_date st2 = (st2, inr views).
Proof.
  intros Hfirst Hlater. apply get_pageviews_hit.
  eapply reaches_keeps; [done|]. by eapply get_pageviews_returns.
Qed.

(** C9.  A call that raises stores nothing: the cache is unchanged and
    has no entry for the tuple, one request was issued, and the next
    call with the same tuple (after any calls with other tuples) issues
    a fresh request. *)
Theorem get_pageviews_failure_not_cached st st1 title start_date end_date
    (e : exn) :
  get_pageviews remote title start_date end_date st = (st1, inl e) →
  cache st1 = cache st
  ∧ cache st1 !! (title, start_date, end_date) = None
  ∧ requests st1 = requests st ++ [api_url title start_date end_date]
  ∧ ∀ st2 st3 (r : result series),
      reaches remote (λ k, k ≠ (title, start_date, end_date)) st1 st2 →
      get_pageviews remote title start_date end_date st2 = (st3, r) →
      requests st3 = requests st2 ++ [api_url title start_date end_date].
Proof.
  intros Hfail. apply get_pageviews_raises in Hfail as (Hmiss & Hc & Hr).
  split_and!; [done|by rewrite Hc|done|].
  intros st2 st3 r Hreach Hnext.
  eapply get_pageviews_miss; [|done].
  apply reaches_other in Hreach. by rewrite Hreach, Hc.
Qed.

End Fetcher.

Lemma length_app_str (s t : string) :
  String.length (s +:+ t) = (String.length s + String.length t)%nat.
Proof. induction s as [|a s IH]; [done|]. rewrite app_cons. cbn. by rewrite IH. Qed.

Lemma app_inj_r (s1 s2 t : string) : s1 +:+ t = s2 +:+ t → s1 = s2.
Proof.
  revert s2. induction s1 as [|a s1 IH]; intros [|b s2] H; [done| | |].
  - apply (f_equal String.length) in H. rewrite !length_app_str in H.
    cbn in H. lia.
  - apply (f_equal String.length) in H. rewrite !length_app_str in H.
    cbn in H. lia.
  - rewrite !app_cons in H. injection H as -> H. f_equal. by apply IH.
Qed.

(** ** The merger *)

Lemma label_inj (t1 t2 : string) : label t1 = label t2 → t1 = t2.
Proof. apply app_inj_r. Qed.

Lemma label_not_Date (t : string) : label t ≠ "Date".
Proof.
  unfold label. intros H. apply (f_equal String.length) in H as Hlen.
  rewrite length_app_str in Hlen. cbn in Hlen.
  destruct t; [discriminate H | cbn in Hlen; lia].
Qed.

(** [dict(views)]: the last pair of a date decides its count. *)
Lemma dict_snoc (v : dated) (d : string) (c : Json.value) :
  dict (v ++ [(d, c)]) = <[d := c]> (dict v).
Proof. unfold dict. by rewrite foldl_snoc. Qed.

Lemma dict_lookup_last (pre post : dated) (d : string) (c : Json.value) :
  d ∉ post.*1 → dict (pre ++ (d, c) :: post) !! d = Some c.
Proof.
  induction post as [|[d' c'] post IH] using rev_ind; intros Hd.
  - rewrite dict_snoc. apply lookup_insert_eq.
  - rewrite app_comm_cons, app_assoc, dict_snoc.
    rewrite fmap_app in Hd. cbn in Hd.
    rewrite lookup_insert_ne; [|set_solver].
    apply IH. set_solver.
Qed.

Lemma dict_dom (v : dated) : dom (dict v) = list_to_set v.*1.
Proof.
  induction v as [|[d c] v IH] using rev_ind; [done|].
  rewrite dict_snoc, dom_insert_L, IH, fmap_app, list_to_set_app_L. set_solver.
Qed.

Lemma dict_lookup_NoDup (v : dated) (d : string) (c : Json.value) :
  NoDup v.*1 → dict v !! d = Some c ↔ (d, c) ∈ v.
Proof.
  induction v as [|[d' c'] v IH] using rev_ind; intros Hnd.
  - unfold dict. cbn. rewrite lookup_empty. set_solver.
  - rewrite fmap_app in Hnd. apply NoDup_app in Hnd as (Hnd & Hdisj & _).
    rewrite dict_snoc, lookup_insert. case_decide as Hdd; subst.
    + split; [intros [= ->]; set_solver|].
      intros [Hin|Hin]%elem_of_app; [|set_solver].
      destruct (Hdisj d); [|set_solver].
      apply list_elem_of_fmap. by exists (d, c).
    + rewrite IH by done. set_solver.
Qed.

(** [sorted(set(dates1) | set(dates2))]: the dates of either series, each
    once, in strictly increasing order. *)
Lemma sorted_union_perm (l1 l2 : list string) :
  sorted_union l1 l2 ≡ₚ elements ((list_to_set l1 : gset string) ∪ list_to_set l2).
Proof. apply merge_sort_Permutation. Qed.

Lemma elem_of_sorted_union (l1 l2 : list string) (d : string) :
  d ∈ sorted_union l1 l2 ↔ d ∈ l1 ∨ d ∈ l2.
Proof. rewrite sorted_union_perm. set_solver. Qed.

Lemma NoDup_sorted_union (l1 l2 : list string) : NoDup (sorted_union l1 l2).
Proof. rewrite sorted_union_perm. apply NoDup_elements. Qed.

Lemma length_sorted_union (l1 l2 : list string) :
  length (sorted_union l1 l2)
  = size ((list_to_set l1 : gset string) ∪ list_to_set l2).
Proof. by rewrite sorted_union_perm. Qed.

Lemma le_ne_ltb (a b : string) : String.le a b → a ≠ b → String.ltb a b = true.
Proof.
  unfold String.le, String.leb, String.ltb. intros Hle Hne.
  destruct (String.compare a b) eqn:Hc; [|done|done].
  by apply String.compare_eq_iff in Hc.
Qed.

Lemma sorted_union_ascending (l1 l2 : list string) (i j : nat) (di dj : string) :
  (i < j)%nat →
  sorted_union l1 l2 !! i = Some di → sorted_union l1 l2 !! j = Some dj →
  String.ltb di dj = true.
Proof.
  pose proof (NoDup_sorted_union l1 l2) as Hnd.
  assert (StronglySorted String.le (sorted_union l1 l2)) as Hs
    by apply (StronglySorted_merge_sort _).
  revert Hnd Hs i j. generalize (sorted_union l1 l2). intros l.
  induction l as [|x l IH]; intros Hnd Hs i j Hij Hi Hj; [done|].
  apply NoDup_cons in Hnd as [Hx Hnd].
  apply StronglySorted_inv in Hs as [Hs Hall].
  destruct j as [|j]; [lia|]. destruct i as [|i]; simplify_eq/=.
  - apply list_elem_of_lookup_2 in Hj.
    apply le_ne_ltb; [|set_solver].
    by eapply Forall_forall in Hall.
  - eapply IH; [done..| |done|done]. lia.
Qed.

(** The columns of the table.  When both titles coincide the two count
    columns share one label and the dictionary display keeps the second. *)
Lemma comparison_frame_columns (t1 t2 : string) (v1 v2 : dated) :
  let D := sorted_union v1.*1 v2.*1 in
  let df := comparison_frame t1 t2 v1 v2 in
  getitem df "Date" = Some (Dates D)
  ∧ getitem df (label t1)
    = Some (Counts (get0 (dict (if decide (t1 = t2) then v2 else v1)) <$> D))
  ∧ getitem df (label t2) = Some (Counts (get0 (dict v2) <$> D))
  ∧ nrows df = length D.
Proof.
  intros D df. subst df. unfold comparison_frame, Frame.display.
  fold D. cbn [foldl setitem fst snd].
  pose proof (label_not_Date t1). pose proof (label_not_Date t2).
  destruct (decide (t1 = t2)) as [->|Hne].
  - repeat (first [progress cbn [setitem getitem nrows column_length]
                  | case_decide]; try done).
  - assert (label t1 ≠ label t2) by (intros ?%label_inj; done).
    repeat (first [progress cbn [setitem getitem nrows column_length]
                  | case_decide]; try done).
Qed.

Lemma comparison_frame_row (t1 t2 : string) (v1 v2 : dated) (i : nat) :
  (t1 = t2 → v1 = v2) →
  row (comparison_frame t1 t2 v1 v2) (label t1) (label t2) i
  = (λ d, (d, get0 (dict v1) d, get0 (dict v2) d))
      <$> sorted_union v1.*1 v2.*1 !! i.
Proof.
  intros Hsame.
  destruct (comparison_frame_columns t1 t2 v1 v2) as (H0 & H1 & H2 & _).
  unfold row. rewrite H0, H1, H2. clear H0 H1 H2.
  rewrite !list_lookup_fmap.
  destruct (sorted_union _ _ !! i) as [d|]; [|done]. cbn.
  case_decide; [by rewrite Hsame|done].
Qed.

Lemma comparison_frame_merged (t1 t2 : string) (v1 v2 : dated) :
  (t1 = t2 → v1 = v2) →
  merged_table (comparison_frame t1 t2 v1 v2) (label t1) (label t2)
    (dict v1) (dict v2).
Proof.
  intros Hsame. unfold merged_table.
  destruct (comparison_frame_columns t1 t2 v1 v2) as (_ & _ & _ & Hn).
  rewrite Hn, !dict_dom. split_and!.
  - apply length_sorted_union.
  - intros i Hi. apply lookup_lt_is_Some_2 in Hi as [d Hd].
    exists d. rewrite comparison_frame_row, Hd by done. split; [|done].
    apply list_elem_of_lookup_2, elem_of_sorted_union in Hd. set_solver.
  - intros d Hd.
    assert (d ∈ sorted_union v1.*1 v2.*1) as [i Hi]%list_elem_of_lookup_1
      by (apply elem_of_sorted_union; set_solver).
    exists i. split; [by eapply lookup_lt_Some|].
    by rewrite comparison_frame_row, Hi.
  - intros i j di xi yi dj xj yj Hij.
    rewrite !comparison_frame_row by done.
    intros Hi Hj. apply fmap_Some in Hi as (di' & Hi & ?).
    apply fmap_Some in Hj as (dj' & Hj & ?). simplify_eq.
    by eapply sorted_union_ascending.
Qed.

(** ** The calendar

    [ord2ymd] inverts [ymd2ord] and yields valid dates; the defaults of
    [process_inputs] are therefore valid dates, 30 days apart. *)

Lemma divmod_facts (a b : Z) :
  0 < b → a = b * (a / b) + a mod b ∧ 0 ≤ a mod b < b.
Proof. intros Hb. split; [apply Z.div_mod; lia | apply Z.mod_pos_bound; lia]. Qed.

(** The leap-year test of [ord2ymd] agrees with [is_leap]. *)
Lemma is_leap_spec (q400 n100 n4 n1 : Z) :
  0 ≤ n100 ≤ 3 → 0 ≤ n4 ≤ 24 → 0 ≤ n1 ≤ 3 →
  is_leap (q400 * 400 + 1 + n100 * 100 + n4 * 4 + n1)
  = (n1 =? 3) && (negb (n4 =? 24) || (n100 =? 3)).
Proof.
  intros H100 H4 H1. unfold is_leap.
  set (y := q400 * 400 + 1 + n100 * 100 + n4 * 4 + n1).
  assert (y mod 4 = (n1 + 1) mod 4) as ->.
  { unfold y. replace (q400 * 400 + 1 + n100 * 100 + n4 * 4 + n1)
      with ((n1 + 1) + (q400 * 100 + n100 * 25 + n4) * 4) by lia.
    apply Z.mod_add. lia. }
  assert (y mod 100 = (n4 * 4 + n1 + 1) mod 100) as ->.
  { unfold y. replace (q400 * 400 + 1 + n100 * 100 + n4 * 4 + n1)
      with ((n4 * 4 + n1 + 1) + (q400 * 4 + n100) * 100) by lia.
    apply Z.mod_add. lia. }
  assert (y mod 400 = (n100 * 100 + n4 * 4 + n1 + 1) mod 400) as ->.
  { unfold y. replace (q400 * 400 + 1 + n100 * 100 + n4 * 4 + n1)
      with ((n100 * 100 + n4 * 4 + n1 + 1) + q400 * 400) by lia.
    apply Z.mod_add. lia. }
  destruct (divmod_facts (n1 + 1) 4) as [? ?]; [lia|].
  destruct (divmod_facts (n4 * 4 + n1 + 1) 100) as [? ?]; [lia|].
  destruct (divmod_facts (n100 * 100 + n4 * 4 + n1 + 1) 400) as [? ?]; [lia|].
  repeat match goal with
         | |- context [?a =? ?b] => destruct (Z.eqb_spec a b)
         end; cbn; try reflexivity; exfalso; lia.
Qed.

Lemma days_before_year_decompose (q400 n100 n4 n1 : Z) :
  0 ≤ n100 ≤ 3 → 0 ≤ n4 ≤ 24 → 0 ≤ n1 ≤ 3 →
  days_before_year (q400 * 400 + 1 + n100 * 100 + n4 * 4 + n1)
  = 146097 * q400 + 36524 * n100 + 1461 * n4 + 365 * n1.
Proof.
  intros H100 H4 H1. unfold days_before_year. cbv zeta.
  set (y := q400 * 400 + 1 + n100 * 100 + n4 * 4 + n1 - 1).
  assert (y / 4 = q400 * 100 + n100 * 25 + n4) as ->.
  { symmetry. apply (Z.div_unique _ _ _ n1); lia. }
  assert (y / 100 = q400 * 4 + n100) as ->.
  { symmetry. apply (Z.div_unique _ _ _ (n4 * 4 + n1)); lia. }
  assert (y / 400 = q400) as ->.
  { symmetry. apply (Z.div_unique _ _ _ (n100 * 100 + n4 * 4 + n1)); lia. }
  lia.
Qed.

(** Evaluation of closed table indices and tests. *)
Ltac eval_to_nat :=
  repeat match goal with
         | |- context [Z.to_nat ?k] =>
             let v := eval vm_compute in (Z.to_nat k) in
             change (Z.to_nat k) with v
         end.

Ltac eval_tests :=
  repeat match goal with
         | |- context [Z.eqb ?a ?b] =>
             let v := eval vm_compute in (Z.eqb a b) in
             lazymatch v with
             | true => change (Z.eqb a b) with true
             | false => change (Z.eqb a b) with false
             end
         | |- context [Z.ltb ?a ?b] =>
             let v := eval vm_compute in (Z.ltb a b) in
             lazymatch v with
             | true => change (Z.ltb a b) with true
             | false => change (Z.ltb a b) with false
             end
         end.

(** Every ordinal of the supported range is the ordinal of the valid date
    that [ord2ymd] computes for it. *)
Lemma ord2ymd_spec (n : Z) :
  1 ≤ n ≤ MAXORDINAL →
  valid_ymd (year (ord2ymd n)) (month (ord2ymd n)) (day (ord2ymd n)) = true
  ∧ toordinal (ord2ymd n) = n.
Proof.
  intros Hn. unfold MAXORDINAL in Hn. unfold toordinal, ord2ymd.
  unfold DI400Y, DI100Y, DI4Y. cbv zeta.
  destruct (divmod_facts (n - 1) 146097) as [E400 B400]; [lia|].
  set (q400 := (n - 1) / 146097) in *. set (r400 := (n - 1) mod 146097) in *.
  destruct (divmod_facts r400 36524) as [E100 B100]; [lia|].
  set (n100 := r400 / 36524) in *. set (r100 := r400 mod 36524) in *.
  destruct (divmod_facts r100 1461) as [E4 B4]; [lia|].
  set (n4 := r100 / 1461) in *. set (r4 := r100 mod 1461) in *.
  destruct (divmod_facts r4 365) as [E1 B1]; [lia|].
  set (n1 := r4 / 365) in *. set (r1 := r4 mod 365) in *.
  assert (0 ≤ q400 ≤ 24) by lia.
  assert (0 ≤ n100 ≤ 4) by lia.
  assert (0 ≤ n4 ≤ 24) by lia.
  assert (0 ≤ n1 ≤ 4) by lia.
  destruct ((n1 =? 4) || (n100 =? 4)) eqn:Hspecial.
  - (* the last day of a leap year *)
    cbn [year month day].
    assert (n1 = 4 ∧ n4 ≤ 24 ∧ n100 ≤ 3 ∧ r1 = 0
            ∨ n100 = 4 ∧ n4 = 0 ∧ n1 = 0 ∧ r1 = 0 ∧ r100 = 0) as Hcase by lia.
    destruct Hcase as [(-> & ? & ? & ->) | (-> & -> & -> & -> & Hr)].
    + assert (n4 ≤ 23) by lia.
      replace (q400 * 400 + 1 + n100 * 100 + n4 * 4 + 4 - 1)
        with (q400 * 400 + 1 + n100 * 100 + n4 * 4 + 3) by lia.
      unfold valid_ymd, ymd2ord, days_in_month, days_before_month.
      rewrite is_leap_spec, days_before_year_decompose by lia.
      replace (n4 =? 24) with false by (symmetry; apply Z.eqb_neq; lia).
      eval_to_nat. cbn. split; [|lia].
      rewrite !andb_true_iff, !Z.leb_le. lia.
    + assert (q400 ≤ 23) by lia.
      replace (q400 * 400 + 1 + 4 * 100 + 0 * 4 + 0 - 1)
        with (q400 * 400 + 1 + 3 * 100 + 24 * 4 + 3) by lia.
      unfold valid_ymd, ymd2ord, days_in_month, days_before_month.
      rewrite is_leap_spec, days_before_year_decompose by lia.
      eval_to_nat. cbn. split; [|lia].
      rewrite !andb_true_iff, !Z.leb_le. lia.
  - apply orb_false_iff in Hspecial as [?%Z.eqb_neq ?%Z.eqb_neq].
    set (y := q400 * 400 + 1 + n100 * 100 + n4 * 4 + n1).
    set (leapyear := (n1 =? 3) && (negb (n4 =? 24) || (n100 =? 3))).
    assert (is_leap y = leapyear) as Hleap by (apply is_leap_spec; lia).
    assert (days_before_year y
            = 146097 * q400 + 36524 * n100 + 1461 * n4 + 365 * n1) as Hdby
      by (apply days_before_year_decompose; lia).
    rewrite Z.shiftr_div_pow2 by lia. change (2 ^ 5) with 32.
    destruct (divmod_facts (r1 + 50) 32) as [Em Bm]; [lia|].
    generalize dependent ((r1 + 50) / 32). intros m Em.
    assert (1 ≤ y ≤ 9999) by (unfold y; lia).
    assert (m = 1 ∨ m = 2 ∨ m = 3 ∨ m = 4 ∨ m = 5 ∨ m = 6 ∨ m = 7 ∨ m = 8
            ∨ m = 9 ∨ m = 10 ∨ m = 11 ∨ m = 12) as Hm by lia.
    clearbody y q400 r400 n100 r100 n4 r4 n1 r1.
    destruct_or!; subst m;
      destruct leapyear eqn:Hly; eval_to_nat; eval_tests; cbn;
      repeat match goal with
             | |- context [?a <? ?b] => destruct (Z.ltb_spec a b)
             end;
      try lia;
      cbn [year month day];
      unfold valid_ymd, ymd2ord, days_in_month, days_before_month;
      rewrite ?Hleap, ?Hdby; eval_to_nat; eval_tests; cbn;
      try (split; [rewrite !andb_true_iff, !Z.leb_le; lia | lia]).
Qed.

Lemma days_before_year_mono (a b : Z) :
  1 ≤ a ≤ b → days_before_year a ≤ days_before_year b.
Proof.
  intros H. unfold days_before_year. cbv zeta.
  destruct (divmod_facts (a - 1) 4), (divmod_facts (a - 1) 100),
    (divmod_facts (a - 1) 400), (divmod_facts (b - 1) 4),
    (divmod_facts (b - 1) 100), (divmod_facts (b - 1) 400); try lia.
Qed.

Lemma valid_ymd_inv (y m d : Z) :
  valid_ymd y m d = true →
  1 ≤ y ≤ 9999 ∧ 1 ≤ m ≤ 12 ∧ 1 ≤ d ≤ days_in_month y m.
Proof. unfold valid_ymd. rewrite !andb_true_iff, !Z.leb_le. lia. Qed.

Lemma ymd2ord_bounds (y m d : Z) :
  valid_ymd y m d = true →
  days_before_year y < ymd2ord y m d ≤ days_before_year y + 366.
Proof.
  intros (_ & Hm & Hd)%valid_ymd_inv. revert Hd.
  unfold ymd2ord, days_in_month, days_before_month.
  assert (m = 1 ∨ m = 2 ∨ m = 3 ∨ m = 4 ∨ m = 5 ∨ m = 6 ∨ m = 7 ∨ m = 8
          ∨ m = 9 ∨ m = 10 ∨ m = 11 ∨ m = 12) as Hcases by lia.
  destruct_or!; subst m; destruct (is_leap y);
    eval_to_nat; eval_tests; cbn; lia.
Qed.

Lemma days_before_year_999 : days_before_year 999 = 364512.
Proof. reflexivity. Qed.

Lemma days_before_year_1000 : days_before_year 1000 = 364877.
Proof. reflexivity. Qed.

Lemma days_before_year_1001 : days_before_year 1001 = 365242.
Proof. reflexivity. Qed.

Lemma days_before_year_9999 : days_before_year 9999 = 3651694.
Proof. reflexivity. Qed.

Lemma toordinal_year_1000 (d : datetime) :
  valid_ymd (year d) (month d) (day d) = true →
  days_before_year 1000 + 1 < toordinal d → 1000 ≤ year d.
Proof.
  intros Hv Ho. pose proof (ymd2ord_bounds _ _ _ Hv) as Hb.
  apply valid_ymd_inv in Hv as (Hy & _).
  destruct (Z.le_gt_cases 1000 (year d)) as [|Hlt]; [done|].
  pose proof (days_before_year_mono (year d) 999 ltac:(lia)) as Hmono.
  unfold toordinal in *. rewrite days_before_year_999 in Hmono.
  rewrite days_before_year_1000 in Ho. lia.
Qed.

Lemma toordinal_le_MAXORDINAL (d : datetime) :
  valid_ymd (year d) (month d) (day d) = true → toordinal d ≤ MAXORDINAL + 1.
Proof.
  intros Hv. pose proof (ymd2ord_bounds _ _ _ Hv) as Hb.
  apply valid_ymd_inv in Hv as (Hy & _).
  pose proof (days_before_year_mono (year d) 9999 ltac:(lia)) as Hmono.
  unfold toordinal, MAXORDINAL in *. rewrite days_before_year_9999 in Hmono.
  lia.
Qed.

(** The year field of [strftime]: four digits from year 1000 on. *)
Lemma of_Z_four_digits (y : Z) :
  1000 ≤ y ≤ 9999 →
  ∃ a b c e,
    PyStr.of_Z y = String a (String b (String c (String e EmptyString)))
    ∧ forallb Strptime.is_digit [a; b; c; e] = true
    ∧ Strptime.digit a * 1000 + Strptime.digit b * 100
      + Strptime.digit c * 10 + Strptime.digit e = y.
Proof.
  intros Hy.
  assert (forallb
            (λ y, match PyStr.of_Z y with
                  | String a (String b (String c (String e EmptyString))) =>
                      forallb Strptime.is_digit [a; b; c; e]
                      && (Strptime.digit a * 1000 + Strptime.digit b * 100
                          + Strptime.digit c * 10 + Strptime.digit e =? y)
                  | _ => false
                  end) (seqZ 1000 9000) = true) as Hall
    by (vm_compute; reflexivity).
  rewrite forallb_forall in Hall. specialize (Hall y).
  assert (In y (seqZ 1000 9000)) as Hin
    by (apply list_elem_of_In, elem_of_seqZ; lia).
  specialize (Hall Hin). clear Hin.
  destruct (PyStr.of_Z y) as [|a [|b [|c [|e [|]]]]]; try discriminate Hall.
  exists a, b, c, e. split; [done|].
  by apply andb_prop in Hall as [? ?%Z.eqb_eq].
Qed.

(** The month and day fields of [strftime]: two digits. *)
Lemma pad2_two_digits (k : Z) :
  1 ≤ k ≤ 31 →
  ∃ a b,
    PyStr.pad2 k = String a (String b EmptyString)
    ∧ forallb Strptime.is_digit [a; b] = true
    ∧ Strptime.digit a * 10 + Strptime.digit b = k.
Proof.
  intros Hk.
  assert (forallb
            (λ k, match PyStr.pad2 k with
                  | String a (String b EmptyString) =>
                      forallb Strptime.is_digit [a; b]
                      && (Strptime.digit a * 10 + Strptime.digit b =? k)
                  | _ => false
                  end) (seqZ 1 31) = true) as Hall
    by (vm_compute; reflexivity).
  rewrite forallb_forall in Hall. specialize (Hall k).
  assert (In k (seqZ 1 31)) as Hin
    by (apply list_elem_of_In, elem_of_seqZ; lia).
  specialize (Hall Hin). clear Hin.
  destruct (PyStr.pad2 k) as [|a [|b [|]]]; try discriminate Hall.
  exists a, b. split; [done|].
  by apply andb_prop in Hall as [? ?%Z.eqb_eq].
Qed.

(** From year 1000 on, [strftime('%Y%m%d')] of a valid date is an
    eight-digit encoding of that date. *)
Lemma strftime_Ymd_YYYYMMDD (d : datetime) :
  valid_ymd (year d) (month d) (day d) = true → 1000 ≤ year d →
  is_YYYYMMDD (strftime_Ymd d) = true.
Proof.
  intros Hv Hy. pose proof Hv as (? & ? & ?)%valid_ymd_inv.
  pose proof (days_in_month_le_31 (year d) (month d)).
  destruct (of_Z_four_digits (year d)) as (a & b & c & e & Ey & Dy & Vy);
    [lia|].
  destruct (pad2_two_digits (month d)) as (m1 & m2 & Em & Dm & Vm); [lia|].
  destruct (pad2_two_digits (day d)) as (d1 & d2 & Ed & Dd & Vd); [lia|].
  unfold strftime_Ymd. rewrite Ey, Em, Ed.
  repeat first [rewrite app_cons | change (EmptyString +:+ ?s) with s].
  unfold is_YYYYMMDD.
  rewrite Vy, Vm, Vd, Hv, andb_true_r.
  change [a; b; c; e; m1; m2; d1; d2]
    with ([a; b; c; e] ++ [m1; m2] ++ [d1; d2]).
  by rewrite !forallb_app, Dy, Dm, Dd.
Qed.

(** With one date input empty and a valid current date from year 1001
    on, the defaults exist, lie exactly 30 days apart and are eight-digit
    encodings of valid dates. *)
Lemma default_dates_empty (now : datetime) (sd ed : string) :
  valid_ymd (year now) (month now) (day now) = true → 1001 ≤ year now →
  sd = EmptyString ∨ ed = EmptyString →
  ∃ start,
    default_dates now sd ed = inr (strftime_Ymd start, strftime_Ymd now)
    ∧ toordinal now - toordinal start = 30
    ∧ is_YYYYMMDD (strftime_Ymd start) = true
    ∧ is_YYYYMMDD (strftime_Ymd now) = true.
Proof.
  intros Hv Hy Hempty.
  pose proof (toordinal_le_MAXORDINAL now Hv) as Hmax.
  pose proof (ymd2ord_bounds _ _ _ Hv) as [Hlo _]. fold (toordinal now) in Hlo.
  pose proof (days_before_year_mono 1001 (year now) ltac:(lia)) as Hmono.
  rewrite days_before_year_1001 in Hmono.
  unfold MAXORDINAL in Hmax.
  assert (1 ≤ toordinal now - 30 ≤ MAXORDINAL) as Hrange
    by (unfold MAXORDINAL; lia).
  destruct (ord2ymd_spec _ Hrange) as [Hvs Hos].
  exists (ord2ymd (toordinal now - 30)).
  assert (sub_days now 30 = inr (ord2ymd (toordinal now - 30))) as Hsub.
  { unfold sub_days.
    destruct (Z.ltb_spec 0 (toordinal now - 30)); [|lia].
    destruct (Z.leb_spec (toordinal now - 30) MAXORDINAL); [done|lia]. }
  split_and!.
  - unfold default_dates. rewrite Hsub.
    destruct Hempty as [-> | ->]; [reflexivity|].
    destruct sd; reflexivity.
  - lia.
  - apply strftime_Ymd_YYYYMMDD; [exact Hvs|].
    apply toordinal_year_1000; [exact Hvs|].
    rewrite Hos, days_before_year_1000. lia.
  - apply strftime_Ymd_YYYYMMDD; [exact Hv|lia].
Qed.

(** ** Sequencing *)

Lemma result_bind_inr {A B : Type} (r : result A) (f : A → result B) (y : B) :
  r ≫= f = inr y ↔ ∃ x, r = inr x ∧ f x = inr y.
Proof.
  unfold mbind, result_bind. destruct r as [e|x]; split.
  - done.
  - by intros (? & ? & ?).
  - eauto.
  - intros (? & ? & ?). by simplify_eq.
Qed.

Lemma result_bind_inl {A B : Type} (r : result A) (f : A → result B) (e : exn) :
  r ≫= f = inl e ↔ r = inl e ∨ ∃ x, r = inr x ∧ f x = inl e.
Proof.
  unfold mbind, result_bind. destruct r as [e'|x]; split.
  - intros ?. left. by simplify_eq.
  - intros [?|(? & ? & ?)]; by simplify_eq.
  - eauto.
  - intros [?|(? & ? & ?)]; by simplify_eq.
Qed.

(** ** Reading the body *)

Ltac unfold_result :=
  unfold mbind, result_bind, mret, result_ret in *.

Lemma pair_of_readable (item : Json.value) :
  (∃ p, pair_of item = inr p) ↔ readable_item item.
Proof.
  unfold pair_of, readable_item. split.
  - intros [p H]. unfold_result.
    destruct item as [| | | | | |members]; try done. cbn in H.
    destruct (Json.lookup "timestamp" members) as [timestamp|] eqn:Ht;
      [|done].
    destruct (Json.slice8 timestamp) as [?|date] eqn:Hd; [done|].
    destruct (Json.lookup "views" members) as [views|] eqn:Hv; [|done].
    exists members, timestamp, views. split_and!; try done.
    destruct timestamp; try done; eauto.
  - intros (members & timestamp & views & -> & Ht & Hs & Hv).
    unfold_result. cbn. rewrite Ht, Hv.
    destruct Hs as [[s ->]|[l ->]]; cbn; eauto.
Qed.

Lemma pair_of_item (members : list (string * Json.value)) (ts : string)
    (views : Json.value) :
  Json.lookup "timestamp" members = Some (Json.Str ts) →
  Json.lookup "views" members = Some views →
  pair_of (Json.Object members) = inr (Json.StrSlice (PyStr.take 8 ts), views).
Proof. intros Ht Hv. unfold pair_of. unfold_result. cbn. by rewrite Ht, Hv. Qed.

Lemma comprehension_readable (items : list Json.value) :
  (∃ views, comprehension items = inr views) ↔ Forall readable_item items.
Proof.
  induction items as [|item items IH]; cbn.
  - split; eauto.
  - rewrite Forall_cons, <- IH, <- pair_of_readable. unfold_result. split.
    + intros [views H].
      destruct (pair_of item) as [?|p]; [done|].
      destruct (comprehension items) as [?|ps]; [done|]. eauto.
    + intros [[p ->] [ps ->]]. eauto.
Qed.

Lemma comprehension_strings (keys : list string) :
  keys ≠ [] → ∃ e, comprehension (Json.Str <$> keys) = inl e.
Proof. destruct keys as [|k keys]; [done|]. intros _. cbn. eauto. Qed.

Lemma keys_nil (members : list (string * Json.value)) :
  Json.keys members = [] ↔ members = [].
Proof. by destruct members as [|[k v] members]. Qed.

Lemma characters_nil (s : string) :
  Json.characters s = [] ↔ s = EmptyString.
Proof. by destruct s. Qed.

(** The fetcher reads exactly the [readable] bodies. *)
Lemma daily_views_readable (v : Json.value) :
  (∃ views, daily_views v = inr views) ↔ readable v.
Proof.
  unfold daily_views, readable. split.
  - intros [views H]. unfold_result.
    destruct v as [| | | | | |members]; try done. cbn in H.
    destruct (Json.lookup "items" members) as [data|] eqn:Hd; [|done].
    exists members, data. split_and!; try done.
    destruct data as [| | | |s|items|fields]; try done; cbn in H.
    + right. right. f_equal. apply characters_nil.
      destruct (Json.characters s) as [|c cs] eqn:Hs; [done|].
      by destruct (comprehension_strings (c :: cs)) as [e He]; [|
        rewrite He in H].
    + left. exists items. split; [done|].
      apply comprehension_readable. eauto.
    + right. left. f_equal. apply keys_nil.
      destruct (Json.keys fields) as [|c cs] eqn:Hs; [done|].
      by destruct (comprehension_strings (c :: cs)) as [e He]; [|
        rewrite He in H].
  - intros (members & data & -> & Hd & Hdata). unfold_result. cbn.
    rewrite Hd.
    destruct Hdata as [(items & -> & Hitems)|[->| ->]]; cbn; eauto.
    by apply comprehension_readable.
Qed.

Lemma comprehension_expected (items : list Json.value)
    (records : list (string * Z)) :
  Forall2 daily_item items records →
  comprehension items = inr (unhashed (series_of records)).
Proof.
  induction 1 as [|item r items records (members & -> & Ht & Hv) _ IH];
    [done|].
  cbn [comprehension]. rewrite (pair_of_item _ _ _ Ht Hv), IH. done.
Qed.

(** A body of the expected shape is read, one pair per item. *)
Lemma daily_views_expected (v : Json.value) (records : list (string * Z)) :
  expected_shape v records →
  daily_views v = inr (unhashed (series_of records)).
Proof.
  intros (members & items & -> & Hd & Hitems).
  unfold daily_views. unfold_result. cbn. rewrite Hd. cbn.
  by apply comprehension_expected.
Qed.

Lemma expected_shape_items_body (records : list (string * Z)) :
  expected_shape (items_body records) records.
Proof.
  exists [("items",
           Json.Array
             ((λ r, Json.Object [("timestamp", Json.Str r.1);
                                 ("views", Json.Int r.2)]) <$> records))],
    ((λ r, Json.Object [("timestamp", Json.Str r.1);
                        ("views", Json.Int r.2)]) <$> records).
  split_and!; [done..|].
  induction records as [|r records IH]; constructor; [|done].
  by eexists.
Qed.

Lemma expected_shape_readable (v : Json.value) (records : list (string * Z)) :
  expected_shape v records → readable v.
Proof.
  intros H. apply daily_views_readable.
  rewrite (daily_views_expected _ _ H). eauto.
Qed.

(** What the fetcher raises on a body is one of Python's own exceptions
    for a missing key or an operation the value does not support. *)
Lemma subscript_raises (v : Json.value) (key : string) (e : exn) :
  Json.subscript v key = inl e → exn_cls e = KeyError ∨ exn_cls e = TypeError.
Proof.
  destruct v; cbn; try (intros [= <-]; by right).
  case_match; [done|]. intros [= <-]. by left.
Qed.

Lemma slice8_raises (v : Json.value) (e : exn) :
  Json.slice8 v = inl e → exn_cls e = TypeError.
Proof. destruct v; cbn; try done; by intros [= <-]. Qed.

Lemma iterate_raises (v : Json.value) (e : exn) :
  Json.iterate v = inl e → exn_cls e = TypeError.
Proof. destruct v; cbn; try done; by intros [= <-]. Qed.

Lemma pair_of_raises (item : Json.value) (e : exn) :
  pair_of item = inl e → exn_cls e = KeyError ∨ exn_cls e = TypeError.
Proof.
  unfold pair_of.
  intros [H|(ts & _ & [H|(d & _ & [H|(c & _ & H)]%result_bind_inl)]
                        %result_bind_inl)]%result_bind_inl.
  - by eapply subscript_raises.
  - right. by eapply slice8_raises.
  - by eapply subscript_raises.
  - done.
Qed.

Lemma comprehension_raises (items : list Json.value) (e : exn) :
  comprehension items = inl e → exn_cls e = KeyError ∨ exn_cls e = TypeError.
Proof.
  induction items as [|item items IH]; cbn; [done|].
  intros [H|(p & _ & [H|(ps & _ & H)]%result_bind_inl)]%result_bind_inl.
  - by eapply pair_of_raises.
  - by apply IH.
  - done.
Qed.

Lemma daily_views_raises (v : Json.value) (e : exn) :
  daily_views v = inl e → exn_cls e = KeyError ∨ exn_cls e = TypeError.
Proof.
  unfold daily_views.
  intros [H|(data & _ & [H|(items & _ & H)]%result_bind_inl)]%result_bind_inl.
  - by eapply subscript_raises.
  - right. by eapply iterate_raises.
  - by eapply comprehension_raises.
Qed.

Lemma take_length_le (n : nat) (s : string) :
  (String.length (PyStr.take n s) ≤ n)%nat.
Proof.
  revert s. induction n as [|n IH]; intros [|a s]; cbn; try lia.
  specialize (IH s). lia.
Qed.

Lemma slice8_short (v : Json.value) (d : Json.slice) :
  Json.slice8 v = inr d → (Json.len d ≤ 8)%nat.
Proof.
  destruct v as [| | | |s|l|]; try done; intros [= <-].
  - exact (take_length_le 8 s).
  - cbn. rewrite length_take. lia.
Qed.

Lemma pair_of_short (item : Json.value) (d : Json.slice) (c : Json.value) :
  pair_of item = inr (d, c) → (Json.len d ≤ 8)%nat.
Proof.
  unfold pair_of.
  intros (ts & _ & (d' & Hd & (c' & _ & H)%result_bind_inr)
                     %result_bind_inr)%result_bind_inr.
  unfold_result. simplify_eq. by eapply slice8_short.
Qed.

Lemma comprehension_short (items : list Json.value) (views : series)
    (d : Json.slice) (c : Json.value) :
  comprehension items = inr views → (d, c) ∈ views → (Json.len d ≤ 8)%nat.
Proof.
  revert views. induction items as [|item items IH]; intros views; cbn.
  - intros [= <-] Hin. by apply elem_of_nil in Hin.
  - intros ([d' c'] & Hp & (ps & Hps & H)%result_bind_inr)%result_bind_inr.
    unfold_result. simplify_eq.
    intros [[= -> ->]|Hin]%elem_of_cons.
    + by eapply pair_of_short.
    + by eapply IH.
Qed.

(** A date of a fetched series has at most eight characters or
    elements. *)
Lemma daily_views_short (v : Json.value) (views : series) (d : Json.slice)
    (c : Json.value) :
  daily_views v = inr views → (d, c) ∈ views → (Json.len d ≤ 8)%nat.
Proof.
  unfold daily_views.
  intros (data & _ & (items & _ & H)%result_bind_inr)%result_bind_inr.
  by eapply comprehension_short.
Qed.

Lemma daily_views_not_HTTPError (v : Json.value) (e : exn) :
  daily_views v = inl e → is_HTTPError e = false.
Proof.
  intros [H|H]%daily_views_raises; unfold is_HTTPError; by rewrite H.
Qed.

(** ** Hashing the dates of a series *)

Lemma hashed_unhashed (v : dated) : hashed (unhashed v) = inr v.
Proof.
  induction v as [|[d c] v IH]; [done|].
  cbn. fold (unhashed v). by rewrite IH.
Qed.

Lemma unhashed_inj (v1 v2 : dated) : unhashed v1 = unhashed v2 → v1 = v2.
Proof.
  intros H. apply (f_equal hashed) in H. rewrite !hashed_unhashed in H.
  by simplify_eq.
Qed.

Lemma hashed_returns (v : series) (d : dated) :
  hashed v = inr d → v = unhashed d.
Proof.
  revert d. induction v as [|[[k|l] c] v IH]; intros d H; cbn in H.
  - by simplify_eq.
  - apply result_bind_inr in H as (d' & Hd' & H).
    unfold mret, result_ret in H. simplify_eq.
    cbn. f_equal. by apply IH.
  - done.
Qed.

Lemma hashed_raises (v : series) (e : exn) :
  hashed v = inl e →
  e = Raise TypeError "unhashable type: 'list'"
  ∧ ∃ l c, (Json.ListSlice l, c) ∈ v.
Proof.
  induction v as [|[[k|l] c] v IH]; intros H; cbn in H.
  - done.
  - apply result_bind_inl in H as [H|(d' & _ & H)]; [|done].
    destruct (IH H) as (-> & l & c' & Hin). split; [done|].
    exists l, c'. by right.
  - simplify_eq. split; [done|]. exists l, c. by left.
Qed.

Lemma hashed_list (v : series) (l : list Json.value) (c : Json.value) :
  (Json.ListSlice l, c) ∈ v →
  hashed v = inl (Raise TypeError "unhashable type: 'list'").
Proof.
  induction v as [|[[k|l'] c'] v IH]; intros Hin.
  - by apply elem_of_nil in Hin.
  - apply elem_of_cons in Hin as [?|Hin]; [done|].
    cbn. by rewrite (IH Hin).
  - done.
Qed.

Lemma build_frame_returns (t1 t2 : string) (v1 v2 : series) (df : DataFrame) :
  build_frame t1 t2 v1 v2 = inr df ↔
  ∃ d1 d2, v1 = unhashed d1 ∧ v2 = unhashed d2
           ∧ df = comparison_frame t1 t2 d1 d2.
Proof.
  unfold build_frame. split.
  - intros (d1 & H1 & (d2 & H2 & H)%result_bind_inr)%result_bind_inr.
    unfold mret, result_ret in H. simplify_eq. exists d1, d2.
    split_and!; [by apply hashed_returns..|done].
  - intros (d1 & d2 & -> & -> & ->). by rewrite !hashed_unhashed.
Qed.

Lemma build_frame_unhashed (t1 t2 : string) (d1 d2 : dated) :
  build_frame t1 t2 (unhashed d1) (unhashed d2)
  = inr (comparison_frame t1 t2 d1 d2).
Proof. apply build_frame_returns. by exists d1, d2. Qed.

Lemma build_frame_raises (t1 t2 : string) (v1 v2 : series) (e : exn) :
  build_frame t1 t2 v1 v2 = inl e ↔
  e = Raise TypeError "unhashable type: 'list'"
  ∧ ∃ l c, (Json.ListSlice l, c) ∈ v1 ∨ (Json.ListSlice l, c) ∈ v2.
Proof.
  unfold build_frame. split.
  - intros [H|(d1 & _ & [H|(d2 & _ & H)]%result_bind_inl)]%result_bind_inl.
    + apply hashed_raises in H as (-> & l & c & H). eauto 6.
    + apply hashed_raises in H as (-> & l & c & H). eauto 6.
    + done.
  - intros (-> & l & c & [H|H]).
    + by rewrite (hashed_list _ _ _ H).
    + destruct (hashed v1) as [e|d1] eqn:H1.
      * by apply hashed_raises in H1 as [-> _].
      * unfold mbind, result_bind. by rewrite (hashed_list _ _ _ H).
Qed.

(** ** The request handler *)

Ltac early H :=
  cbn zeta in H; repeat case_match; simplify_eq/=; congruence.

Section Handler.

Variable remote : list string → string → Http.outcome.
Variable Figure : Type.
Variable px_line : DataFrame → string → list string → result Figure.
Variable update_layout : Figure → Figure.

Implicit Types (st : state) (now : datetime) (sd ed : string).

(** [process_inputs] step by step: the first step that raises ends the
    call, with the state reached so far. *)
Lemma process_inputs_unfold now (url1 url2 : string) sd ed st :
  process_inputs remote Figure px_line update_layout now url1 url2 sd ed st
  = match default_dates now sd ed with
    | inl e => (st, inl e)
    | inr (s, e) =>
    match validate_date s with
    | inl e => (st, inl e)
    | inr s =>
    match validate_date e with
    | inl e => (st, inl e)
    | inr e =>
    match extract_title url1 with
    | inl e => (st, inl e)
    | inr t1 =>
    match extract_title url2 with
    | inl e => (st, inl e)
    | inr t2 =>
    match get_pageviews remote t1 s e st with
    | (st1, inl e) => (st1, inl e)
    | (st1, inr v1) =>
    match get_pageviews remote t2 s e st1 with
    | (st2, inl e) => (st2, inl e)
    | (st2, inr v2) =>
    match build_frame t1 t2 v1 v2 with
    | inl e => (st2, inl e)
    | inr df =>
    match px_line df "Date" [label t1; label t2] with
    | inl e => (st2, inl e)
    | inr fig =>
        (st2, inr (df, update_layout fig, "Analysis completed successfully!"))
    end end end end end end end end end.
Proof.
  unfold process_inputs, mbind, M_bind, lift, mret, M_ret.
  repeat case_match; simplify_eq/=; try done.
Qed.

(** What a call of [process_inputs] that returns has gone through. *)
Lemma process_inputs_returns now (url1 url2 : string) sd ed st st1 df fig msg :
  process_inputs remote Figure px_line update_layout now url1 url2 sd ed st
    = (st1, inr (df, fig, msg)) →
  ∃ s e t1 t2 v1 v2 st0 fig0,
    default_dates now sd ed = inr (s, e)
    ∧ validate_date s = inr s ∧ validate_date e = inr e
    ∧ extract_title url1 = inr t1 ∧ extract_title url2 = inr t2
    ∧ get_pageviews remote t1 s e st = (st0, inr (unhashed v1))
    ∧ get_pageviews remote t2 s e st0 = (st1, inr (unhashed v2))
    ∧ df = comparison_frame t1 t2 v1 v2
    ∧ px_line df "Date" [label t1; label t2] = inr fig0
    ∧ fig = update_layout fig0
    ∧ msg = "Analysis completed successfully!".
Proof.
  rewrite process_inputs_unfold. intros H.
  repeat case_match; simplify_eq/=.
  repeat match goal with
         | H : validate_date _ = inr _ |- _ =>
             pose proof (validate_date_returns _ _ H); subst; revert H
         end; intros.
  match goal with
  | H : build_frame _ _ _ _ = inr _ |- _ =>
      apply build_frame_returns in H as (v1 & v2 & -> & -> & ->)
  end.
  by eexists _, _, _, _, v1, v2, _, _.
Qed.

(** What can make [process_inputs] raise: the default dates overflow,
    a date or a URL is rejected, a fetch fails, a fetched date is a
    list, or the chart library raises. *)
Lemma process_inputs_raises now (url1 url2 : string) sd ed st st1 err :
  process_inputs remote Figure px_line update_layout now url1 url2 sd ed st
    = (st1, inl err) →
  (st1 = st ∧ default_dates now sd ed = inl err)
  ∨ (st1 = st ∧ err = Raise ValueError "Date must be in YYYYMMDD format")
  ∨ (st1 = st ∧ err = Raise ValueError "URL must be from en.wikipedia.org")
  ∨ (∃ t s e st0, get_pageviews remote t s e st0 = (st1, inl err))
  ∨ (∃ df x y, px_line df x y = inl err)
  ∨ err = Raise TypeError "unhashable type: 'list'".
Proof.
  rewrite process_inputs_unfold. intros H.
  repeat case_match; simplify_eq/=;
    repeat match goal with
      | H : validate_date _ = inl _ |- _ => apply validate_date_raises in H
      | H : extract_title _ = inl _ |- _ => apply extract_title_raises in H
      | H : build_frame _ _ _ _ = inl _ |- _ =>
          apply build_frame_raises in H as [-> _]
      end; subst; eauto 10.
Qed.

(** Both fetches of a successful submission are in the cache afterwards,
    and two equal titles were served the same series. *)
Lemma process_inputs_table now (url1 url2 : string) sd ed st st1 df fig msg :
  process_inputs remote Figure px_line update_layout now url1 url2 sd ed st
    = (st1, inr (df, fig, msg)) →
  ∃ s e t1 t2 v1 v2,
    default_dates now sd ed = inr (s, e)
    ∧ validate_date s = inr s ∧ validate_date e = inr e
    ∧ extract_title url1 = inr t1 ∧ extract_title url2 = inr t2
    ∧ cache st1 !! (t1, s, e) = Some (unhashed v1)
    ∧ cache st1 !! (t2, s, e) = Some (unhashed v2)
    ∧ (t1 = t2 → v1 = v2)
    ∧ df = comparison_frame t1 t2 v1 v2.
Proof.
  intros H. apply process_inputs_returns in H
    as (s & e & t1 & t2 & v1 & v2 & st0 & fig0 & Hd & Hs & He & Ht1 & Ht2
        & Hf1 & Hf2 & -> & _).
  exists s, e, t1, t2, v1, v2.
  pose proof (get_pageviews_returns _ _ _ _ _ _ _ Hf1) as Hc1.
  pose proof (get_pageviews_returns _ _ _ _ _ _ _ Hf2) as Hc2.
  split_and!; try done.
  - by eapply get_pageviews_keeps.
  - intros ->. rewrite (get_pageviews_hit _ _ _ _ _ _ Hc1) in Hf2.
    apply unhashed_inj. by simplify_eq.
Qed.

(** C1.  The table of a successful submission is the union-aligned
    table of the two fetched series, read as the date→count mappings
    [dict(views1)] and [dict(views2)]: one row per date of the union of
    the key sets, the dates strictly increasing, each count the
    mapping's value for the date or 0; two empty series give a table
    without rows. *)
Theorem process_inputs_merged_table now (url1 url2 : string) sd ed st st1
    df fig msg :
  process_inputs remote Figure px_line update_layout now url1 url2 sd ed st
    = (st1, inr (df, fig, msg)) →
  ∃ s e t1 t2 v1 v2,
    extract_title url1 = inr t1 ∧ extract_title url2 = inr t2
    ∧ cache st1 !! (t1, s, e) = Some (unhashed v1)
    ∧ cache st1 !! (t2, s, e) = Some (unhashed v2)
    ∧ merged_table df (label t1) (label t2) (dict v1) (dict v2)
    ∧ (v1 = [] → v2 = [] → nrows df = O).
Proof.
  intros H. apply process_inputs_table in H
    as (s & e & t1 & t2 & v1 & v2 & _ & _ & _ & Ht1 & Ht2 & Hc1 & Hc2
        & Hsame & ->).
  exists s, e, t1, t2, v1, v2. split_and!; try done.
  - by apply comparison_frame_merged.
  - intros -> ->.
    destruct (comparison_frame_columns t1 t2 [] []) as (_ & _ & _ & ->).
    rewrite length_sorted_union. apply size_empty_iff. set_solver.
Qed.

(** C10.  When a fetched series has several pairs for one date, the
    table still has a single row for that date, and the count shown for
    the article is that of the last pair. *)
Theorem process_inputs_duplicate_dates now (url1 url2 : string) sd ed st st1
    df fig msg :
  process_inputs remote Figure px_line update_layout now url1 url2 sd ed st
    = (st1, inr (df, fig, msg)) →
  ∃ s e t1 t2 v1 v2,
    extract_title url1 = inr t1 ∧ extract_title url2 = inr t2
    ∧ cache st1 !! (t1, s, e) = Some (unhashed v1)
    ∧ cache st1 !! (t2, s, e) = Some (unhashed v2)
    ∧ ∀ d c before after,
        d ∉ after.*1 →
        (v1 = before ++ (d, c) :: after ∨ v2 = before ++ (d, c) :: after) →
        ∃ i x y,
          row df (label t1) (label t2) i = Some (d, x, y)
          ∧ (v1 = before ++ (d, c) :: after → x = c)
          ∧ (v2 = before ++ (d, c) :: after → y = c)
          ∧ ∀ j x' y',
              row df (label t1) (label t2) j = Some (d, x', y') → j = i.
Proof.
  intros H. apply process_inputs_table in H
    as (s & e & t1 & t2 & v1 & v2 & _ & _ & _ & Ht1 & Ht2 & Hc1 & Hc2
        & Hsame & ->).
  exists s, e, t1, t2, v1, v2. split_and!; try done.
  intros d c before after Hlast Hin.
  assert (d ∈ sorted_union v1.*1 v2.*1) as [i Hi]%list_elem_of_lookup_1.
  { apply elem_of_sorted_union.
    destruct Hin as [-> | ->]; [left|right];
      rewrite fmap_app, fmap_cons; set_solver. }
  exists i, (get0 (dict v1) d), (get0 (dict v2) d).
  rewrite comparison_frame_row, Hi by done. split_and!; [done| | |].
  - intros ->. unfold get0. by rewrite dict_lookup_last.
  - intros ->. unfold get0. by rewrite dict_lookup_last.
  - intros j x' y'. rewrite comparison_frame_row by done.
    intros (d' & Hj & ?)%fmap_Some. simplify_eq.
    eapply NoDup_lookup; [apply NoDup_sorted_union|done..].
Qed.

(** The errors of the inner steps that the handler reports as
    "Error: ..." are all [ValueError]s. *)
Lemma get_pageviews_raises_ValueError st st1 (t s e : string) (err : exn) :
  get_pageviews remote t s e st = (st1, inl err) → exn_cls err = ValueError.
Proof.
  unfold get_pageviews, functools_cache, get_pageviews_body, requests_get.
  intros H. repeat case_match; by simplify_eq/=.
Qed.

(** Whatever [process_inputs] raises is a [ValueError], unless it is the
    overflow of the default start date, the [TypeError] of a date that
    is a list, or an exception of the chart library. *)
Lemma process_inputs_raises_class now (url1 url2 : string) sd ed st st1 err :
  process_inputs remote Figure px_line update_layout now url1 url2 sd ed st
    = (st1, inl err) →
  is_ValueError err = true
  ∨ default_dates now sd ed = inl err
  ∨ (∃ df x y, px_line df x y = inl err)
  ∨ err = Raise TypeError "unhashable type: 'list'".
Proof.
  intros H. apply process_inputs_raises in H
    as [[_ H]|[[_ ->]|[[_ ->]|[(t & s & e & st0 & H)|[H|H]]]]]; auto.
  left. apply get_pageviews_raises_ValueError in H.
  unfold is_ValueError. by rewrite H.
Qed.

Lemma default_dates_raises now sd ed (err : exn) :
  default_dates now sd ed = inl err →
  err = Raise OverflowError "date value out of range".
Proof.
  unfold default_dates, sub_days. intros H.
  repeat case_match; by simplify_eq.
Qed.

(** C5, as the code has it.  [wrapped_process] always returns its three
    outputs, and which ones is decided by the first inner step that
    raises.  A date that the validator rejects, a URL that the
    extractor rejects and a fetch that raises give the empty table, no
    chart and "Error: " followed by the message of the step; so does a
    [ValueError] of the chart library.  The overflow of the default
    start date, a fetched date that is a list and any exception of the
    chart library that is not a [ValueError] give the same fallback
    with "Unexpected error: " followed by the message.  When no step
    raises, the outputs are the merged table, the chart and the fixed
    success status. *)
Theorem wrapped_process_outcomes now (url1 url2 : string) sd ed st :
  let handler :=
    wrapped_process remote Figure px_line update_layout now url1 url2 sd ed
      st in
  (∀ err, default_dates now sd ed = inl err →
     handler = (st, fallback "Unexpected error: date value out of range"))
  ∧ ∀ s e, default_dates now sd ed = inr (s, e) →
    (validate_date s ≠ inr s ∨ validate_date e ≠ inr e →
       handler = (st, fallback "Error: Date must be in YYYYMMDD format"))
    ∧ (validate_date s = inr s → validate_date e = inr e →
       (PyStr.startswith url1 wiki_prefix = false
        ∨ PyStr.startswith url2 wiki_prefix = false →
          handler = (st, fallback "Error: URL must be from en.wikipedia.org"))
       ∧ ∀ t1 t2, extract_title url1 = inr t1 → extract_title url2 = inr t2 →
         (∀ st1 err,
            get_pageviews remote t1 s e st = (st1, inl err) →
            handler = (st1, fallback ("Error: " +:+ exn_str err)))
         ∧ ∀ st1 v1, get_pageviews remote t1 s e st = (st1, inr v1) →
           (∀ st2 err,
              get_pageviews remote t2 s e st1 = (st2, inl err) →
              handler = (st2, fallback ("Error: " +:+ exn_str err)))
           ∧ ∀ st2 v2, get_pageviews remote t2 s e st1 = (st2, inr v2) →
             (∀ l c,
                (Json.ListSlice l, c) ∈ v1 ∨ (Json.ListSlice l, c) ∈ v2 →
                handler
                = (st2, fallback "Unexpected error: unhashable type: 'list'"))
             ∧ ∀ d1 d2, v1 = unhashed d1 → v2 = unhashed d2 →
               let df := comparison_frame t1 t2 d1 d2 in
               (∀ err,
                  px_line df "Date" [label t1; label t2] = inl err →
                  (exn_cls err = ValueError →
                   handler = (st2, fallback ("Error: " +:+ exn_str err)))
                  ∧ (exn_cls err ≠ ValueError →
                     handler
                     = (st2, fallback ("Unexpected error: " +:+ exn_str err))))
               ∧ ∀ fig,
                   px_line df "Date" [label t1; label t2] = inr fig →
                   handler
                   = (st2, (df, Some (update_layout fig),
                            "Analysis completed successfully!"))).
Proof.
  intros handler. subst handler. unfold wrapped_process.
  rewrite process_inputs_unfold. split.
  { intros err Hd. rewrite Hd. by apply default_dates_raises in Hd as ->. }
  intros s e Hd. rewrite Hd. split.
  { intros Hbad.
    destruct (validate_date_cases s) as [Hs | ->]; [|done].
    destruct (validate_date_cases e) as [He | ->]; [|by rewrite Hs].
    destruct Hbad; congruence. }
  intros Hs He. rewrite Hs, He. split.
  { intros Hurl.
    destruct (extract_title url1) as [e1|t1] eqn:H1.
    - by apply extract_title_raises in H1 as ->.
    - destruct Hurl as [Hurl|Hurl].
      + rewrite (extract_title_rejects _ Hurl) in H1. discriminate H1.
      + by rewrite (extract_title_rejects _ Hurl). }
  intros t1 t2 H1 H2. rewrite H1, H2. split.
  { intros st1 err Hf. rewrite Hf.
    apply get_pageviews_raises_ValueError in Hf.
    unfold is_ValueError. by rewrite Hf. }
  intros st1 v1 Hf1. rewrite Hf1. split.
  { intros st2 err Hf. rewrite Hf.
    apply get_pageviews_raises_ValueError in Hf.
    unfold is_ValueError. by rewrite Hf. }
  intros st2 v2 Hf2. rewrite Hf2. split.
  { intros l c Hin.
    assert (build_frame t1 t2 v1 v2
            = inl (Raise TypeError "unhashable type: 'list'")) as ->; [|done].
    apply build_frame_raises. eauto. }
  intros d1 d2 -> ->. cbn zeta.
  rewrite build_frame_unhashed.
  split.
  - intros err ->. unfold is_ValueError. split.
    + by intros ->.
    + intros Hcls. by destruct (exn_cls err).
  - by intros fig ->.
Qed.

(** C8, as the code has it.  The dates are validated before the titles
    are extracted: when both date inputs are given and the validator
    rejects one of them, the handler reports the date error whatever the
    URLs are; the URL error is reported when the validator accepts both
    dates and a URL lacks the prefix.  No request is issued in either
    case. *)
Theorem date_error_reported_first now (url1 url2 : string) sd ed st :
  sd ≠ EmptyString → ed ≠ EmptyString →
  (validate_date sd ≠ inr sd ∨ validate_date ed ≠ inr ed →
   wrapped_process remote Figure px_line update_layout now url1 url2 sd ed st
   = (st, (Frame.empty, None, "Error: Date must be in YYYYMMDD format")))
  ∧ (validate_date sd = inr sd → validate_date ed = inr ed →
     PyStr.startswith url1 wiki_prefix = false
     ∨ PyStr.startswith url2 wiki_prefix = false →
     wrapped_process remote Figure px_line update_layout now url1 url2 sd ed
       st
     = (st, (Frame.empty, None, "Error: URL must be from en.wikipedia.org"))).
Proof.
  intros Hsd Hed. unfold wrapped_process.
  rewrite process_inputs_unfold. unfold default_dates.
  destruct sd as [|a sd]; [done|]. destruct ed as [|b ed]; [done|].
  cbn [PyStr.is_empty orb]. split.
  - intros Hbad.
    destruct (validate_date_cases (String a sd)) as [Hs | ->];
      [|reflexivity].
    destruct (validate_date_cases (String b ed)) as [He | ->];
      [|by rewrite Hs].
    destruct Hbad; congruence.
  - intros -> -> Hurl.
    destruct (extract_title url1) as [e1|t1] eqn:H1.
    + by apply extract_title_raises in H1 as ->.
    + destruct Hurl as [Hurl|Hurl].
      * rewrite (extract_title_rejects _ Hurl) in H1. discriminate H1.
      * by rewrite (extract_title_rejects _ Hurl).
Qed.

(** With a date input left empty the defaults pass the validator, so a
    URL without the prefix is what the handler reports. *)
Lemma url_error_with_default_dates now (url1 url2 : string) sd ed st :
  valid_ymd (year now) (month now) (day now) = true → 1001 ≤ year now →
  sd = EmptyString ∨ ed = EmptyString →
  PyStr.startswith url1 wiki_prefix = false
  ∨ PyStr.startswith url2 wiki_prefix = false →
  wrapped_process remote Figure px_line update_layout now url1 url2 sd ed st
  = (st, (Frame.empty, None, "Error: URL must be from en.wikipedia.org")).
Proof.
  intros Hv Hy Hempty Hurl.
  destruct (default_dates_empty now sd ed Hv Hy Hempty)
    as (start & Hd & _ & Hs & He).
  unfold wrapped_process. rewrite process_inputs_unfold, Hd.
  rewrite (validate_date_accepts _ Hs), (validate_date_accepts _ He).
  destruct (extract_title url1) as [e1|t1] eqn:H1.
  - apply extract_title_raises in H1 as ->. reflexivity.
  - destruct Hurl as [Hurl|Hurl].
    + rewrite (extract_title_rejects _ Hurl) in H1. discriminate H1.
    + rewrite (extract_title_rejects _ Hurl). reflexivity.
Qed.

(** C2, as the code has it.  The defaults (today minus 30 days, today)
    replace both inputs as soon as one of them is empty; two non-empty
    inputs are kept.  The dates so chosen are the ones that are
    validated and under which both series are fetched.  For a valid
    current date from year 1001 on, the defaults are eight-digit
    [YYYYMMDD] strings exactly 30 days apart. *)
Theorem default_dates_substitution now sd ed :
  (sd = EmptyString ∨ ed = EmptyString →
     default_dates now sd ed
     = match sub_days now 30 with
       | inl e => inl e
       | inr start => inr (strftime_Ymd start, strftime_Ymd now)
       end)
  ∧ (sd ≠ EmptyString → ed ≠ EmptyString →
     default_dates now sd ed = inr (sd, ed))
  ∧ (∀ (url1 url2 : string) st st1 out,
       process_inputs remote Figure px_line update_layout now url1 url2 sd
         ed st = (st1, inr out) →
       ∃ s e t1 t2,
         default_dates now sd ed = inr (s, e)
         ∧ validate_date s = inr s ∧ validate_date e = inr e
         ∧ extract_title url1 = inr t1 ∧ extract_title url2 = inr t2
         ∧ is_Some (cache st1 !! (t1, s, e))
         ∧ is_Some (cache st1 !! (t2, s, e)))
  ∧ (valid_ymd (year now) (month now) (day now) = true → 1001 ≤ year now →
     sd = EmptyString ∨ ed = EmptyString →
     ∃ start,
       default_dates now sd ed = inr (strftime_Ymd start, strftime_Ymd now)
       ∧ toordinal now - toordinal start = 30
       ∧ is_YYYYMMDD (strftime_Ymd start) = true
       ∧ is_YYYYMMDD (strftime_Ymd now) = true).
Proof.
  split_and!; [| | |apply default_dates_empty].
  - unfold default_dates. intros [-> | ->]; [done|].
    by destruct sd.
  - unfold default_dates. by destruct sd, ed.
  - intros url1 url2 st st1 [[df fig] msg] H.
    apply process_inputs_table in H
      as (s & e & t1 & t2 & v1 & v2 & ? & ? & ? & ? & ? & ? & ? & _).
    exists s, e, t1, t2. split_and!; eauto.
Qed.

Lemma raise_for_status_error (code : Z) (reason u : string) :
  error_status code = true →
  ∃ msg, Http.raise_for_status code reason u = Some msg.
Proof.
  unfold error_status, Http.raise_for_status. intros H.
  repeat case_match; eauto. lia.
Qed.

Lemma raise_for_status_ok (code : Z) (reason u : string) :
  error_status code = false → Http.raise_for_status code reason u = None.
Proof.
  unfold error_status, Http.raise_for_status. intros H.
  repeat case_match; eauto; lia.
Qed.

(** What a call that is not answered from the cache does, by the
    outcome of its request. *)
Lemma get_pageviews_miss_cases st (title s e : string) :
  cache st !! (title, s, e) = None →
  let url := api_url title s e in
  let st1 := State (cache st) (requests st ++ [url]) in
  let fails cause :=
    get_pageviews remote title s e st
    = (st1, inl (Raise ValueError ("Error fetching pageviews: " +:+ cause))) in
  match remote (requests st) url with
  | Http.RequestFailed cause => fails cause
  | Http.Response code reason u content =>
      match Http.raise_for_status code reason u with
      | Some msg =>
          get_pageviews remote title s e st
          = (st1, inl (Raise ValueError ("API error: " +:+ msg)))
      | None =>
          match content with
          | Http.NotJson cause => fails cause
          | Http.Json v =>
              match daily_views v with
              | inl cause => fails (exn_str cause)
              | inr views =>
                  get_pageviews remote title s e st
                  = (State (<[(title, s, e) := views]> (cache st))
                       (requests st ++ [url]), inr views)
              end
          end
      end
  end.
Proof.
  intros Hmiss. unfold get_pageviews, functools_cache. rewrite Hmiss.
  unfold get_pageviews_body, requests_get. cbn zeta.
  repeat case_match; simplify_eq/=; eauto;
    match goal with
    | H : daily_views _ = inl _ |- _ =>
        apply daily_views_not_HTTPError in H; congruence
    end.
Qed.

(** A call either is answered from the cache and leaves the state
    alone, or issues one request; in the latter case an error status
    makes it raise the "API error" [ValueError]. *)
Lemma get_pageviews_last_request st st1 (t s e : string) (r : result series) :
  get_pageviews remote t s e st = (st1, r) →
  (st1 = st ∧ ∃ views, r = inr views)
  ∨ (requests st1 = requests st ++ [api_url t s e]
     ∧ ∀ code reason u content,
         remote (requests st) (api_url t s e)
           = Http.Response code reason u content →
         error_status code = true →
         ∃ msg, r = inl (Raise ValueError ("API error: " +:+ msg))).
Proof.
  intros H. destruct (cache st !! (t, s, e)) as [views|] eqn:Hc.
  - rewrite (get_pageviews_hit _ _ _ _ _ _ Hc) in H. simplify_eq. eauto.
  - right. split; [by eapply get_pageviews_miss|].
    intros code reason u content Ho Hst.
    pose proof (get_pageviews_miss_cases st t s e Hc) as Hm.
    cbn zeta in Hm. rewrite Ho in Hm.
    destruct (raise_for_status_error code reason u Hst) as [msg Hmsg].
    rewrite Hmsg, H in Hm. simplify_eq. eauto.
Qed.

(** C7, as the code has it.  A call of [get_pageviews] that is not
    answered from the cache raises exactly when its request fails
    outright, the response has a status from 400 to 599, the body is
    not JSON, or the JSON value is not [readable]: a body of the
    expected shape is read, and so are some that are not of that shape.
    What it raises is a [ValueError] whose message wraps the cause:
    "API error: " and the message of the HTTP error for an error
    status, "Error fetching pageviews: " and the message of the cause
    otherwise.  When the last request of a submission was answered with
    an error status, the handler returns the empty table, no chart and
    a status that starts with "Error: API error:". *)
Theorem get_pageviews_errors :
  (∀ st (title s e : string),
     cache st !! (title, s, e) = None →
     let o := remote (requests st) (api_url title s e) in
     let r := (get_pageviews remote title s e st).2 in
     ((∃ err, r = inl err) ↔ fetch_fails o)
     ∧ (∀ code reason u v records,
          o = Http.Response code reason u (Http.Json v) →
          error_status code = false →
          expected_shape v records →
          r = inr (unhashed (series_of records)))
     ∧ ∀ err, r = inl err →
         exn_cls err = ValueError
         ∧ ((∃ code reason u content msg,
               o = Http.Response code reason u content
               ∧ error_status code = true
               ∧ Http.raise_for_status code reason u = Some msg
               ∧ exn_str err = "API error: " +:+ msg)
            ∨ (∃ cause,
                 exn_str err = "Error fetching pageviews: " +:+ cause
                 ∧ (o = Http.RequestFailed cause
                    ∨ ∃ code reason u,
                        error_status code = false
                        ∧ (o = Http.Response code reason u
                                 (Http.NotJson cause)
                           ∨ ∃ v e',
                               o = Http.Response code reason u (Http.Json v)
                               ∧ daily_views v = inl e'
                               ∧ cause = exn_str e')))))
  ∧ (∀ now (url1 url2 : string) sd ed st st1 df fig status log u
       code reason ru content,
       wrapped_process remote Figure px_line update_layout now url1 url2 sd
         ed st = (st1, (df, fig, status)) →
       requests st1 = log ++ [u] →
       (length (requests st) ≤ length log)%nat →
       remote log u = Http.Response code reason ru content →
       error_status code = true →
       df = Frame.empty ∧ fig = None
       ∧ PyStr.startswith status "Error: API error:" = true).
Proof.
  split.
  - intros st title s e Hmiss o r.
    pose proof (get_pageviews_miss_cases st title s e Hmiss) as Hc.
    cbn zeta in Hc. subst r. fold o in Hc.
    destruct o as [cause|code reason u content].
    + rewrite Hc. cbn. split_and!; [by split; eauto|done|].
      intros err [= <-]. split; [done|]. right. exists cause. eauto.
    + destruct (error_status code) eqn:Hst.
      * destruct (raise_for_status_error code reason u Hst) as [msg Hmsg].
        rewrite Hmsg in Hc. rewrite Hc. cbn. rewrite Hst.
        split_and!; [by split; eauto| |].
        { intros ? ? ? ? ? [= -> -> -> ->] ?. congruence. }
        intros err [= <-]. split; [done|]. left.
        by exists code, reason, u, content, msg.
      * rewrite (raise_for_status_ok code reason u Hst) in Hc.
        destruct content as [cause|v].
        -- rewrite Hc. cbn. rewrite Hst.
           split_and!; [by split; eauto|done|].
           intros err [= <-]. split; [done|]. right. exists cause.
           split; [done|]. right. exists code, reason, u. eauto.
        -- destruct (daily_views v) as [e'|views] eqn:Hv.
           ++ rewrite Hc. cbn. rewrite Hst. split_and!.
              ** split; [|by eauto]. intros _. right.
                 intros [views Hviews]%daily_views_readable. congruence.
              ** intros ? ? ? ? records [= -> -> -> ->] _ Hshape.
                 rewrite (daily_views_expected _ _ Hshape) in Hv. done.
              ** intros err [= <-]. split; [done|]. right.
                 exists (exn_str e'). split; [done|]. right.
                 exists code, reason, u. split; [done|]. right. eauto.
           ++ rewrite Hc. cbn. rewrite Hst. split_and!.
              ** split; [by intros [? ?]|].
                 intros [?|Hno]; [done|]. destruct Hno.
                 apply daily_views_readable. eauto.
              ** intros ? ? ? ? records [= -> -> -> ->] _ Hshape.
                 rewrite (daily_views_expected _ _ Hshape) in Hv. congruence.
              ** done.
  - intros now url1 url2 sd ed st st1 df fig status log u code reason ru
      content Hw Hlog Hlen Ho Hst.
    assert (requests st ≠ log ++ [u]) as Hlater.
    { intros Heq. rewrite Heq, length_app in Hlen. cbn in Hlen. lia. }
    unfold wrapped_process in Hw. rewrite process_inputs_unfold in Hw.
    destruct (default_dates now sd ed) as [?|[s e]]; [early Hw|].
    destruct (validate_date s) as [?|s']; [early Hw|].
    destruct (validate_date e) as [?|e']; [early Hw|].
    destruct (extract_title url1) as [?|t1]; [early Hw|].
    destruct (extract_title url2) as [?|t2]; [early Hw|].
    destruct (get_pageviews remote t1 s' e' st) as [st0 r1] eqn:H1.
    apply get_pageviews_last_request in H1 as [[-> [v1 ->]]|[Hr1 Herr1]].
    + destruct (get_pageviews remote t2 s' e' st) as [st2 r2] eqn:H2.
      apply get_pageviews_last_request in H2 as [[-> [v2 ->]]|[Hr2 Herr2]].
      * early Hw.
      * assert (st1 = st2) as -> by (cbn zeta in Hw; repeat case_match; by simplify_eq).
        rewrite Hlog in Hr2. apply app_inj_tail in Hr2 as [-> ->].
        destruct (Herr2 _ _ _ _ Ho Hst) as [msg ->].
        cbn in Hw. by simplify_eq.
    + destruct r1 as [err|v1].
      * assert (st1 = st0) as -> by (cbn zeta in Hw; repeat case_match; by simplify_eq).
        rewrite Hlog in Hr1. apply app_inj_tail in Hr1 as [-> ->].
        destruct (Herr1 _ _ _ _ Ho Hst) as [msg [= ->]].
        cbn in Hw. by simplify_eq.
      * destruct (get_pageviews remote t2 s' e' st0) as [st2 r2] eqn:H2.
        assert (st1 = st2) as -> by (cbn zeta in Hw; repeat case_match; by simplify_eq).
        apply get_pageviews_last_request in H2
          as [[-> [v2 ->]]|[Hr2 Herr2]].
        -- rewrite Hlog in Hr1. apply app_inj_tail in Hr1 as [-> ->].
           by destruct (Herr1 _ _ _ _ Ho Hst) as [msg ?].
        -- rewrite Hlog in Hr2. apply app_inj_tail in Hr2 as [-> ->].
           destruct (Herr2 _ _ _ _ Ho Hst) as [msg ->].
           cbn in Hw. by simplify_eq.
Qed.

End Handler.

(** * The properties on the test doubles *)

Example demo_submission :
  (Demo.wrapped Demo.python_url Demo.java_url "20240101" "20240103"
     initial_state).2
  = (demo_table, Some ["Python Views"; "Java Views"],
     "Analysis completed successfully!").
Proof. vm_compute. reflexivity. Qed.

Example demo_submission_same_article :
  (Demo.wrapped Demo.python_url Demo.python_url "20240101" "20240103"
     initial_state).2
  = ([("Date", Dates ["20240101"; "20240102"]);
      ("Python Views", Counts [Json.Int 10; Json.Int 20])],
     Some ["Python Views"; "Python Views"],
     "Analysis completed successfully!").
Proof. vm_compute. reflexivity. Qed.

Example demo_submission_bad_url :
  (Demo.wrapped "https://de.wikipedia.org/wiki/Python" Demo.java_url
     "20240101" "20240103" initial_state).2
  = (Frame.empty, None, "Error: URL must be from en.wikipedia.org").
Proof. vm_compute. reflexivity. Qed.

Example demo_submission_bad_date :
  (Demo.wrapped Demo.python_url Demo.java_url "2024-01-01" "20240103"
     initial_state).2
  = (Frame.empty, None, "Error: Date must be in YYYYMMDD format").
Proof. vm_compute. reflexivity. Qed.

Example demo_submission_http_error :
  (Demo.wrapped Demo.python_url Demo.missing_url "20240101" "20240103"
     initial_state).2
  = (Frame.empty, None,
     "Error: API error: 404 Client Error: Not Found for url: "
     +:+ api_url "Missing" "20240101" "20240103").
Proof. vm_compute. reflexivity. Qed.

Example demo_submission_overflow :
  (wrapped_process Demo.quiet Demo.Figure Demo.px_line Demo.update_layout
     (Datetime 1 1 20) Demo.python_url Demo.java_url EmptyString EmptyString
     initial_state).2
  = (Frame.empty, None, "Unexpected error: date value out of range").
Proof. vm_compute. reflexivity. Qed.

Lemma process_inputs_merged_table_witness :
  ∃ s e t1 t2 v1 v2,
    extract_title Demo.python_url = inr t1
    ∧ extract_title Demo.java_url = inr t2
    ∧ cache (Demo.process Demo.python_url Demo.java_url "20240101"
               "20240103" initial_state).1 !! (t1, s, e)
      = Some (unhashed v1)
    ∧ cache (Demo.process Demo.python_url Demo.java_url "20240101"
               "20240103" initial_state).1 !! (t2, s, e)
      = Some (unhashed v2)
    ∧ merged_table demo_table (label t1) (label t2) (dict v1) (dict v2)
    ∧ (v1 = [] → v2 = [] → nrows demo_table = O).
Proof.
  apply (process_inputs_merged_table Demo.remote Demo.Figure Demo.px_line
           Demo.update_layout Demo.today Demo.python_url Demo.java_url
           "20240101" "20240103" initial_state _ demo_table
           ["Python Views"; "Java Views"] "Analysis completed successfully!").
  vm_compute. reflexivity.
Defined.

Lemma process_inputs_duplicate_dates_witness :
  ∃ s e t1 t2 v1 v2,
    extract_title Demo.python_url = inr t1
    ∧ extract_title Demo.java_url = inr t2
    ∧ cache (Demo.process Demo.python_url Demo.java_url "20240101"
               "20240103" initial_state).1 !! (t1, s, e)
      = Some (unhashed v1)
    ∧ cache (Demo.process Demo.python_url Demo.java_url "20240101"
               "20240103" initial_state).1 !! (t2, s, e)
      = Some (unhashed v2)
    ∧ ∀ d c before after,
        d ∉ after.*1 →
        (v1 = before ++ (d, c) :: after ∨ v2 = before ++ (d, c) :: after) →
        ∃ i x y,
          row demo_table (label t1) (label t2) i = Some (d, x, y)
          ∧ (v1 = before ++ (d, c) :: after → x = c)
          ∧ (v2 = before ++ (d, c) :: after → y = c)
          ∧ ∀ j x' y',
              row demo_table (label t1) (label t2) j = Some (d, x', y') →
              j = i.
Proof.
  apply (process_inputs_duplicate_dates Demo.remote Demo.Figure Demo.px_line
           Demo.update_layout Demo.today Demo.python_url Demo.java_url
           "20240101" "20240103" initial_state _ demo_table
           ["Python Views"; "Java Views"] "Analysis completed successfully!").
  vm_compute. reflexivity.
Defined.

Lemma get_pageviews_idempotent_witness :
  let st1 :=
    (get_pageviews Demo.remote "Python" "20240101" "20240103"
       initial_state).1 in
  let st2 :=
    (get_pageviews Demo.remote "Java" "20240101" "20240103" st1).1 in
  get_pageviews Demo.remote "Python" "20240101" "20240103" st2
  = (st2, inr (unhashed [("20240101", Json.Int 10);
                          ("20240102", Json.Int 20)])).
Proof.
  intros st1 st2.
  apply (get_pageviews_idempotent Demo.remote initial_state st1 st2).
  - vm_compute. reflexivity.
  - apply (reaches_call Demo.remote _ st1 st2 st2 "Java" "20240101" "20240103"
             (get_pageviews Demo.remote "Java" "20240101" "20240103" st1).2).
    + exact I.
    + apply surjective_pairing.
    + apply reaches_refl.
Defined.

Lemma get_pageviews_failure_not_cached_witness :
  let st1 :=
    (get_pageviews Demo.remote "Missing" "20240101" "20240103"
       initial_state).1 in
  cache st1 = cache initial_state
  ∧ cache st1 !! ("Missing", "20240101", "20240103") = None
  ∧ requests st1
    = requests initial_state ++ [api_url "Missing" "20240101" "20240103"]
  ∧ ∀ st2 st3 (r : result series),
      reaches Demo.remote (λ k, k ≠ ("Missing", "20240101", "20240103"))
        st1 st2 →
      get_pageviews Demo.remote "Missing" "20240101" "20240103" st2
        = (st3, r) →
      requests st3 = requests st2 ++ [api_url "Missing" "20240101" "20240103"].
Proof.
  intros st1.
  apply (get_pageviews_failure_not_cached Demo.remote initial_state st1
           "Missing" "20240101" "20240103"
           (Raise ValueError
              ("API error: 404 Client Error: Not Found for url: "
               +:+ api_url "Missing" "20240101" "20240103"))).
  vm_compute. reflexivity.
Defined.

Lemma date_error_reported_first_witness :
  Demo.wrapped "http://example.org/Python" Demo.java_url "2024-01-01"
    "20240103" initial_state
  = (initial_state,
     (Frame.empty, None, "Error: Date must be in YYYYMMDD format"))
  ∧ Demo.wrapped "http://example.org/Python" Demo.java_url "2024111"
      "20240103" initial_state
    = (initial_state,
       (Frame.empty, None, "Error: URL must be from en.wikipedia.org")).
Proof.
  split.
  - apply (date_error_reported_first Demo.remote Demo.Figure Demo.px_line
             Demo.update_layout Demo.today "http://example.org/Python"
             Demo.java_url "2024-01-01" "20240103" initial_state).
    + discriminate.
    + discriminate.
    + left. vm_compute. discriminate.
  - apply (date_error_reported_first Demo.remote Demo.Figure Demo.px_line
             Demo.update_layout Demo.today "http://example.org/Python"
             Demo.java_url "2024111" "20240103" initial_state).
    + discriminate.
    + discriminate.
    + vm_compute. reflexivity.
    + vm_compute. reflexivity.
    + left. reflexivity.
Defined.

Lemma default_dates_substitution_witness :
  default_dates Demo.today "20240101" EmptyString
  = inr ("20240516", "20240615")
  ∧ default_dates Demo.today "20240101" "20240103"
    = inr ("20240101", "20240103")
  ∧ (∃ s e t1 t2,
      default_dates Demo.today "20240101" "20240103" = inr (s, e)
      ∧ validate_date s = inr s ∧ validate_date e = inr e
      ∧ extract_title Demo.python_url = inr t1
      ∧ extract_title Demo.java_url = inr t2
      ∧ is_Some (cache (Demo.process Demo.python_url Demo.java_url
                          "20240101" "20240103" initial_state).1
                 !! (t1, s, e))
      ∧ is_Some (cache (Demo.process Demo.python_url Demo.java_url
                          "20240101" "20240103" initial_state).1
                 !! (t2, s, e)))
  ∧ ∃ start,
      default_dates Demo.today "20240101" EmptyString
      = inr (strftime_Ymd start, strftime_Ymd Demo.today)
      ∧ toordinal Demo.today - toordinal start = 30
      ∧ is_YYYYMMDD (strftime_Ymd start) = true
      ∧ is_YYYYMMDD (strftime_Ymd Demo.today) = true.
Proof.
  split_and!; [| | |
    apply (default_dates_substitution Demo.remote Demo.Figure Demo.px_line
             Demo.update_layout Demo.today "20240101" EmptyString);
      [reflexivity|vm_compute; discriminate|by right]].
  - apply (default_dates_substitution Demo.remote Demo.Figure Demo.px_line
             Demo.update_layout Demo.today "20240101" EmptyString).
    by right.
  - apply (default_dates_substitution Demo.remote Demo.Figure Demo.px_line
             Demo.update_layout Demo.today "20240101" "20240103");
      discriminate.
  - apply (default_dates_substitution Demo.remote Demo.Figure Demo.px_line
             Demo.update_layout Demo.today "20240101" "20240103")
      with (st := initial_state)
           (out := (demo_table, ["Python Views"; "Java Views"],
                    "Analysis completed successfully!")).
    vm_compute. reflexivity.
Defined.

Lemma get_pageviews_errors_witness :
  let out :=
    Demo.wrapped Demo.python_url Demo.missing_url "20240101"
      "20240103" initial_state in
  ((∃ err,
      (get_pageviews Demo.remote "Missing" "20240101" "20240103"
         initial_state).2 = inl err)
   ↔ fetch_fails
       (Demo.remote (requests initial_state)
          (api_url "Missing" "20240101" "20240103")))
  ∧ (get_pageviews Demo.remote "Java" "20240101" "20240103"
       initial_state).2
    = inr (unhashed (series_of [("2024010200", 7); ("2024010300", 8);
                                ("2024010312", 9)]))
  ∧ out.2.1.1 = Frame.empty ∧ out.2.1.2 = None
  ∧ PyStr.startswith out.2.2 "Error: API error:" = true.
Proof.
  intros out.
  destruct (get_pageviews_errors Demo.remote Demo.Figure Demo.px_line
              Demo.update_layout) as [Hfetch Hhandler].
  split_and!.
  - apply (Hfetch initial_state "Missing" "20240101" "20240103").
    reflexivity.
  - apply (Hfetch initial_state "Java" "20240101" "20240103" eq_refl)
      with (code := 200) (reason := "OK")
           (u := api_url "Java" "20240101" "20240103")
           (v := items_body [("2024010200", 7); ("2024010300", 8);
                             ("2024010312", 9)]).
    + vm_compute. reflexivity.
    + reflexivity.
    + apply expected_shape_items_body.
  - apply (Hhandler Demo.today Demo.python_url Demo.missing_url "20240101"
             "20240103" initial_state out.1 out.2.1.1 out.2.1.2 out.2.2
             [api_url "Python" "20240101" "20240103"]
             (api_url "Missing" "20240101" "20240103")
             404 "Not Found" (api_url "Missing" "20240101" "20240103")
             (Http.Json (Json.Object [("title", Json.Str "Not found.")]))).
    + vm_compute. reflexivity.
    + vm_compute. reflexivity.
    + cbn. lia.
    + vm_compute. reflexivity.
    + reflexivity.
  - apply (Hhandler Demo.today Demo.python_url Demo.missing_url "20240101"
             "20240103" initial_state out.1 out.2.1.1 out.2.1.2 out.2.2
             [api_url "Python" "20240101" "20240103"]
             (api_url "Missing" "20240101" "20240103")
             404 "Not Found" (api_url "Missing" "20240101" "20240103")
             (Http.Json (Json.Object [("title", Json.Str "Not found.")]))).
    + vm_compute. reflexivity.
    + vm_compute. reflexivity.
    + cbn. lia.
    + vm_compute. reflexivity.
    + reflexivity.
  - apply (Hhandler Demo.today Demo.python_url Demo.missing_url "20240101"
             "20240103" initial_state out.1 out.2.1.1 out.2.1.2 out.2.2
             [api_url "Python" "20240101" "20240103"]
             (api_url "Missing" "20240101" "20240103")
             404 "Not Found" (api_url "Missing" "20240101" "20240103")
             (Http.Json (Json.Object [("title", Json.Str "Not found.")]))).
    + vm_compute. reflexivity.
    + vm_compute. reflexivity.
    + cbn. lia.
    + vm_compute. reflexivity.
    + reflexivity.
Defined.

Lemma wrapped_process_outcomes_witness :
  (wrapped_process Demo.quiet Demo.Figure Demo.px_line Demo.update_layout
     (Datetime 1 1 20) Demo.python_url Demo.java_url EmptyString EmptyString
     initial_state).2
  = fallback "Unexpected error: date value out of range"
  ∧ (Demo.wrapped Demo.python_url Demo.java_url "2024-01-01" "20240103"
       initial_state).2
    = fallback "Error: Date must be in YYYYMMDD format"
  ∧ (Demo.wrapped Demo.python_url "https://de.wikipedia.org/wiki/Java"
       "20240101" "20240103" initial_state).2
    = fallback "Error: URL must be from en.wikipedia.org"
  ∧ (Demo.wrapped Demo.missing_url Demo.java_url "20240101" "20240103"
       initial_state).2
    = fallback
        ("Error: API error: 404 Client Error: Not Found for url: "
         +:+ api_url "Missing" "20240101" "20240103")
  ∧ (Demo.wrapped Demo.python_url Demo.missing_url "20240101" "20240103"
       initial_state).2
    = fallback
        ("Error: API error: 404 Client Error: Not Found for url: "
         +:+ api_url "Missing" "20240101" "20240103")
  ∧ (wrapped_process Demo.irregular Demo.Figure Demo.px_line
       Demo.update_layout Demo.today Demo.python_url Demo.lua_url
       "20240101" "20240103" initial_state).2
    = fallback "Unexpected error: unhashable type: 'list'"
  ∧ (wrapped_process Demo.remote Demo.Figure Demo.px_line_rejects
       Demo.update_layout Demo.today Demo.python_url Demo.java_url
       "20240101" "20240103" initial_state).2
    = fallback "Error: All arguments must be columns"
  ∧ (wrapped_process Demo.remote Demo.Figure Demo.px_line_breaks
       Demo.update_layout Demo.today Demo.python_url Demo.java_url
       "20240101" "20240103" initial_state).2
    = fallback "Unexpected error: renderer not available"
  ∧ (Demo.wrapped Demo.python_url Demo.java_url "20240101" "20240103"
       initial_state).2
    = (demo_table, Some ["Python Views"; "Java Views"],
       "Analysis completed successfully!").
Proof.
  set (python := [("20240101", Json.Int 10); ("20240102", Json.Int 20)]).
  set (java := [("20240102", Json.Int 7); ("20240103", Json.Int 8);
                ("20240103", Json.Int 9)]).
  split_and!.
  - destruct (wrapped_process_outcomes Demo.quiet Demo.Figure Demo.px_line
                Demo.update_layout (Datetime 1 1 20) Demo.python_url
                Demo.java_url EmptyString EmptyString initial_state)
      as [H _].
    exact (f_equal snd
             (H (Raise OverflowError "date value out of range") eq_refl)).
  - destruct (wrapped_process_outcomes Demo.remote Demo.Figure Demo.px_line
                Demo.update_layout Demo.today Demo.python_url Demo.java_url
                "2024-01-01" "20240103" initial_state) as [_ H].
    destruct (H "2024-01-01" "20240103" eq_refl) as [H1 _].
    refine (f_equal snd (H1 _)). left. vm_compute. discriminate.
  - destruct (wrapped_process_outcomes Demo.remote Demo.Figure Demo.px_line
                Demo.update_layout Demo.today Demo.python_url
                "https://de.wikipedia.org/wiki/Java" "20240101" "20240103"
                initial_state) as [_ H].
    destruct (H "20240101" "20240103" eq_refl) as [_ H1].
    destruct H1 as [H2 _]; [vm_compute; reflexivity..|].
    refine (f_equal snd (H2 _)). right. reflexivity.
  - destruct (wrapped_process_outcomes Demo.remote Demo.Figure Demo.px_line
                Demo.update_layout Demo.today Demo.missing_url Demo.java_url
                "20240101" "20240103" initial_state) as [_ H].
    destruct (H "20240101" "20240103" eq_refl) as [_ H1].
    destruct H1 as [_ H2]; [vm_compute; reflexivity..|].
    destruct (H2 "Missing" "Java") as [H3 _]; [vm_compute; reflexivity..|].
    refine (f_equal snd
              (H3 _ (Raise ValueError
                       ("API error: 404 Client Error: Not Found for url: "
                        +:+ api_url "Missing" "20240101" "20240103")) _)).
    vm_compute. reflexivity.
  - destruct (wrapped_process_outcomes Demo.remote Demo.Figure Demo.px_line
                Demo.update_layout Demo.today Demo.python_url
                Demo.missing_url "20240101" "20240103" initial_state)
      as [_ H].
    destruct (H "20240101" "20240103" eq_refl) as [_ H1].
    destruct H1 as [_ H2]; [vm_compute; reflexivity..|].
    destruct (H2 "Python" "Missing") as [_ H3]; [vm_compute; reflexivity..|].
    destruct (H3 (get_pageviews Demo.remote "Python" "20240101" "20240103"
                    initial_state).1 (unhashed python)) as [H4 _];
      [vm_compute; reflexivity|].
    refine (f_equal snd
              (H4 _ (Raise ValueError
                       ("API error: 404 Client Error: Not Found for url: "
                        +:+ api_url "Missing" "20240101" "20240103")) _)).
    vm_compute. reflexivity.
  - destruct (wrapped_process_outcomes Demo.irregular Demo.Figure
                Demo.px_line Demo.update_layout Demo.today Demo.python_url
                Demo.lua_url "20240101" "20240103" initial_state) as [_ H].
    destruct (H "20240101" "20240103" eq_refl) as [_ H1].
    destruct H1 as [_ H2]; [vm_compute; reflexivity..|].
    destruct (H2 "Python" "Lua") as [_ H3]; [vm_compute; reflexivity..|].
    destruct (H3 (get_pageviews Demo.irregular "Python" "20240101"
                    "20240103" initial_state).1 []) as [_ H4];
      [vm_compute; reflexivity|].
    destruct (H4 (wrapped_process Demo.irregular Demo.Figure Demo.px_line
                    Demo.update_layout Demo.today Demo.python_url
                    Demo.lua_url "20240101" "20240103" initial_state).1
                [(Json.ListSlice [Json.Int 2024; Json.Int 1; Json.Int 1],
                  Json.Null)]) as [H5 _];
      [vm_compute; reflexivity|].
    refine (f_equal snd
              (H5 [Json.Int 2024; Json.Int 1; Json.Int 1] Json.Null _)).
    right. apply list_elem_of_here.
  - destruct (wrapped_process_outcomes Demo.remote Demo.Figure
                Demo.px_line_rejects Demo.update_layout Demo.today
                Demo.python_url Demo.java_url "20240101" "20240103"
                initial_state) as [_ H].
    destruct (H "20240101" "20240103" eq_refl) as [_ H1].
    destruct H1 as [_ H2]; [vm_compute; reflexivity..|].
    destruct (H2 "Python" "Java") as [_ H3]; [vm_compute; reflexivity..|].
    destruct (H3 (get_pageviews Demo.remote "Python" "20240101" "20240103"
                    initial_state).1 (unhashed python)) as [_ H4];
      [vm_compute; reflexivity|].
    destruct (H4 (Demo.process Demo.python_url Demo.java_url "20240101"
                    "20240103" initial_state).1 (unhashed java)) as [_ H5];
      [vm_compute; reflexivity|].
    destruct (H5 python java eq_refl eq_refl) as [H6 _].
    destruct (H6 (Raise ValueError "All arguments must be columns") eq_refl)
      as [H7 _].
    exact (f_equal snd (H7 eq_refl)).
  - destruct (wrapped_process_outcomes Demo.remote Demo.Figure
                Demo.px_line_breaks Demo.update_layout Demo.today
                Demo.python_url Demo.java_url "20240101" "20240103"
                initial_state) as [_ H].
    destruct (H "20240101" "20240103" eq_refl) as [_ H1].
    destruct H1 as [_ H2]; [vm_compute; reflexivity..|].
    destruct (H2 "Python" "Java") as [_ H3]; [vm_compute; reflexivity..|].
    destruct (H3 (get_pageviews Demo.remote "Python" "20240101" "20240103"
                    initial_state).1 (unhashed python)) as [_ H4];
      [vm_compute; reflexivity|].
    destruct (H4 (Demo.process Demo.python_url Demo.java_url "20240101"
                    "20240103" initial_state).1 (unhashed java)) as [_ H5];
      [vm_compute; reflexivity|].
    destruct (H5 python java eq_refl eq_refl) as [H6 _].
    destruct (H6 (Raise OtherError "renderer not available") eq_refl)
      as [_ H7].
    refine (f_equal snd (H7 _)). discriminate.
  - destruct (wrapped_process_outcomes Demo.remote Demo.Figure Demo.px_line
                Demo.update_layout Demo.today Demo.python_url Demo.java_url
                "20240101" "20240103" initial_state) as [_ H].
    destruct (H "20240101" "20240103" eq_refl) as [_ H1].
    destruct H1 as [_ H2]; [vm_compute; reflexivity..|].
    destruct (H2 "Python" "Java") as [_ H3]; [vm_compute; reflexivity..|].
    destruct (H3 (get_pageviews Demo.remote "Python" "20240101" "20240103"
                    initial_state).1 (unhashed python)) as [_ H4];
      [vm_compute; reflexivity|].
    destruct (H4 (Demo.process Demo.python_url Demo.java_url "20240101"
                    "20240103" initial_state).1 (unhashed java)) as [_ H5];
      [vm_compute; reflexivity|].
    destruct (H5 python java eq_refl eq_refl) as [_ H6].
    exact (f_equal snd (H6 ["Python Views"; "Java Views"] eq_refl)).
Defined.

(** * Where the code departs from the specification *)

(** C2 as stated fails: with a start date given and the end date left
    empty, not both inputs are empty, yet the defaults are substituted and
    the given start date is discarded; the requests carry the default
    range. *)
Lemma default_dates_discard_supplied_start :
  PyStr.is_empty "20240101" = false
  ∧ default_dates Demo.today "20240101" EmptyString
    = inr ("20240516", "20240615")
  ∧ requests
      (wrapped_process Demo.quiet Demo.Figure Demo.px_line Demo.update_layout
         Demo.today Demo.python_url Demo.java_url "20240101" EmptyString
         initial_state).1
    = [api_url "Python" "20240516" "20240615";
       api_url "Java" "20240516" "20240615"].
Proof. split_and!; vm_compute; reflexivity. Qed.

(** C5 as stated fails: a [ValueError] raised by the chart library is
    neither an invalid input nor a fetch error, and the handler reports
    it as "Error: ...", not as "Unexpected error: ...". *)
Lemma chart_ValueError_reported_as_error :
  validate_date "20240101" = inr "20240101"
  ∧ validate_date "20240103" = inr "20240103"
  ∧ extract_title Demo.python_url = inr "Python"
  ∧ extract_title Demo.java_url = inr "Java"
  ∧ (∃ st1 views,
       get_pageviews Demo.remote "Python" "20240101" "20240103"
         initial_state = (st1, inr views)
       ∧ ∃ st2 views',
           get_pageviews Demo.remote "Java" "20240101" "20240103" st1
           = (st2, inr views'))
  ∧ Demo.px_line_rejects demo_table "Date" ["Python Views"; "Java Views"]
    = inl (Raise ValueError "All arguments must be columns")
  ∧ (wrapped_process Demo.remote Demo.Figure Demo.px_line_rejects
       Demo.update_layout Demo.today Demo.python_url Demo.java_url
       "20240101" "20240103" initial_state).2
    = (Frame.empty, None, "Error: All arguments must be columns")
  ∧ (wrapped_process Demo.remote Demo.Figure Demo.px_line_rejects
       Demo.update_layout Demo.today Demo.python_url Demo.java_url
       "20240101" "20240103" initial_state).2.2
    ≠ "Unexpected error: All arguments must be columns".
Proof.
  split_and!; [vm_compute; reflexivity..| | | |].
  - eexists _, _. split; [vm_compute; reflexivity|].
    eexists _, _. vm_compute. reflexivity.
  - reflexivity.
  - vm_compute. reflexivity.
  - vm_compute. discriminate.
Qed.

(** C7 as stated fails in both directions.  When the endpoint cannot be
    reached there is neither a status nor a body, and the fetch raises
    all the same.  A body whose member [items] is an empty object is
    not of the expected shape, and a status 300 is not a success
    status, yet neither makes the fetch raise. *)
Lemma fetch_failures_differ :
  (cache initial_state !! ("Python", "20240101", "20240103") = None
   ∧ get_pageviews Demo.down "Python" "20240101" "20240103" initial_state
     = (State ∅ [api_url "Python" "20240101" "20240103"],
        inl (Raise ValueError
               "Error fetching pageviews: Connection refused"))
   ∧ ¬ response_fails
         (Demo.down (requests initial_state)
            (api_url "Python" "20240101" "20240103")))
  ∧ (Demo.irregular (requests initial_state)
       (api_url "Python" "20240101" "20240103")
     = Http.Response 200 "OK" (api_url "Python" "20240101" "20240103")
         (Http.Json (Json.Object [("items", Json.Object [])]))
     ∧ (∀ records,
          ¬ expected_shape (Json.Object [("items", Json.Object [])])
              records)
     ∧ response_fails
         (Demo.irregular (requests initial_state)
            (api_url "Python" "20240101" "20240103"))
     ∧ (get_pageviews Demo.irregular "Python" "20240101" "20240103"
          initial_state).2 = inr [])
  ∧ (Demo.irregular (requests initial_state)
       (api_url "Java" "20240101" "20240103")
     = Http.Response 300 "Multiple Choices"
         (api_url "Java" "20240101" "20240103")
         (Http.Json (items_body [("2024010100", 5)]))
     ∧ success_status 300 = false
     ∧ response_fails
         (Demo.irregular (requests initial_state)
            (api_url "Java" "20240101" "20240103"))
     ∧ (get_pageviews Demo.irregular "Java" "20240101" "20240103"
          initial_state).2
       = inr [(Json.StrSlice "20240101", Json.Int 5)]).
Proof.
  assert (∀ records,
            ¬ expected_shape (Json.Object [("items", Json.Object [])])
                records) as Hshape.
  { intros records (members & items & [= <-] & Hitems & _).
    vm_compute in Hitems. discriminate Hitems. }
  split_and!; try (vm_compute; reflexivity); try done.
  - intros (code & reason & u & content & Hresp & _). discriminate Hresp.
  - eexists _, _, _, _. split; [vm_compute; reflexivity|].
    right. intros v records [= <-]. apply Hshape.
  - eexists _, _, _, _. split; [vm_compute; reflexivity|].
    left. reflexivity.
Qed.

(** C8 as stated fails: with a URL that lacks the prefix and a malformed
    start date, the reported error is the date error. *)
Lemma date_error_hides_url_error :
  extract_title "http://example.org/Python"
  = inl (Raise ValueError "URL must be from en.wikipedia.org")
  ∧ validate_date "2024-01-01"
    = inl (Raise ValueError "Date must be in YYYYMMDD format")
  ∧ (Demo.wrapped "http://example.org/Python" Demo.java_url
       "2024-01-01" "20240103" initial_state).2
    = (Frame.empty, None, "Error: Date must be in YYYYMMDD format")
  ∧ (Demo.wrapped "http://example.org/Python" Demo.java_url
       "2024-01-01" "20240103" initial_state).2.2
    ≠ "Error: URL must be from en.wikipedia.org".
Proof. split_and!; vm_compute; done. Qed.

(** * Further properties of the code *)

(** ** The title extractor, completely *)

Lemma app_snoc_inv (u v cur : string) (c : ascii) :
  u +:+ v = cur +:+ String c EmptyString → v ≠ EmptyString →
  ∃ v0, v = v0 +:+ String c EmptyString ∧ cur = u +:+ v0.
Proof.
  revert cur. induction u as [|a u IH]; intros cur H Hv.
  - exists cur. change (EmptyString +:+ v) with v in H. by subst v.
  - destruct cur as [|b cur].
    + rewrite app_cons in H. change (EmptyString +:+ ?s) with s in H.
      injection H as -> H. destruct u; [|discriminate H].
      change (EmptyString +:+ v) with v in H. by subst v.
    + rewrite !app_cons in H. injection H as -> H.
      destruct (IH cur H Hv) as (v0 & -> & ->). by exists v0.
Qed.

(** The first piece of a split: the text up to the end of the input or
    up to the first place where the separator starts. *)
Lemma split_aux_first (sep cur s piece : string) (pieces : list string) :
  PyStr.split_aux sep O cur s = piece :: pieces →
  ∃ a tail,
    piece = cur +:+ a ∧ s = a +:+ tail
    ∧ (tail = EmptyString ∨ PyStr.startswith tail sep = true).
Proof.
  revert cur. induction s as [|c s IH]; intros cur H; cbn in H.
  - injection H as <- _. exists EmptyString, EmptyString.
    by rewrite app_empty_r; auto.
  - destruct (PyStr.startswith (String c s) sep) eqn:Hp.
    + injection H as <- _. exists EmptyString, (String c s).
      by rewrite app_empty_r; auto.
    + destruct (IH _ H) as (a & tail & -> & -> & Htail).
      exists (String c a), tail. by rewrite app_assoc_str.
Qed.

(** No piece under construction can hide a separator: wherever the
    scan has passed without cutting, the separator does not start. *)
Lemma split_aux_first_no_occurrence (sep cur s piece : string)
    (pieces : list string) :
  sep ≠ EmptyString →
  (∀ u v, cur = u +:+ v → v ≠ EmptyString →
          PyStr.startswith (v +:+ s) sep = false) →
  PyStr.split_aux sep O cur s = piece :: pieces →
  ¬ occurs sep piece.
Proof.
  intros Hsep. revert cur.
  assert (∀ cur s',
            (∀ u v, cur = u +:+ v → v ≠ EmptyString →
                    PyStr.startswith (v +:+ s') sep = false) →
            ¬ occurs sep cur) as Hdone.
  { intros cur s' Hinv (u & w & ->).
    specialize (Hinv u (sep +:+ w) eq_refl).
    rewrite app_assoc_str, startswith_app in Hinv.
    destruct sep; [done|]. by discriminate Hinv. }
  induction s as [|c s IH]; intros cur Hinv H; cbn in H.
  - injection H as <- _. by eapply Hdone.
  - destruct (PyStr.startswith (String c s) sep) eqn:Hp.
    + injection H as <- _. by eapply Hdone.
    + apply (IH (cur +:+ String c EmptyString)); [|done].
      intros u v Huv Hv.
      destruct (app_snoc_inv u v cur c) as (v0 & -> & ->); [done..|].
      rewrite app_assoc_str. change (String c EmptyString +:+ s) with (String c s).
      destruct v0 as [|b v0]; [done|]. by apply (Hinv u).
Qed.

(** X1.  For a URL with the required prefix, [extract_title] returns the
    text that follows the prefix up to the end of the URL or up to the
    next [wiki/], whichever comes first; the title it returns never
    contains [wiki/]. *)
Theorem extract_title_cut (rest : string) :
  ∃ title tail,
    extract_title (wiki_prefix +:+ rest) = inr title
    ∧ rest = title +:+ tail
    ∧ (tail = EmptyString ∨ PyStr.startswith tail "wiki/" = true)
    ∧ ¬ occurs "wiki/" title.
Proof.
  destruct (extract_title_prefixed rest) as (title & pieces & Hs & Ht).
  unfold PyStr.split in Hs.
  destruct (split_aux_first _ _ _ _ _ Hs) as (a & tail & Ha & -> & Htail).
  change (EmptyString +:+ a) with a in Ha. subst a.
  exists title, tail. split_and!; [done..|].
  eapply split_aux_first_no_occurrence; [| |exact Hs]; [done|].
  intros u v Huv Hv. by destruct u, v.
Qed.

(** X2.  The IndexError of [url.split("wiki/")[1]] cannot happen: a URL
    with the prefix always yields a title, a URL without it always
    raises the [ValueError] with the fixed message. *)
Theorem extract_title_total (url : string) :
  if PyStr.startswith url wiki_prefix
  then ∃ title, extract_title url = inr title
  else extract_title url
       = inl (Raise ValueError "URL must be from en.wikipedia.org").
Proof.
  destruct (PyStr.startswith url wiki_prefix) eqn:Hp.
  - apply startswith_inv in Hp as [rest ->].
    destruct (extract_title_prefixed rest) as (title & _ & _ & Ht). eauto.
  - by apply extract_title_rejects.
Qed.

(** X3.  Prefixing and extracting are inverse for every title that does
    not contain [wiki/]. *)
Theorem extract_title_round_trip (title : string) :
  ¬ occurs "wiki/" title →
  extract_title ("https://en.wikipedia.org/wiki/" +:+ title) = inr title.
Proof. apply extract_title_whole. Qed.

Lemma extract_title_round_trip_witness :
  extract_title
    ("https://en.wikipedia.org/wiki/" +:+ "Python_(programming_language)")
  = inr "Python_(programming_language)".
Proof.
  apply (extract_title_round_trip "Python_(programming_language)").
  intros (before & after & H).
  repeat (destruct before as [|? before];
          [discriminate H | injection H as _ H]).
  destruct before; discriminate H.
Defined.

(** ** The date validator, completely *)

Lemma one_inv (lo hi v : Z) (s r : string) :
  (v, r) ∈ Strptime.one lo hi s →
  String.length s = S (String.length r).
Proof.
  unfold Strptime.one. destruct s as [|c s]; [by intros ?%elem_of_nil|].
  destruct (Strptime.in_range lo hi c); [|by intros ?%elem_of_nil].
  intros [= _ ->]%list_elem_of_singleton. done.
Qed.

Lemma lit_inv (a : ascii) (u : unit) (s r : string) :
  (u, r) ∈ Strptime.lit a s →
  String.length s = S (String.length r).
Proof.
  unfold Strptime.lit. destruct s as [|c s]; [by intros ?%elem_of_nil|].
  destruct (Ascii.eqb a c); [|by intros ?%elem_of_nil].
  intros [= _ ->]%list_elem_of_singleton. done.
Qed.

Ltac group_inv :=
  repeat match goal with
         | H : _ ∈ _ ++ _ |- _ => apply elem_of_app in H as [H|H]
         | H : _ ∈ _ ≫= _ |- _ =>
             apply list_elem_of_bind in H as ([? ?] & H & ?)
         | H : _ ∈ [_] |- _ => apply list_elem_of_singleton in H
         | H : (_, _) = (_, _) |- _ => injection H as ? ?; subst
         | H : (_, _) ∈ Strptime.one _ _ _ |- _ => apply one_inv in H
         | H : (_, _) ∈ Strptime.lit _ _ |- _ => apply lit_inv in H
         end.

Lemma group_Y_inv (v : Z) (s r : string) :
  (v, r) ∈ Strptime.group_Y s →
  String.length s = (4 + String.length r)%nat.
Proof. unfold Strptime.group_Y. intros H. group_inv. lia. Qed.

Lemma group_m_inv (v : Z) (s r : string) :
  (v, r) ∈ Strptime.group_m s →
  (1 + String.length r ≤ String.length s ≤ 2 + String.length r)%nat.
Proof. unfold Strptime.group_m. intros H. group_inv; lia. Qed.

Lemma group_d_inv (v : Z) (s r : string) :
  (v, r) ∈ Strptime.group_d s →
  (1 + String.length r ≤ String.length s ≤ 2 + String.length r)%nat.
Proof. unfold Strptime.group_d. intros H. group_inv; lia. Qed.

Lemma matches_inv (y m d : Z) (s r : string) :
  (y, m, d, r) ∈ Strptime.matches s →
  (6 + String.length r ≤ String.length s ≤ 8 + String.length r)%nat.
Proof.
  unfold Strptime.matches. intros H.
  apply list_elem_of_bind in H as ([y' s1] & H & Hy).
  apply list_elem_of_bind in H as ([m' s2] & H & Hm).
  apply list_elem_of_bind in H as ([d' s3] & H & Hd).
  apply list_elem_of_singleton in H. injection H as -> -> -> ->.
  apply group_Y_inv in Hy. apply group_m_inv in Hm. apply group_d_inv in Hd.
  lia.
Qed.

(** X4.  Whatever [validate_date] accepts is returned unchanged, has six
    to eight characters and parses to a valid calendar date (year 1 to
    9999, a day that exists in its month); everything else raises the
    [ValueError] with the fixed message. *)
Theorem validate_date_outcome (s : string) :
  match validate_date s with
  | inr r =>
      r = s
      ∧ (6 ≤ String.length s ≤ 8)%nat
      ∧ ∃ d, Strptime.strptime_Ymd s = inr d
             ∧ valid_ymd (year d) (month d) (day d) = true
  | inl e => e = Raise ValueError "Date must be in YYYYMMDD format"
  end.
Proof.
  unfold validate_date, Strptime.strptime_Ymd.
  destruct (head (Strptime.matches s)) as [[[[y m] d] rest]|] eqn:Hhead;
    [|done].
  apply head_Some_elem_of, matches_inv in Hhead.
  destruct rest as [|c rest]; [|done]. cbn [PyStr.is_empty negb].
  destruct (valid_ymd y m d) eqn:Hv; [|done].
  split_and!; [done|cbn in Hhead; lia..|].
  by exists (Datetime y m d).
Qed.

(** An eight-digit encoding parses to exactly the date it encodes. *)
Lemma strptime_eight_digits (y1 y2 y3 y4 m1 m2 d1 d2 : ascii) :
  let y := Strptime.digit y1 * 1000 + Strptime.digit y2 * 100
           + Strptime.digit y3 * 10 + Strptime.digit y4 in
  let m := Strptime.digit m1 * 10 + Strptime.digit m2 in
  let d := Strptime.digit d1 * 10 + Strptime.digit d2 in
  forallb Strptime.is_digit [y1; y2; y3; y4; m1; m2; d1; d2] = true →
  valid_ymd y m d = true →
  Strptime.strptime_Ymd
    (String y1 (String y2 (String y3 (String y4
       (String m1 (String m2 (String d1 (String d2 EmptyString))))))))
  = inr (Datetime y m d).
Proof.
  intros yy mm dd. cbn [forallb]. rewrite !andb_true_iff.
  intros (Hy1 & Hy2 & Hy3 & Hy4 & Hm1 & Hm2 & Hd1 & Hd2 & _) Hv.
  pose proof Hv as Hr. unfold valid_ymd in Hr.
  rewrite !andb_true_iff, !Z.leb_le in Hr.
  pose proof (days_in_month_le_31 yy mm).
  destruct (group_m_two_digits m1 m2 (String d1 (String d2 EmptyString)))
    as [om Hm]; [done..| |].
  { fold mm. rewrite andb_true_iff, !Z.leb_le. lia. }
  destruct (group_d_two_digits d1 d2 EmptyString) as [od Hd]; [done..| |].
  { fold dd. rewrite andb_true_iff, !Z.leb_le. lia. }
  unfold Strptime.strptime_Ymd, Strptime.matches, Strptime.group_Y.
  rewrite (one_digit y1) by done. cbn [mbind list_bind flat_map app].
  rewrite !one_digit by done. cbn [mbind list_bind flat_map app].
  rewrite !one_digit by done. cbn [mbind list_bind flat_map app].
  rewrite !one_digit by done. cbn [mbind list_bind flat_map app].
  rewrite Hm. cbn [mbind list_bind flat_map app].
  rewrite Hd. cbn [mbind list_bind flat_map app head PyStr.is_empty negb].
  fold yy mm dd. by rewrite Hv.
Qed.

(** X5.  Formatting and parsing are inverse: from year 1000 on, the
    string that [strftime('%Y%m%d')] gives for a valid date parses back
    to that date, so the validator returns it unchanged.  The default
    dates of [process_inputs] therefore always pass the validation
    that follows. *)
Theorem strptime_strftime (d : datetime) :
  valid_ymd (year d) (month d) (day d) = true → 1000 ≤ year d →
  Strptime.strptime_Ymd (strftime_Ymd d) = inr d
  ∧ validate_date (strftime_Ymd d) = inr (strftime_Ymd d).
Proof.
  intros Hv Hy. pose proof Hv as (? & ? & ?)%valid_ymd_inv.
  pose proof (days_in_month_le_31 (year d) (month d)).
  destruct (of_Z_four_digits (year d)) as (a & b & c & e & Ey & Dy & Vy);
    [lia|].
  destruct (pad2_two_digits (month d)) as (m1 & m2 & Em & Dm & Vm); [lia|].
  destruct (pad2_two_digits (day d)) as (d1 & d2 & Ed & Dd & Vd); [lia|].
  assert (Strptime.strptime_Ymd (strftime_Ymd d) = inr d) as Hparse.
  { unfold strftime_Ymd. rewrite Ey, Em, Ed.
    repeat first [rewrite app_cons | change (EmptyString +:+ ?s) with s].
    rewrite strptime_eight_digits.
    - rewrite Vy, Vm, Vd. by destruct d.
    - change [a; b; c; e; m1; m2; d1; d2]
        with ([a; b; c; e] ++ [m1; m2] ++ [d1; d2]).
      by rewrite !forallb_app, Dy, Dm, Dd.
    - by rewrite Vy, Vm, Vd. }
  split; [done|]. unfold validate_date. by rewrite Hparse.
Qed.

Lemma strptime_strftime_witness :
  Strptime.strptime_Ymd (strftime_Ymd (Datetime 2024 2 29))
  = inr (Datetime 2024 2 29)
  ∧ validate_date (strftime_Ymd (Datetime 2024 2 29))
    = inr (strftime_Ymd (Datetime 2024 2 29)).
Proof.
  apply (strptime_strftime (Datetime 2024 2 29)).
  - reflexivity.
  - cbn. lia.
Defined.

(** ** The state of the process *)

Section State.

Variable remote : list string → string → Http.outcome.

(** One call of [get_pageviews], in full: a hit changes nothing; a miss
    appends one request and adds at most the entry of its own key. *)
Lemma get_pageviews_step (st st1 : state) (t s e : string)
    (r : result series) :
  get_pageviews remote t s e st = (st1, r) →
  (st1 = st ∧ ∃ views, cache st !! (t, s, e) = Some views ∧ r = inr views)
  ∨ (cache st !! (t, s, e) = None
     ∧ requests st1 = requests st ++ [api_url t s e]
     ∧ (cache st1 = cache st
        ∨ ∃ v views,
            daily_views v = inr views
            ∧ cache st1 = <[(t, s, e) := views]> (cache st))).
Proof.
  intros H. destruct (cache st !! (t, s, e)) as [views|] eqn:Hc.
  - rewrite (get_pageviews_hit _ _ _ _ _ _ Hc) in H. simplify_eq. eauto.
  - right. split; [done|]. split; [by eapply get_pageviews_miss|].
    unfold get_pageviews, functools_cache in H. rewrite Hc in H.
    unfold get_pageviews_body, requests_get in H.
    repeat case_match; simplify_eq/=; eauto.
Qed.


(** X7.  Every cache entry was paid for by a request: from the start of
    the process on, the cache never holds more entries than requests
    were issued. *)
Theorem cache_size_bounded (st : state) :
  reaches remote (λ _, True) initial_state st →
  (size (cache st) ≤ length (requests st))%nat.
Proof.
  assert (∀ st0 st1, reaches remote (λ _, True) st0 st1 →
            (size (cache st0) ≤ length (requests st0))%nat →
            (size (cache st1) ≤ length (requests st1))%nat) as Hgen.
  { induction 1 as [st0|st0 st1 st2 t s e r _ Hcall _ IH]; [done|].
    intros Hle. apply IH.
    apply get_pageviews_step in Hcall
      as [[-> _]|(Hmiss & -> & [-> | (v & views & _ & ->)])]; [done|..];
      rewrite length_app; cbn; [lia|].
    rewrite map_size_insert_None by done. lia. }
  intros H. apply (Hgen _ _ H). done.
Qed.

(** X8.  Every date key in the cache has at most eight characters (or
    elements, when the timestamp was a list): the fetcher keeps only the
    first eight of each timestamp. *)
Theorem cached_dates_short (st : state) (k : cache_key) (views : series)
    (d : Json.slice) (c : Json.value) :
  reaches remote (λ _, True) initial_state st →
  cache st !! k = Some views → (d, c) ∈ views →
  (Json.len d ≤ 8)%nat.
Proof.
  assert (∀ st0 st1, reaches remote (λ _, True) st0 st1 →
            (∀ k views d c, cache st0 !! k = Some views → (d, c) ∈ views →
                            (Json.len d ≤ 8)%nat) →
            (∀ k views d c, cache st1 !! k = Some views → (d, c) ∈ views →
                            (Json.len d ≤ 8)%nat)) as Hgen.
  { induction 1 as [st0|st0 st1 st2 t s e r _ Hcall _ IH]; [done|].
    intros Hinv. apply IH. clear IH.
    apply get_pageviews_step in Hcall
      as [[-> _]|(Hmiss & _ & [-> | (v & fetched & Hv & ->)])]; [done..|].
    intros k' views' d' c' Hk Hin.
    destruct (decide ((t, s, e) = k')) as [<-|Hne].
    - rewrite lookup_insert_eq in Hk. simplify_eq.
      by eapply daily_views_short.
    - rewrite lookup_insert_ne in Hk by done. by eapply Hinv. }
  intros H. apply (Hgen _ _ H). intros k' views' d' c' Hk.
  cbn in Hk. by rewrite lookup_empty in Hk.
Qed.

End State.


Lemma cache_size_bounded_witness :
  let st1 :=
    (get_pageviews Demo.remote "Python" "20240101" "20240103"
       initial_state).1 in
  (size (cache st1) ≤ length (requests st1))%nat.
Proof.
  intros st1. apply (cache_size_bounded Demo.remote st1).
  apply (reaches_call Demo.remote _ initial_state st1 st1
           "Python" "20240101" "20240103"
           (get_pageviews Demo.remote "Python" "20240101" "20240103"
              initial_state).2).
  - exact I.
  - apply surjective_pairing.
  - apply reaches_refl.
Defined.

Lemma cached_dates_short_witness :
  (Json.len (Json.StrSlice "20240102") ≤ 8)%nat.
Proof.
  pose (st1 := (get_pageviews Demo.remote "Python" "20240101" "20240103"
                  initial_state).1).
  apply (cached_dates_short Demo.remote st1
           ("Python", "20240101", "20240103")
           (unhashed [("20240101", Json.Int 10); ("20240102", Json.Int 20)])
           (Json.StrSlice "20240102") (Json.Int 20)).
  - apply (reaches_call Demo.remote _ initial_state st1 st1
             "Python" "20240101" "20240103"
             (get_pageviews Demo.remote "Python" "20240101" "20240103"
                initial_state).2).
    + exact I.
    + apply surjective_pairing.
    + apply reaches_refl.
  - vm_compute. reflexivity.
  - apply list_elem_of_In. right. left. reflexivity.
Defined.

(** ** Submissions *)

Section Submissions.

Variable remote : list string → string → Http.outcome.
Variable Figure : Type.
Variable px_line : DataFrame → string → list string → result Figure.
Variable update_layout : Figure → Figure.

Implicit Types (st : state) (now : datetime) (sd ed : string).

Lemma reaches_one (st st1 : state) (t s e : string) (r : result series) :
  get_pageviews remote t s e st = (st1, r) →
  reaches remote (λ _, True) st st1.
Proof. intros H. eapply reaches_call; [done|exact H|apply reaches_refl]. Qed.

Lemma reaches_trans (P : cache_key → Prop) (st st1 st2 : state) :
  reaches remote P st st1 → reaches remote P st1 st2 →
  reaches remote P st st2.
Proof.
  induction 1 as [|? ? ? ? ? ? ? ? ? ? IH]; [done|].
  intros H2. eapply reaches_call; [done..|]. by apply IH.
Qed.

Lemma get_pageviews_new_requests (st st1 : state) (t s e : string)
    (r : result series) :
  get_pageviews remote t s e st = (st1, r) →
  ∃ new, requests st1 = requests st ++ new ∧ (length new ≤ 1)%nat.
Proof.
  intros H. apply get_pageviews_last_request in H as [[-> _]|[-> _]].
  - exists []. rewrite app_nil_r. split; [done|cbn; lia].
  - eexists [_]. split; [done|cbn; lia].
Qed.

(** X9.  A submission touches the state only through [get_pageviews]: it
    issues at most two requests, never drops a cache entry, and leaves
    the process in a state that calls of [get_pageviews] alone could
    have produced. *)
Theorem process_inputs_effects now (url1 url2 : string) sd ed st st1
    (r : result (DataFrame * Figure * string)) :
  process_inputs remote Figure px_line update_layout now url1 url2 sd ed st
    = (st1, r) →
  reaches remote (λ _, True) st st1
  ∧ cache st ⊆ cache st1
  ∧ ∃ new, requests st1 = requests st ++ new ∧ (length new ≤ 2)%nat.
Proof.
  rewrite process_inputs_unfold. intros H.
  assert (∀ sta stb, reaches remote (λ _, True) sta stb →
            cache sta ⊆ cache stb) as Hsub.
  { intros sta stb Hr. apply map_subseteq_spec. intros k v.
    by eapply reaches_keeps. }
  assert (reaches remote (λ _, True) st st
          ∧ cache st ⊆ cache st
          ∧ ∃ new, requests st = requests st ++ new ∧ (length new ≤ 2)%nat)
    as Hrefl.
  { split_and!; [apply reaches_refl|done|].
    exists []. rewrite app_nil_r. split; [done|cbn; lia]. }
  destruct (default_dates now sd ed) as [?|[s e]]; [by simplify_eq|].
  destruct (validate_date s) as [?|s']; [by simplify_eq|].
  destruct (validate_date e) as [?|e']; [by simplify_eq|].
  destruct (extract_title url1) as [?|t1]; [by simplify_eq|].
  destruct (extract_title url2) as [?|t2]; [by simplify_eq|].
  clear Hrefl.
  destruct (get_pageviews remote t1 s' e' st) as [sta r1] eqn:H1.
  pose proof (reaches_one _ _ _ _ _ _ H1) as Hr1.
  destruct (get_pageviews_new_requests _ _ _ _ _ _ H1) as (n1 & Hn1 & Hl1).
  destruct r1 as [err|v1].
  { simplify_eq. split_and!; [done|by apply Hsub|].
    exists n1. split; [done|lia]. }
  destruct (get_pageviews remote t2 s' e' sta) as [stb r2] eqn:H2.
  pose proof (reaches_one _ _ _ _ _ _ H2) as Hr2.
  destruct (get_pageviews_new_requests _ _ _ _ _ _ H2) as (n2 & Hn2 & Hl2).
  assert (st1 = stb) as ->.
  { destruct r2; [by simplify_eq|].
    destruct (build_frame _ _ _ _); [by simplify_eq|].
    destruct (px_line _ _ _); by simplify_eq. }
  pose proof (reaches_trans _ _ _ _ Hr1 Hr2) as Hr.
  split_and!; [done|by apply Hsub|].
  exists (n1 ++ n2). rewrite Hn2, Hn1, <- app_assoc, length_app.
  split; [done|lia].
Qed.

(** X10.  Invalid input never reaches the network: when a date (after
    defaulting) is rejected or a URL lacks the prefix, the handler
    answers with the date or the URL error, the empty table and no
    chart, and the cache and the request log are untouched. *)
Theorem invalid_input_stays_local now (url1 url2 : string) sd ed st
    (s e : string) :
  default_dates now sd ed = inr (s, e) →
  validate_date s ≠ inr s ∨ validate_date e ≠ inr e
  ∨ PyStr.startswith url1 wiki_prefix = false
  ∨ PyStr.startswith url2 wiki_prefix = false →
  ∃ msg,
    wrapped_process remote Figure px_line update_layout now url1 url2 sd ed st
    = (st, (Frame.empty, None, "Error: " +:+ msg))
    ∧ (msg = "Date must be in YYYYMMDD format"
       ∨ msg = "URL must be from en.wikipedia.org").
Proof.
  intros Hd Hbad. unfold wrapped_process.
  rewrite process_inputs_unfold, Hd.
  destruct (validate_date_cases s) as [Hs | ->];
    [rewrite Hs|by eexists; split; [reflexivity|auto]].
  destruct (validate_date_cases e) as [He | ->];
    [rewrite He|by eexists; split; [reflexivity|auto]].
  destruct (extract_title url1) as [e1|t1] eqn:H1.
  { apply extract_title_raises in H1 as ->.
    by eexists; split; [reflexivity|auto]. }
  destruct (extract_title url2) as [e2|t2] eqn:H2.
  { apply extract_title_raises in H2 as ->.
    by eexists; split; [reflexivity|auto]. }
  destruct Hbad as [?|[?|[Hu|Hu]]]; [done..| |].
  - rewrite (extract_title_rejects _ Hu) in H1. discriminate H1.
  - rewrite (extract_title_rejects _ Hu) in H2. discriminate H2.
Qed.

(** X11.  When the fetch of the first article fails, the second article
    is never requested: the handler reports the fetch error right away
    and exactly one request, that of the first article, has been
    issued. *)
Theorem first_fetch_failure_aborts now (url1 url2 : string) sd ed st st1
    (s e t1 t2 : string) (err : exn) :
  default_dates now sd ed = inr (s, e) →
  validate_date s = inr s → validate_date e = inr e →
  extract_title url1 = inr t1 → extract_title url2 = inr t2 →
  get_pageviews remote t1 s e st = (st1, inl err) →
  wrapped_process remote Figure px_line update_layout now url1 url2 sd ed st
  = (st1, (Frame.empty, None, "Error: " +:+ exn_str err))
  ∧ requests st1 = requests st ++ [api_url t1 s e]
  ∧ cache st1 = cache st.
Proof.
  intros Hd Hs He H1 H2 Hf. unfold wrapped_process.
  rewrite process_inputs_unfold, Hd, Hs, He, H1, H2, Hf.
  pose proof (get_pageviews_raises_ValueError _ _ _ _ _ _ _ Hf) as Hcls.
  apply get_pageviews_raises in Hf as (_ & Hc & Hr).
  unfold is_ValueError. by rewrite Hcls.
Qed.

(** X12.  Submitting again costs nothing: after a submission has
    succeeded, the same inputs submitted at any later point of the
    process (on the same day, or on any day when both dates were given)
    return the same table, chart and status without a single request
    and without touching the cache. *)
Theorem resubmission_is_free now now' (url1 url2 : string) sd ed st st1 st2
    (out : DataFrame * Figure * string) :
  process_inputs remote Figure px_line update_layout now url1 url2 sd ed st
    = (st1, inr out) →
  reaches remote (λ _, True) st1 st2 →
  now' = now ∨ (sd ≠ EmptyString ∧ ed ≠ EmptyString) →
  process_inputs remote Figure px_line update_layout now' url1 url2 sd ed st2
  = (st2, inr out).
Proof.
  intros H Hreach Hnow. destruct out as [[df fig] msg].
  apply process_inputs_returns in H
    as (s & e & t1 & t2 & v1 & v2 & st0 & fig0 & Hd & Hs & He & Ht1 & Ht2
        & Hf1 & Hf2 & -> & Hfig & -> & ->).
  pose proof (get_pageviews_returns _ _ _ _ _ _ _ Hf1) as Hc1.
  pose proof (get_pageviews_keeps _ _ _ _ _ _ _ _ _ Hf2 Hc1) as Hc1'.
  pose proof (get_pageviews_returns _ _ _ _ _ _ _ Hf2) as Hc2.
  assert (default_dates now' sd ed = inr (s, e)) as Hd2.
  { destruct Hnow as [-> | [Hsd Hed]]; [done|].
    unfold default_dates in *. by destruct sd, ed. }
  rewrite process_inputs_unfold, Hd2, Hs, He, Ht1, Ht2.
  rewrite (get_pageviews_hit remote st2 t1 s e (unhashed v1))
    by (by eapply reaches_keeps).
  rewrite (get_pageviews_hit remote st2 t2 s e (unhashed v2))
    by (by eapply reaches_keeps).
  by rewrite build_frame_unhashed, Hfig.
Qed.

(** X13.  A submission that names the same article twice issues at most
    one request, and its table has the date column and a single count
    column. *)
Theorem same_article_twice now (url1 url2 : string) sd ed st st1
    (df : DataFrame) (fig : Figure) (msg : string) :
  process_inputs remote Figure px_line update_layout now url1 url2 sd ed st
    = (st1, inr (df, fig, msg)) →
  extract_title url1 = extract_title url2 →
  (∃ title dates counts,
     df = [("Date", Dates dates); (label title, Counts counts)]
     ∧ length counts = length dates)
  ∧ ∃ new, requests st1 = requests st ++ new ∧ (length new ≤ 1)%nat.
Proof.
  intros H Hsame.
  apply process_inputs_returns in H
    as (s & e & t1 & t2 & v1 & v2 & st0 & fig0 & _ & _ & _ & Ht1 & Ht2
        & Hf1 & Hf2 & -> & _).
  rewrite Ht1, Ht2 in Hsame. injection Hsame as ->.
  pose proof (get_pageviews_returns _ _ _ _ _ _ _ Hf1) as Hc1.
  rewrite (get_pageviews_hit _ _ _ _ _ _ Hc1) in Hf2.
  injection Hf2 as <- ->%unhashed_inj.
  split; [|by eapply get_pageviews_new_requests].
  exists t2, (sorted_union v2.*1 v2.*1),
    (get0 (dict v2) <$> sorted_union v2.*1 v2.*1).
  split; [|by rewrite length_fmap].
  unfold comparison_frame, Frame.display. cbn [foldl setitem fst snd].
  pose proof (label_not_Date t2).
  repeat (first [progress cbn [setitem] | case_decide]; try done).
Qed.

(** X14.  When the fetch of the second article fails, the series of the
    first stays in the cache and nothing is stored for the second: a
    retry will request the second article only. *)
Theorem second_fetch_failure_keeps_first now (url1 url2 : string) sd ed
    st st0 st1 (s e t1 t2 : string) (v1 : series) (err : exn) :
  default_dates now sd ed = inr (s, e) →
  validate_date s = inr s → validate_date e = inr e →
  extract_title url1 = inr t1 → extract_title url2 = inr t2 →
  get_pageviews remote t1 s e st = (st0, inr v1) →
  get_pageviews remote t2 s e st0 = (st1, inl err) →
  wrapped_process remote Figure px_line update_layout now url1 url2 sd ed st
  = (st1, (Frame.empty, None, "Error: " +:+ exn_str err))
  ∧ cache st1 !! (t1, s, e) = Some v1
  ∧ cache st1 !! (t2, s, e) = None.
Proof.
  intros Hd Hs He H1 H2 Hf1 Hf2. unfold wrapped_process.
  rewrite process_inputs_unfold, Hd, Hs, He, H1, H2, Hf1, Hf2.
  pose proof (get_pageviews_raises_ValueError _ _ _ _ _ _ _ Hf2) as Hcls.
  pose proof (get_pageviews_returns _ _ _ _ _ _ _ Hf1) as Hc1.
  apply get_pageviews_raises in Hf2 as (Hmiss & Hc & _).
  unfold is_ValueError. rewrite Hcls, Hc. done.
Qed.

(** X15.  The three outputs always agree: either the status is the
    success message, the chart is present and the table has its date
    column, or the status starts with "Error: " or "Unexpected error: ",
    there is no chart and the table is the empty [DataFrame()], which
    has no column at all.  An empty result and a failure can thus be
    told apart. *)
Theorem outputs_agree now (url1 url2 : string) sd ed st :
  let '(df, fig, status) :=
    (wrapped_process remote Figure px_line update_layout now url1 url2 sd ed
       st).2 in
  (status = "Analysis completed successfully!"
   ∧ is_Some fig
   ∧ ∃ dates, getitem df "Date" = Some (Dates dates)
              ∧ nrows df = length dates)
  ∨ (status ≠ "Analysis completed successfully!"
     ∧ fig = None ∧ df = Frame.empty
     ∧ (PyStr.startswith status "Error: " = true
        ∨ PyStr.startswith status "Unexpected error: " = true)).
Proof.
  unfold wrapped_process.
  destruct (process_inputs _ _ _ _ _ _ _ _ _ _) as [st1 [e|[[df fig] msg]]]
    eqn:H.
  - destruct (is_ValueError e); cbn [snd]; right;
      (split_and!; [discriminate|done|done|auto]).
  - apply process_inputs_returns in H
      as (? & ? & t1 & t2 & v1 & v2 & ? & ? & _ & _ & _ & _ & _ & _ & _
          & -> & _ & _ & ->).
    cbn [snd]. left. split_and!; [done|done|].
    destruct (comparison_frame_columns t1 t2 v1 v2) as (Hd & _ & _ & Hn).
    eauto.
Qed.

End Submissions.

Lemma process_inputs_effects_witness :
  let st1 :=
    (Demo.process Demo.python_url Demo.java_url "20240101" "20240103"
       initial_state).1 in
  reaches Demo.remote (λ _, True) initial_state st1
  ∧ cache initial_state ⊆ cache st1
  ∧ ∃ new, requests st1 = requests initial_state ++ new
           ∧ (length new ≤ 2)%nat.
Proof.
  intros st1.
  apply (process_inputs_effects Demo.remote Demo.Figure Demo.px_line
           Demo.update_layout Demo.today Demo.python_url Demo.java_url
           "20240101" "20240103" initial_state st1
           (Demo.process Demo.python_url Demo.java_url "20240101" "20240103"
              initial_state).2).
  apply surjective_pairing.
Defined.

Lemma invalid_input_stays_local_witness :
  ∃ msg,
    Demo.wrapped "https://de.wikipedia.org/wiki/Python" Demo.java_url
      "20240101" "20240103" initial_state
    = (initial_state, (Frame.empty, None, "Error: " +:+ msg))
    ∧ (msg = "Date must be in YYYYMMDD format"
       ∨ msg = "URL must be from en.wikipedia.org").
Proof.
  apply (invalid_input_stays_local Demo.remote Demo.Figure Demo.px_line
           Demo.update_layout Demo.today
           "https://de.wikipedia.org/wiki/Python" Demo.java_url
           "20240101" "20240103" initial_state "20240101" "20240103").
  - reflexivity.
  - right. right. left. reflexivity.
Defined.

Lemma first_fetch_failure_aborts_witness :
  let st1 :=
    (get_pageviews Demo.remote "Missing" "20240101" "20240103"
       initial_state).1 in
  Demo.wrapped Demo.missing_url Demo.java_url "20240101" "20240103"
    initial_state
  = (st1,
     (Frame.empty, None,
      "Error: "
      +:+ exn_str
            (Raise ValueError
               ("API error: 404 Client Error: Not Found for url: "
                +:+ api_url "Missing" "20240101" "20240103"))))
  ∧ requests st1
    = requests initial_state ++ [api_url "Missing" "20240101" "20240103"]
  ∧ cache st1 = cache initial_state.
Proof.
  intros st1.
  apply (first_fetch_failure_aborts Demo.remote Demo.Figure Demo.px_line
           Demo.update_layout Demo.today Demo.missing_url Demo.java_url
           "20240101" "20240103" initial_state st1
           "20240101" "20240103" "Missing" "Java");
    vm_compute; reflexivity.
Defined.

Lemma resubmission_is_free_witness :
  let st1 :=
    (Demo.process Demo.python_url Demo.java_url "20240101" "20240103"
       initial_state).1 in
  process_inputs Demo.remote Demo.Figure Demo.px_line Demo.update_layout
    (Datetime 2025 1 1) Demo.python_url Demo.java_url "20240101" "20240103"
    st1
  = (st1, inr (demo_table, ["Python Views"; "Java Views"],
               "Analysis completed successfully!")).
Proof.
  intros st1.
  apply (resubmission_is_free Demo.remote Demo.Figure Demo.px_line
           Demo.update_layout Demo.today (Datetime 2025 1 1)
           Demo.python_url Demo.java_url "20240101" "20240103"
           initial_state st1 st1).
  - vm_compute. reflexivity.
  - apply reaches_refl.
  - right. split; discriminate.
Defined.

Lemma same_article_twice_witness :
  let st1 :=
    (Demo.process Demo.python_url Demo.python_url "20240101" "20240103"
       initial_state).1 in
  (∃ title dates counts,
     [("Date", Dates ["20240101"; "20240102"]);
      ("Python Views", Counts [Json.Int 10; Json.Int 20])]
     = [("Date", Dates dates); (label title, Counts counts)]
     ∧ length counts = length dates)
  ∧ ∃ new, requests st1 = requests initial_state ++ new
           ∧ (length new ≤ 1)%nat.
Proof.
  intros st1.
  apply (same_article_twice Demo.remote Demo.Figure Demo.px_line
           Demo.update_layout Demo.today Demo.python_url Demo.python_url
           "20240101" "20240103" initial_state st1 _
           ["Python Views"; "Python Views"]
           "Analysis completed successfully!").
  - vm_compute. reflexivity.
  - reflexivity.
Defined.

Lemma second_fetch_failure_keeps_first_witness :
  let st0 :=
    (get_pageviews Demo.remote "Python" "20240101" "20240103"
       initial_state).1 in
  let st1 :=
    (get_pageviews Demo.remote "Missing" "20240101" "20240103" st0).1 in
  Demo.wrapped Demo.python_url Demo.missing_url "20240101" "20240103"
    initial_state
  = (st1,
     (Frame.empty, None,
      "Error: "
      +:+ exn_str
            (Raise ValueError
               ("API error: 404 Client Error: Not Found for url: "
                +:+ api_url "Missing" "20240101" "20240103"))))
  ∧ cache st1 !! ("Python", "20240101", "20240103")
    = Some (unhashed [("20240101", Json.Int 10); ("20240102", Json.Int 20)])
  ∧ cache st1 !! ("Missing", "20240101", "20240103") = None.
Proof.
  intros st0 st1.
  apply (second_fetch_failure_keeps_first Demo.remote Demo.Figure
           Demo.px_line Demo.update_layout Demo.today Demo.python_url
           Demo.missing_url "20240101" "20240103" initial_state st0 st1
           "20240101" "20240103" "Python" "Missing");
    vm_compute; reflexivity.
Defined.

(** ** The merger, further *)

Lemma sorted_union_comm (l1 l2 : list string) :
  sorted_union l1 l2 = sorted_union l2 l1.
Proof. unfold sorted_union. by rewrite (comm_L (∪)). Qed.

Lemma get0_absent (views : dated) (d : string) :
  d ∉ views.*1 → get0 (dict views) d = Json.Int 0.
Proof.
  intros Hd. unfold get0.
  destruct (dict views !! d) as [c|] eqn:Hl; [|done].
  destruct Hd. apply (elem_of_list_to_set (C := gset string)).
  rewrite <- dict_dom. apply elem_of_dom. eauto.
Qed.

(** X16.  The shape of the table: the date column, then one count column
    per article, all of the same length (so the [DataFrame] constructor
    cannot fail on ragged columns); when both titles are equal the two
    count columns share their label and only the second survives. *)
Theorem comparison_frame_shape (t1 t2 : string) (v1 v2 : dated) :
  let dates := sorted_union v1.*1 v2.*1 in
  let counts1 := get0 (dict v1) <$> dates in
  let counts2 := get0 (dict v2) <$> dates in
  comparison_frame t1 t2 v1 v2
  = (if decide (t1 = t2)
     then [("Date", Dates dates); (label t2, Counts counts2)]
     else [("Date", Dates dates); (label t1, Counts counts1);
           (label t2, Counts counts2)])
  ∧ length counts1 = length dates ∧ length counts2 = length dates
  ∧ length dates
    = size ((list_to_set v1.*1 : gset string) ∪ list_to_set v2.*1).
Proof.
  intros dates counts1 counts2. split_and!.
  - unfold comparison_frame, Frame.display.
    fold dates. fold counts1 counts2. cbn [foldl setitem fst snd].
    pose proof (label_not_Date t1). pose proof (label_not_Date t2).
    destruct (decide (t1 = t2)) as [->|Hne].
    + repeat (first [progress cbn [setitem] | case_decide]; try done).
    + assert (label t1 ≠ label t2) by (intros ?%label_inj; done).
      repeat (first [progress cbn [setitem] | case_decide]; try done).
  - apply length_fmap.
  - apply length_fmap.
  - apply length_sorted_union.
Qed.

(** X17.  Swapping the two articles swaps the two counts of every row
    and changes nothing else. *)
Theorem comparison_frame_swap (t1 t2 : string) (v1 v2 : dated) (i : nat) :
  (t1 = t2 → v1 = v2) →
  row (comparison_frame t2 t1 v2 v1) (label t2) (label t1) i
  = (λ r, (r.1.1, r.2, r.1.2))
      <$> row (comparison_frame t1 t2 v1 v2) (label t1) (label t2) i.
Proof.
  intros Hsame.
  rewrite !comparison_frame_row by (done || (intros <-; symmetry; auto)).
  rewrite (sorted_union_comm v2.*1 v1.*1).
  by destruct (sorted_union _ _ !! i).
Qed.

(** X18.  Two series without duplicate dates and without a common date
    are laid side by side: the table has as many rows as both series
    have entries together, and every row shows the count of the one
    series that has its date and 0 for the other. *)
Theorem comparison_frame_disjoint (t1 t2 : string) (v1 v2 : dated) :
  t1 ≠ t2 →
  NoDup v1.*1 → NoDup v2.*1 → (∀ d, d ∈ v1.*1 → d ∉ v2.*1) →
  nrows (comparison_frame t1 t2 v1 v2) = (length v1 + length v2)%nat
  ∧ ∀ i d x y,
      row (comparison_frame t1 t2 v1 v2) (label t1) (label t2) i
        = Some (d, x, y) →
      ((d, x) ∈ v1 ∧ y = Json.Int 0) ∨ ((d, y) ∈ v2 ∧ x = Json.Int 0).
Proof.
  intros Hne Hn1 Hn2 Hdisj. split.
  - destruct (comparison_frame_columns t1 t2 v1 v2) as (_ & _ & _ & ->).
    rewrite length_sorted_union, size_union by set_solver.
    rewrite !size_list_to_set, !length_fmap by done. done.
  - intros i d x y. rewrite comparison_frame_row by done.
    intros (d' & Hi & ?)%fmap_Some. simplify_eq.
    apply list_elem_of_lookup_2, elem_of_sorted_union in Hi as [Hd|Hd].
    + left. split; [|apply get0_absent; auto].
      apply dict_lookup_NoDup; [done|]. unfold get0.
      destruct (dict v1 !! d') as [c|] eqn:Hl; [done|].
      apply (elem_of_list_to_set (C := gset string)) in Hd.
      rewrite <- dict_dom in Hd. apply elem_of_dom in Hd as [? ?].
      congruence.
    + right. split; [|apply get0_absent; intros ?; by eapply Hdisj].
      apply dict_lookup_NoDup; [done|]. unfold get0.
      destruct (dict v2 !! d') as [c|] eqn:Hl; [done|].
      apply (elem_of_list_to_set (C := gset string)) in Hd.
      rewrite <- dict_dom in Hd. apply elem_of_dom in Hd as [? ?].
      congruence.
Qed.

Lemma comparison_frame_swap_witness :
  row (comparison_frame "B" "A" [("20240103", Json.Int 7)]
         [("20240102", Json.Int 5)])
    (label "B") (label "A") 0
  = (λ r, (r.1.1, r.2, r.1.2))
      <$> row (comparison_frame "A" "B" [("20240102", Json.Int 5)]
                 [("20240103", Json.Int 7)])
            (label "A") (label "B") 0.
Proof.
  apply (comparison_frame_swap "A" "B" [("20240102", Json.Int 5)]
           [("20240103", Json.Int 7)] 0).
  discriminate.
Defined.

Lemma comparison_frame_disjoint_witness :
  nrows (comparison_frame "A" "B" [("20240102", Json.Int 5)]
           [("20240103", Json.Int 7)])
  = (length [("20240102", Json.Int 5)]
     + length [("20240103", Json.Int 7)])%nat
  ∧ ∀ i d x y,
      row (comparison_frame "A" "B" [("20240102", Json.Int 5)]
             [("20240103", Json.Int 7)])
        (label "A") (label "B") i
        = Some (d, x, y) →
      ((d, x) ∈ [("20240102", Json.Int 5)] ∧ y = Json.Int 0)
      ∨ ((d, y) ∈ [("20240103", Json.Int 7)] ∧ x = Json.Int 0).
Proof.
  apply (comparison_frame_disjoint "A" "B" [("20240102", Json.Int 5)]
           [("20240103", Json.Int 7)]).
  - discriminate.
  - apply NoDup_singleton.
  - apply NoDup_singleton.
  - intros d Hd%list_elem_of_singleton Hd'%list_elem_of_singleton.
    rewrite Hd in Hd'. discriminate Hd'.
Defined.

(** ** The fetcher on success *)

(** X19.  A call that is not served from the cache and whose response
    has a status outside 400-599 and a body of the expected shape
    returns one pair per item, in the order received: the first eight
    characters of the timestamp and the view count unchanged.  It issues
    one request and stores the result under its (title, start, end). *)
Theorem get_pageviews_success (remote : list string → string → Http.outcome)
    (st : state) (title s e : string) (code : Z) (reason u : string)
    (v : Json.value) (data : list (string * Z)) :
  cache st !! (title, s, e) = None →
  remote (requests st) (api_url title s e)
    = Http.Response code reason u (Http.Json v) →
  error_status code = false →
  expected_shape v data →
  ∃ views : dated,
    get_pageviews remote title s e st
    = (State (<[(title, s, e) := unhashed views]> (cache st))
         (requests st ++ [api_url title s e]), inr (unhashed views))
    ∧ length views = length data
    ∧ views.*2 = Json.Int <$> data.*2
    ∧ ∀ i d c, views !! i = Some (d, c) →
        ∃ ts n, data !! i = Some (ts, n) ∧ d = PyStr.take 8 ts
                ∧ c = Json.Int n.
Proof.
  intros Hmiss Ho Hst Hshape.
  exists (series_of data). unfold series_of.
  split_and!.
  - pose proof (get_pageviews_miss_cases remote st title s e Hmiss) as Hc.
    cbn zeta in Hc.
    by rewrite Ho, (raise_for_status_ok _ _ _ Hst),
      (daily_views_expected _ _ Hshape) in Hc.
  - apply length_fmap.
  - rewrite <- !list_fmap_compose. done.
  - intros i d c. rewrite list_lookup_fmap.
    intros ([ts n] & Hi & [= -> ->])%fmap_Some. eauto.
Qed.

Lemma get_pageviews_success_witness :
  ∃ views : dated,
    get_pageviews Demo.remote "Java" "20240101" "20240103" initial_state
    = (State (<[("Java", "20240101", "20240103") := unhashed views]>
                (cache initial_state))
         (requests initial_state ++ [api_url "Java" "20240101" "20240103"]),
       inr (unhashed views))
    ∧ length views
      = length [("2024010200", 7); ("2024010300", 8); ("2024010312", 9)]
    ∧ views.*2
      = Json.Int
          <$> [("2024010200", 7); ("2024010300", 8); ("2024010312", 9)].*2
    ∧ ∀ i d c, views !! i = Some (d, c) →
        ∃ ts n,
          [("2024010200", 7); ("2024010300", 8); ("2024010312", 9)] !! i
          = Some (ts, n)
          ∧ d = PyStr.take 8 ts ∧ c = Json.Int n.
Proof.
  apply (get_pageviews_success Demo.remote initial_state "Java" "20240101"
           "20240103" 200 "OK" (api_url "Java" "20240101" "20240103")
           (items_body [("2024010200", 7); ("2024010300", 8);
                        ("2024010312", 9)])).
  - reflexivity.
  - vm_compute. reflexivity.
  - reflexivity.
  - apply expected_shape_items_body.
Defined.

(** ** Well-formed dates and outbound requests *)

Lemma is_digit_bounds (c : ascii) :
  Strptime.is_digit c = true → 0 ≤ Strptime.digit c ≤ 9.
Proof.
  unfold Strptime.is_digit, Strptime.digit. cbv zeta.
  rewrite andb_true_iff, !Z.leb_le. lia.
Qed.

Lemma digit_inj (a b : ascii) : Strptime.digit a = Strptime.digit b → a = b.
Proof.
  unfold Strptime.digit. intros H.
  assert (N_of_ascii a = N_of_ascii b) as Hn by lia.
  by rewrite <- (ascii_N_embedding a), <- (ascii_N_embedding b), Hn.
Qed.

(** X20.  On eight-digit dates the validator is exact: a well-formed
    date from year 1000 on is returned unchanged, parses to the date it
    spells, and formatting that date gives the string back. *)
Theorem validate_date_eight_digits (s : string) :
  is_YYYYMMDD s = true → PyStr.startswith s "0" = false →
  ∃ d,
    Strptime.strptime_Ymd s = inr d
    ∧ validate_date s = inr s
    ∧ strftime_Ymd d = s.
Proof.
  destruct s as [|y1 [|y2 [|y3 [|y4 [|m1 [|m2 [|d1 [|d2 [|]]]]]]]]];
    try discriminate 1.
  unfold is_YYYYMMDD. intros [Hdig Hv]%andb_prop Hlead.
  pose proof (strptime_eight_digits _ _ _ _ _ _ _ _ Hdig Hv) as Hparse.
  cbv zeta in Hparse.
  cbn [forallb] in Hdig. rewrite !andb_true_iff in Hdig.
  destruct Hdig as (Hy1 & Hy2 & Hy3 & Hy4 & Hm1 & Hm2 & Hd1 & Hd2 & _).
  pose proof (is_digit_bounds _ Hy1). pose proof (is_digit_bounds _ Hy2).
  pose proof (is_digit_bounds _ Hy3). pose proof (is_digit_bounds _ Hy4).
  pose proof (is_digit_bounds _ Hm1). pose proof (is_digit_bounds _ Hm2).
  pose proof (is_digit_bounds _ Hd1). pose proof (is_digit_bounds _ Hd2).
  assert (Strptime.digit y1 ≠ 0) as Hnz.
  { intros Hz. change 0 with (Strptime.digit "0") in Hz.
    apply digit_inj in Hz as ->. discriminate Hlead. }
  pose proof Hv as (? & ? & ?)%valid_ymd_inv.
  pose proof (days_in_month_le_31
                (Strptime.digit y1 * 1000 + Strptime.digit y2 * 100
                 + Strptime.digit y3 * 10 + Strptime.digit y4)
                (Strptime.digit m1 * 10 + Strptime.digit m2)).
  eexists. split; [exact Hparse|]. split.
  { unfold validate_date. by rewrite Hparse. }
  unfold strftime_Ymd. cbn [year month day].
  destruct (of_Z_four_digits
              (Strptime.digit y1 * 1000 + Strptime.digit y2 * 100
               + Strptime.digit y3 * 10 + Strptime.digit y4))
    as (a & b & c & e & -> & Dy & Vy); [lia|].
  destruct (pad2_two_digits (Strptime.digit m1 * 10 + Strptime.digit m2))
    as (n1 & n2 & -> & Dm & Vm); [lia|].
  destruct (pad2_two_digits (Strptime.digit d1 * 10 + Strptime.digit d2))
    as (e1 & e2 & -> & Dd & Vd); [lia|].
  cbn [forallb] in Dy, Dm, Dd.
  rewrite !andb_true_iff in Dy. rewrite !andb_true_iff in Dm.
  rewrite !andb_true_iff in Dd.
  destruct Dy as (Ha & Hb & Hc & He & _), Dm as (Hn1 & Hn2 & _),
    Dd as (He1 & He2 & _).
  pose proof (is_digit_bounds _ Ha). pose proof (is_digit_bounds _ Hb).
  pose proof (is_digit_bounds _ Hc). pose proof (is_digit_bounds _ He).
  pose proof (is_digit_bounds _ Hn1). pose proof (is_digit_bounds _ Hn2).
  pose proof (is_digit_bounds _ He1). pose proof (is_digit_bounds _ He2).
  assert (a = y1) as -> by (apply digit_inj; lia).
  assert (b = y2) as -> by (apply digit_inj; lia).
  assert (c = y3) as -> by (apply digit_inj; lia).
  assert (e = y4) as -> by (apply digit_inj; lia).
  assert (n1 = m1) as -> by (apply digit_inj; lia).
  assert (n2 = m2) as -> by (apply digit_inj; lia).
  assert (e1 = d1) as -> by (apply digit_inj; lia).
  assert (e2 = d2) as -> by (apply digit_inj; lia).
  reflexivity.
Qed.

Lemma validate_date_eight_digits_witness :
  ∃ d,
    Strptime.strptime_Ymd "20240229" = inr d
    ∧ validate_date "20240229" = inr "20240229"
    ∧ strftime_Ymd d = "20240229".
Proof.
  apply (validate_date_eight_digits "20240229"); reflexivity.
Defined.

Section Requests.

Variable remote : list string → string → Http.outcome.
Variable Figure : Type.
Variable px_line : DataFrame → string → list string → result Figure.
Variable update_layout : Figure → Figure.

(** X21.  Nothing unvalidated goes out: every request a submission
    issues is the statistics URL of a title extracted from one of the
    two URLs, over a start and an end date that the validator has
    accepted. *)
Theorem requests_are_validated (now : datetime) (url1 url2 sd ed : string)
    (st st1 : state) (r : result (DataFrame * Figure * string))
    (new : list string) (u : string) :
  process_inputs remote Figure px_line update_layout now url1 url2 sd ed st
    = (st1, r) →
  requests st1 = requests st ++ new → u ∈ new →
  ∃ t s e,
    u = api_url t s e
    ∧ (extract_title url1 = inr t ∨ extract_title url2 = inr t)
    ∧ validate_date s = inr s ∧ validate_date e = inr e
    ∧ default_dates now sd ed = inr (s, e).
Proof.
  rewrite process_inputs_unfold. intros H Hnew Hu.
  assert (requests st = requests st ++ new → False) as Hnone.
  { intros Heq. rewrite <- (app_nil_r (requests st)) in Heq at 1.
    apply app_inv_head in Heq. subst new. by apply elem_of_nil in Hu. }
  destruct (default_dates now sd ed) as [?|[s e]] eqn:Hd;
    [by simplify_eq|].
  destruct (validate_date s) as [?|s'] eqn:Hs; [by simplify_eq|].
  destruct (validate_date e) as [?|e'] eqn:He; [by simplify_eq|].
  apply validate_date_returns in Hs as Hs'. subst s'.
  apply validate_date_returns in He as He'. subst e'.
  destruct (extract_title url1) as [?|t1] eqn:H1; [by simplify_eq|].
  destruct (extract_title url2) as [?|t2] eqn:H2; [by simplify_eq|].
  destruct (get_pageviews remote t1 s e st) as [sta r1] eqn:Hf1.
  apply get_pageviews_last_request in Hf1 as Hl1.
  assert (∃ n1, requests sta = requests st ++ n1
                ∧ ∀ x, x ∈ n1 → x = api_url t1 s e) as (n1 & Hn1 & Hx1).
  { destruct Hl1 as [[-> _]|[-> _]].
    - exists []. rewrite app_nil_r. split; [done|]. by intros x ?%elem_of_nil.
    - eexists [_]. split; [done|]. by intros x ->%list_elem_of_singleton. }
  destruct r1 as [err|v1].
  { simplify_eq. rewrite Hn1 in Hnew. apply app_inv_head in Hnew as <-.
    exists t1, s, e. rewrite (Hx1 _ Hu). auto 10. }
  destruct (get_pageviews remote t2 s e sta) as [stb r2] eqn:Hf2.
  apply get_pageviews_last_request in Hf2 as Hl2.
  assert (∃ n2, requests stb = requests sta ++ n2
                ∧ ∀ x, x ∈ n2 → x = api_url t2 s e) as (n2 & Hn2 & Hx2).
  { destruct Hl2 as [[-> _]|[-> _]].
    - exists []. rewrite app_nil_r. split; [done|]. by intros x ?%elem_of_nil.
    - eexists [_]. split; [done|]. by intros x ->%list_elem_of_singleton. }
  assert (st1 = stb) as ->.
  { destruct r2; [by simplify_eq|].
    destruct (build_frame _ _ _ _); [by simplify_eq|].
    destruct (px_line _ _ _); by simplify_eq. }
  rewrite Hn2, Hn1, <- app_assoc in Hnew.
  apply app_inv_head in Hnew as <-.
  apply elem_of_app in Hu as [Hu|Hu].
  - exists t1, s, e. rewrite (Hx1 _ Hu). auto 10.
  - exists t2, s, e. rewrite (Hx2 _ Hu). auto 10.
Qed.

End Requests.

Lemma requests_are_validated_witness :
  ∃ t s e,
    api_url "Java" "20240101" "20240103" = api_url t s e
    ∧ (extract_title Demo.python_url = inr t
       ∨ extract_title Demo.java_url = inr t)
    ∧ validate_date s = inr s ∧ validate_date e = inr e
    ∧ default_dates Demo.today "20240101" "20240103" = inr (s, e).
Proof.
  apply (requests_are_validated Demo.remote Demo.Figure Demo.px_line
           Demo.update_layout Demo.today Demo.python_url Demo.java_url
           "20240101" "20240103" initial_state
           (Demo.process Demo.python_url Demo.java_url "20240101" "20240103"
              initial_state).1
           (Demo.process Demo.python_url Demo.java_url "20240101" "20240103"
              initial_state).2
           [api_url "Python" "20240101" "20240103";
            api_url "Java" "20240101" "20240103"]).
  - apply surjective_pairing.
  - vm_compute. reflexivity.
  - apply list_elem_of_In. right. left. reflexivity.
Defined.

Section Defaulting.

Variable remote : list string → string → Http.outcome.
Variable Figure : Type.
Variable px_line : DataFrame → string → list string → result Figure.
Variable update_layout : Figure → Figure.

(** X22.  With a date input left empty (and a valid current date from
    year 1001 on) the other date input is not even looked at: the
    defaults pass the validator, so a URL without the prefix is what
    the handler reports, and the state is untouched. *)
Theorem url_error_after_defaulting (now : datetime)
    (url1 url2 sd ed : string) (st : state) :
  valid_ymd (year now) (month now) (day now) = true → 1001 ≤ year now →
  sd = EmptyString ∨ ed = EmptyString →
  PyStr.startswith url1 wiki_prefix = false
  ∨ PyStr.startswith url2 wiki_prefix = false →
  wrapped_process remote Figure px_line update_layout now url1 url2 sd ed st
  = (st, (Frame.empty, None, "Error: URL must be from en.wikipedia.org")).
Proof. apply url_error_with_default_dates. Qed.

End Defaulting.

Lemma url_error_after_defaulting_witness :
  wrapped_process Demo.remote Demo.Figure Demo.px_line Demo.update_layout
    Demo.today "https://de.wikipedia.org/wiki/Python" Demo.java_url
    "2024-01-01" EmptyString initial_state
  = (initial_state,
     (Frame.empty, None, "Error: URL must be from en.wikipedia.org")).
Proof.
  apply (url_error_after_defaulting Demo.remote Demo.Figure Demo.px_line
           Demo.update_layout Demo.today
           "https://de.wikipedia.org/wiki/Python" Demo.java_url
           "2024-01-01" EmptyString initial_state).
  - reflexivity.
  - cbn. lia.
  - by right.
  - left. reflexivity.
Defined.
